(** * WhatsApp Templates: Template, Store and Persistence

    A shallow embedding of the JavaScript sources

    - [Template] (the template class),
    - [Persistence] (js/models/persistence.js),
    - [Store] (the store with persistence),

    together with the part of the JavaScript platform they rely on (values,
    truthiness, [JSON.stringify] / [JSON.parse], [Date], [localStorage],
    callbacks that call back into the Store), and the properties of the
    specification checked against them.  What ECMAScript leaves to the
    engine is a parameter, [Plataforma]. *)

From Stdlib Require Import ZArith NArith String Ascii List Lia.
From Stdlib Require Import Decimal DecimalN DecimalPos DecimalFacts.
From stdpp Require Import base option list gmap strings.

Local Open Scope string_scope.

(** ** JavaScript values *)

Module JS.

(** A decimal numeral, as [JSON] reads and writes it: sign, integer part,
    digits after the point ([Nil] when there is no point) and an optional
    exponent.  A finite number of JavaScript, a double, is kept as the
    numeral that [Number::toString] writes for it, the shortest that reads
    back as that double: two numbers are the same double exactly when their
    numerals are equal (both zeros are written [0]).  [redondear], of the
    platform, takes a numeral to the number nearest to it. *)
Record numero : Type := Numero {
  num_neg : bool;
  num_ent : N;
  num_frac : uint;
  num_exp : option Z
}.

#[export] Instance uint_eq_dec : EqDecision uint.
Proof. solve_decision. Defined.

#[export] Instance numero_eq_dec : EqDecision numero.
Proof. solve_decision. Defined.

Definition num_de_N (n : N) : numero :=
  {| num_neg := false; num_ent := n; num_frac := Nil; num_exp := None |}.

Fixpoint solo_ceros (d : uint) : bool :=
  match d with
  | Nil => true
  | D0 d' => solo_ceros d'
  | _ => false
  end.

Definition num_es_cero (n : numero) : bool :=
  (num_ent n =? 0)%N && solo_ceros (num_frac n).

(** The exact sum of a clock reading (milliseconds since the epoch, an
    integer) and a number [0.f] of the interval [0, 1). *)
Definition num_suma_azar (ahora : N) (f : uint) : numero :=
  {| num_neg := false; num_ent := ahora; num_frac := f; num_exp := None |}.

(** The values of the program.  An object is a plain object: the list of
    its own data properties in the order of their creation, with
    [Object.prototype] as its prototype; no name is twice in the list.
    [JInfinito] is one of the two infinities ([JSON.parse] gives one for a
    numeral beyond the largest double); [NaN], which no operation of the
    program produces, functions and symbols are outside the model. *)
#[local] Unset Elimination Schemes.
Inductive jsval : Type :=
| JUndefined
| JNull
| JBool (b : bool)
| JNum (n : numero)
| JInfinito (negativo : bool)
| JStr (s : string)
| JArr (xs : list jsval)
| JObj (campos : list (string * jsval)).
#[local] Set Elimination Schemes.

Definition es_undefined (v : jsval) : bool :=
  match v with JUndefined => true | _ => false end.

(** ToBoolean *)
Definition truthy (v : jsval) : bool :=
  match v with
  | JUndefined | JNull => false
  | JBool b => b
  | JNum n => negb (num_es_cero n)
  | JInfinito _ => true
  | JStr s => negb (String.eqb s "")
  | JArr _ | JObj _ => true
  end.

(** [a && b] *)
Definition js_and (a b : jsval) : jsval := if truthy a then b else a.

(** [typeof v === 'object'] (true of [null] as well) *)
Definition typeof_object (v : jsval) : bool :=
  match v with
  | JNull | JArr _ | JObj _ => true
  | _ => false
  end.

Definition Array_isArray (v : jsval) : bool :=
  match v with JArr _ => true | _ => false end.

Fixpoint buscar_campo (k : string) (campos : list (string * jsval)) : jsval :=
  match campos with
  | [] => JUndefined
  | (k', v) :: resto => if String.eqb k k' then v else buscar_campo k resto
  end.

(** [s.length], the number of UTF-16 code units of a text.  Texts are kept
    as their UTF-8 bytes: every byte that begins a character counts one, and
    the first byte of a character of four bytes counts two. *)
Fixpoint unidades (s : string) : nat :=
  match s with
  | EmptyString => 0
  | String c r =>
      let n := N_of_ascii c in
      (if (n <? 128)%N || (192 <=? n)%N then 1 else 0)
      + (if (240 <=? n)%N then 1 else 0) + unidades r
  end.

(** [s.includes(sub)] *)
Fixpoint incluye (s sub : string) : bool :=
  String.prefix sub s
  || match s with
     | EmptyString => false
     | String _ r => incluye r sub
     end.

(** [v.k] for an own data property ([undefined] when absent) or the
    [length] of a string or array.  Reading a property of [undefined] or
    [null] is a TypeError: [None]. *)
Definition prop (v : jsval) (k : string) : option jsval :=
  match v with
  | JUndefined | JNull => None
  | JObj campos => Some (buscar_campo k campos)
  | JStr s =>
      Some (if String.eqb k "length"
            then JNum (num_de_N (N.of_nat (unidades s))) else JUndefined)
  | JArr xs =>
      Some (if String.eqb k "length"
            then JNum (num_de_N (N.of_nat (length xs))) else JUndefined)
  | _ => Some JUndefined
  end.

Definition campo (v : jsval) (k : string) : jsval :=
  default JUndefined (prop v k).

(** [a === b].  Two arrays or objects are the same only when they are the
    same object, which a value does not tell: they compare different. *)
Definition estricto_igual (a b : jsval) : bool :=
  match a, b with
  | JUndefined, JUndefined | JNull, JNull => true
  | JBool x, JBool y => Bool.eqb x y
  | JNum x, JNum y => bool_decide (x = y)
  | JInfinito x, JInfinito y => Bool.eqb x y
  | JStr x, JStr y => String.eqb x y
  | _, _ => false
  end.

(** [o[k] = v] for an own data property: the value is overwritten, or the
    property is created, the last one. *)
Fixpoint poner_campo (k : string) (v : jsval) (campos : list (string * jsval))
  : list (string * jsval) :=
  match campos with
  | [] => [(k, v)]
  | (k', v') :: resto =>
      if String.eqb k k' then (k, v) :: resto
      else (k', v') :: poner_campo k v resto
  end.

(** *** What the engine decides *)

(** ECMAScript leaves these to the implementation, or their definition is
    outside this development; the program is modelled for every choice of
    them.

    - [redondear n]: the double nearest to the numeral [n], as the numeral
      [Number::toString] writes for it; [None] when [n] is beyond the
      largest double, where its value is an infinity.
    - [Date_parse_otro s]: what [Date.parse] makes of a text that is not
      of the format [toISOString] writes (ECMAScript fixes the result for
      that format only).
    - [Object_prototype k]: for a name [k] that [Object.prototype] holds a
      function under ([constructor], [toString], [valueOf], ...), the
      source text [Function.prototype.toString] gives for that function;
      [None] for every other name.
    - [admite m k v]: whether the storage, holding [m], accepts
      [setItem(k, v)] (the quota).
    - [mensaje_del_motor e]: the text of [error.message] for an error the
      engine raises, [e] naming the error.
    - [pila]: how many calls of callbacks can be nested, one inside
      another, before the stack is exhausted. *)
Class Plataforma : Type := mkPlataforma {
  redondear : numero -> option numero;
  Date_parse_otro : string -> option Z;
  Object_prototype : string -> option string;
  admite : gmap string string -> string -> string -> bool;
  mensaje_del_motor : string -> string;
  pila : nat
}.

(** *** JSON text *)

Definition comilla : ascii := "034"%char.
Definition barra : ascii := "\"%char.

Definition hex_de_N (n : N) : ascii :=
  if (n <? 10)%N then ascii_of_N (48 + n) else ascii_of_N (87 + n).

(** The escapes [JSON.stringify] writes inside a string literal. *)
Definition escapar (c : ascii) : string :=
  let n := N_of_ascii c in
  if (n =? 34)%N then String barra (String comilla "")
  else if (n =? 92)%N then String barra (String barra "")
  else if (n =? 8)%N then String barra "b"
  else if (n =? 9)%N then String barra "t"
  else if (n =? 10)%N then String barra "n"
  else if (n =? 12)%N then String barra "f"
  else if (n =? 13)%N then String barra "r"
  else if (n <? 32)%N then
    String barra (String "u" (String "0" (String "0"
      (String (hex_de_N (n / 16)) (String (hex_de_N (n mod 16)) "")))))
  else String c "".

Fixpoint escapar_cadena (s : string) : string :=
  match s with
  | EmptyString => ""
  | String c r => escapar c ++ escapar_cadena r
  end.

Definition texto_cadena (s : string) : string :=
  String comilla (escapar_cadena s ++ String comilla "").

Fixpoint texto_digitos (d : uint) : string :=
  match d with
  | Nil => ""
  | D0 r => String "0" (texto_digitos r)
  | D1 r => String "1" (texto_digitos r)
  | D2 r => String "2" (texto_digitos r)
  | D3 r => String "3" (texto_digitos r)
  | D4 r => String "4" (texto_digitos r)
  | D5 r => String "5" (texto_digitos r)
  | D6 r => String "6" (texto_digitos r)
  | D7 r => String "7" (texto_digitos r)
  | D8 r => String "8" (texto_digitos r)
  | D9 r => String "9" (texto_digitos r)
  end.

Definition texto_numero (n : numero) : string :=
  (if num_neg n then "-" else "")
  ++ texto_digitos (N.to_uint (num_ent n))
  ++ match num_frac n with
     | Nil => ""
     | _ => "." ++ texto_digitos (num_frac n)
     end
  ++ match num_exp n with
     | None => ""
     | Some e =>
         "e" ++ (if (e <? 0)%Z then "-" else "+")
         ++ texto_digitos (N.to_uint (Z.abs_N e))
     end.

Fixpoint unir (sep : string) (l : list string) : string :=
  match l with
  | [] => ""
  | [x] => x
  | x :: r => x ++ sep ++ unir sep r
  end.

Fixpoint presentes (l : list (option string)) : list string :=
  match l with
  | [] => []
  | Some x :: r => x :: presentes r
  | None :: r => presentes r
  end.

(** The text of a value, the properties of an object in the order of the
    list: no white space; a property whose value is [undefined] is left out
    of an object; [undefined] in an array and the infinities are written
    [null]. *)
Fixpoint imprimir (v : jsval) : string :=
  match v with
  | JUndefined | JNull | JInfinito _ => "null"
  | JBool true => "true"
  | JBool false => "false"
  | JNum n => texto_numero n
  | JStr s => texto_cadena s
  | JArr xs => "[" ++ unir "," (map imprimir xs) ++ "]"
  | JObj campos =>
      "{" ++ unir ","
        (presentes
           (map (fun kv : string * jsval =>
                   if es_undefined (snd kv) then None
                   else Some (texto_cadena (fst kv) ++ ":"
                              ++ imprimir (snd kv))) campos))
      ++ "}"
  end.

(** [JSON.parse], by recursive descent.  The result carries the text that
    follows the value read. *)

Definition es_espacio (c : ascii) : bool :=
  let n := N_of_ascii c in
  (n =? 32)%N || (n =? 9)%N || (n =? 10)%N || (n =? 13)%N.

Fixpoint saltar_espacios (s : string) : string :=
  match s with
  | EmptyString => ""
  | String c r => if es_espacio c then saltar_espacios r else s
  end.

Definition digito_de (c : ascii) : option (uint -> uint) :=
  let n := N_of_ascii c in
  if (n =? 48)%N then Some D0 else if (n =? 49)%N then Some D1
  else if (n =? 50)%N then Some D2 else if (n =? 51)%N then Some D3
  else if (n =? 52)%N then Some D4 else if (n =? 53)%N then Some D5
  else if (n =? 54)%N then Some D6 else if (n =? 55)%N then Some D7
  else if (n =? 56)%N then Some D8 else if (n =? 57)%N then Some D9
  else None.

(** The longest prefix of digits. *)
Fixpoint leer_digitos (s : string) : uint * string :=
  match s with
  | EmptyString => (Nil, "")
  | String c r =>
      match digito_de c with
      | Some D => let (d, r') := leer_digitos r in (D d, r')
      | None => (Nil, s)
      end
  end.

Definition leer_digitos1 (s : string) : option (uint * string) :=
  match leer_digitos s with
  | (Nil, _) => None
  | dr => Some dr
  end.

Definition leer_entero (s : string) : option (N * string) :=
  match s with
  | EmptyString => None
  | String c r =>
      if (N_of_ascii c =? 48)%N then Some (0%N, r)
      else match leer_digitos1 s with
           | Some (d, r') => Some (N.of_uint d, r')
           | None => None
           end
  end.

Definition leer_fraccion (s : string) : option (uint * string) :=
  match s with
  | String "." r => leer_digitos1 r
  | _ => Some (Nil, s)
  end.

Definition leer_exponente (s : string) : option (option Z * string) :=
  match s with
  | String c r =>
      if (N_of_ascii c =? 101)%N || (N_of_ascii c =? 69)%N then
        let (neg, r1) :=
          match r with
          | String "-" r' => (true, r')
          | String "+" r' => (false, r')
          | _ => (false, r)
          end in
        match leer_digitos1 r1 with
        | Some (d, r2) =>
            let e := Z.of_N (N.of_uint d) in
            Some (Some (if neg then - e else e)%Z, r2)
        | None => None
        end
      else Some (None, s)
  | EmptyString => Some (None, s)
  end.

Definition leer_signo (s : string) : bool * string :=
  match s with
  | String "-" r => (true, r)
  | _ => (false, s)
  end.

Definition leer_numero (s : string) : option (numero * string) :=
  let (neg, s1) := leer_signo s in
  match leer_entero s1 with
  | Some (n, s2) =>
      match leer_fraccion s2 with
      | Some (f, s3) =>
          match leer_exponente s3 with
          | Some (e, s4) =>
              Some ({| num_neg := neg; num_ent := n;
                       num_frac := f; num_exp := e |}, s4)
          | None => None
          end
      | None => None
      end
  | None => None
  end.

Definition N_de_hex (c : ascii) : option N :=
  let n := N_of_ascii c in
  if (48 <=? n)%N && (n <=? 57)%N then Some (n - 48)%N
  else if (97 <=? n)%N && (n <=? 102)%N then Some (n - 87)%N
  else if (65 <=? n)%N && (n <=? 70)%N then Some (n - 55)%N
  else None.

Definition N_de_hex4 (a b c d : ascii) : option N :=
  match N_de_hex a, N_de_hex b, N_de_hex c, N_de_hex d with
  | Some x, Some y, Some z, Some w => Some (((x * 16 + y) * 16 + z) * 16 + w)%N
  | _, _, _, _ => None
  end.

(** A code unit written [\uXXXX], as bytes of the text (UTF-8; a
    surrogate is encoded on its own). *)
Definition utf8 (n : N) : string :=
  if (n <? 128)%N then String (ascii_of_N n) ""
  else if (n <? 2048)%N then
    String (ascii_of_N (192 + n / 64))
      (String (ascii_of_N (128 + n mod 64)) "")
  else
    String (ascii_of_N (224 + n / 4096))
      (String (ascii_of_N (128 + (n / 64) mod 64))
         (String (ascii_of_N (128 + n mod 64)) "")).

Definition escape_simple (c : ascii) : option ascii :=
  let n := N_of_ascii c in
  if (n =? 34)%N then Some comilla
  else if (n =? 92)%N then Some barra
  else if (n =? 47)%N then Some "/"%char
  else if (n =? 98)%N then Some (ascii_of_N 8)
  else if (n =? 116)%N then Some (ascii_of_N 9)
  else if (n =? 110)%N then Some (ascii_of_N 10)
  else if (n =? 102)%N then Some (ascii_of_N 12)
  else if (n =? 114)%N then Some (ascii_of_N 13)
  else None.

Definition anteponer (p : string) (x : option (string * string))
  : option (string * string) :=
  match x with
  | Some (s, r) => Some (p ++ s, r)
  | None => None
  end.

(** The rest of a string literal, after its opening quote. *)
Fixpoint leer_cadena (s : string) : option (string * string) :=
  match s with
  | EmptyString => None
  | String c r =>
      if (N_of_ascii c =? 34)%N then Some ("", r)
      else if (N_of_ascii c =? 92)%N then
        match r with
        | EmptyString => None
        | String e r1 =>
            if (N_of_ascii e =? 117)%N then
              match r1 with
              | String h1 (String h2 (String h3 (String h4 r2))) =>
                  match N_de_hex4 h1 h2 h3 h4 with
                  | Some n => anteponer (utf8 n) (leer_cadena r2)
                  | None => None
                  end
              | _ => None
              end
            else
              match escape_simple e with
              | Some x => anteponer (String x "") (leer_cadena r1)
              | None => None
              end
        end
      else if (N_of_ascii c <? 32)%N then None
      else anteponer (String c "") (leer_cadena r)
  end.

(** The text after the prefix [p], when [s] begins with it. *)
Fixpoint tras_prefijo (p s : string) : option string :=
  match p with
  | EmptyString => Some s
  | String c p' =>
      match s with
      | String c' s' => if Ascii.eqb c c' then tras_prefijo p' s' else None
      | EmptyString => None
      end
  end.

Definition leer_literal (lit : string) (v : jsval) (s : string)
  : option (jsval * string) :=
  match tras_prefijo lit s with
  | Some r => Some (v, r)
  | None => None
  end.

(** The name of an array index: the decimal numeral, without leading
    zeros, of an integer below 2^32 - 1. *)
Definition indice_de (k : string) : option N :=
  match leer_digitos k with
  | (d, EmptyString) =>
      let n := N.of_uint d in
      if String.eqb (texto_digitos (N.to_uint n)) k && (n <? 4294967295)%N
      then Some n else None
  | _ => None
  end.

(** The properties of an object in the order [JSON.stringify], [for-in]
    and [Object.keys] list them: the array indices first, ascending, then
    the other names in the order of their creation.  [colocar] puts one
    more property, the last created, at its place. *)
Fixpoint insertar {A : Type} (i : N) (kv : string * A) (l : list (string * A))
  : list (string * A) :=
  match l with
  | [] => [kv]
  | x :: r =>
      match indice_de (fst x) with
      | Some j => if (i <? j)%N then kv :: l else x :: insertar i kv r
      | None => kv :: l
      end
  end.

Definition colocar {A : Type} (l : list (string * A)) (kv : string * A)
  : list (string * A) :=
  match indice_de (fst kv) with
  | Some i => insertar i kv l
  | None => l ++ [kv]
  end.

Definition ordenar_campos {A : Type} (l : list (string * A))
  : list (string * A) :=
  fold_left colocar l [].

(** A value with the properties of every object in it in that order. *)
Fixpoint enumerado (v : jsval) : jsval :=
  match v with
  | JArr xs => JArr (map enumerado xs)
  | JObj campos =>
      JObj (ordenar_campos
              (map (fun kv : string * jsval => (fst kv, enumerado (snd kv)))
                 campos))
  | _ => v
  end.

(** [JSON.stringify] *)
Definition JSON_stringify (v : jsval) : string := imprimir (enumerado v).

(** Duplicate names in an object: the last value wins, at the place of the
    first. *)
Definition objeto_de (l : list (string * jsval)) : jsval :=
  JObj (fold_left (fun acc kv => poner_campo (fst kv) (snd kv) acc) l []).

Fixpoint leer_valor (n : nat) (s : string) : option (jsval * string) :=
  match n with
  | O => None
  | S n' =>
      match saltar_espacios s with
      | EmptyString => None
      | String c r =>
          let k := N_of_ascii c in
          if (k =? 123)%N then
            match saltar_espacios r with
            | String "}" r' => Some (JObj [], r')
            | _ =>
                match leer_miembros n' r with
                | Some (l, r') => Some (objeto_de l, r')
                | None => None
                end
            end
          else if (k =? 91)%N then
            match saltar_espacios r with
            | String "]" r' => Some (JArr [], r')
            | _ =>
                match leer_elementos n' r with
                | Some (l, r') => Some (JArr l, r')
                | None => None
                end
            end
          else if (k =? 34)%N then
            match leer_cadena r with
            | Some (x, r') => Some (JStr x, r')
            | None => None
            end
          else if (k =? 116)%N then leer_literal "rue" (JBool true) r
          else if (k =? 102)%N then leer_literal "alse" (JBool false) r
          else if (k =? 110)%N then leer_literal "ull" JNull r
          else
            match leer_numero (String c r) with
            | Some (x, r') => Some (JNum x, r')
            | None => None
            end
      end
  end
with leer_elementos (n : nat) (s : string) : option (list jsval * string) :=
  match n with
  | O => None
  | S n' =>
      match leer_valor n' s with
      | Some (v, r) =>
          match saltar_espacios r with
          | String "," r' =>
              match leer_elementos n' r' with
              | Some (l, r'') => Some (v :: l, r'')
              | None => None
              end
          | String "]" r' => Some ([v], r')
          | _ => None
          end
      | None => None
      end
  end
with leer_miembros (n : nat) (s : string)
  : option (list (string * jsval) * string) :=
  match n with
  | O => None
  | S n' =>
      match saltar_espacios s with
      | String c r =>
          if (N_of_ascii c =? 34)%N then
            match leer_cadena r with
            | Some (k, r1) =>
                match saltar_espacios r1 with
                | String ":" r2 =>
                    match leer_valor n' r2 with
                    | Some (v, r3) =>
                        match saltar_espacios r3 with
                        | String "," r4 =>
                            match leer_miembros n' r4 with
                            | Some (l, r5) => Some ((k, v) :: l, r5)
                            | None => None
                            end
                        | String "}" r4 => Some ([(k, v)], r4)
                        | _ => None
                        end
                    | None => None
                    end
                | _ => None
                end
            | None => None
            end
          else None
      | EmptyString => None
      end
  end.

(** The value a JSON text denotes, its numbers as the numerals of the
    text; [None] when the text is not JSON. *)
Definition JSON_leer (s : string) : option jsval :=
  match leer_valor (2 * String.length s + 2) s with
  | Some (v, r) =>
      match saltar_espacios r with
      | EmptyString => Some v
      | _ => None
      end
  | None => None
  end.

(** The values [JSON.stringify] writes whole: no [undefined] and no
    infinity inside, and no name twice in an object. *)
Fixpoint json_limpio (v : jsval) : bool :=
  match v with
  | JUndefined | JInfinito _ => false
  | JArr xs => forallb json_limpio xs
  | JObj campos =>
      bool_decide (NoDup (map fst campos))
      && forallb (fun kv : string * jsval => json_limpio (snd kv)) campos
  | _ => true
  end.

(** Whether an object has an own property of the name. *)
Definition tiene_propia (k : string) (campos : list (string * jsval)) : bool :=
  existsb (fun kv => String.eqb k (fst kv)) campos.

(** ToString, and ToPropertyKey: [None] is the TypeError.  A plain object
    is converted by the [toString] it inherits unless it has a property
    [toString] of its own, which is no function: then [valueOf] is tried,
    which returns no primitive, and the conversion fails.  The elements of
    an array are converted and joined. *)
Fixpoint a_cadena (v : jsval) : option string :=
  match v with
  | JUndefined => Some "undefined"
  | JNull => Some "null"
  | JBool true => Some "true"
  | JBool false => Some "false"
  | JNum n => Some (texto_numero n)
  | JInfinito negativo => Some (if negativo then "-Infinity" else "Infinity")
  | JStr s => Some s
  | JArr xs =>
      option_map (unir ",")
        ((fix todos (l : list jsval) : option (list string) :=
            match l with
            | [] => Some []
            | x :: r =>
                match match x with
                      | JUndefined | JNull => Some ""
                      | _ => a_cadena x
                      end, todos r with
                | Some s, Some ss => Some (s :: ss)
                | _, _ => None
                end
            end) xs)
  | JObj campos =>
      if tiene_propia "toString" campos then None else Some "[object Object]"
  end.

Section ConPlataforma.
Context {Pl : Plataforma}.

(** A value read from a text, its numerals rounded to numbers. *)
Fixpoint redondeado (v : jsval) : jsval :=
  match v with
  | JNum n =>
      match redondear n with
      | Some n' => JNum n'
      | None => JInfinito (num_neg n)
      end
  | JArr xs => JArr (map redondeado xs)
  | JObj campos =>
      JObj (map (fun kv : string * jsval => (fst kv, redondeado (snd kv)))
              campos)
  | _ => v
  end.

(** [JSON.parse s]: [None] stands for the SyntaxError. *)
Definition JSON_parse (s : string) : option jsval :=
  option_map redondeado (JSON_leer s).

(** [Date.now() + Math.random()]: the double nearest to the sum (the sum
    is below 2^54 and has one). *)
Definition num_ahora_mas_azar (ahora : N) (f : uint) : numero :=
  default (num_suma_azar ahora f) (redondear (num_suma_azar ahora f)).

(** *** Dates *)

(** The time value of a [Date] object: milliseconds since the epoch, or
    [None] for the invalid date ([NaN]). *)
Definition Date : Type := option Z.

Definition ms_por_dia : Z := 86400000.
Definition tiempo_maximo : Z := 8640000000000000.

Definition TimeClip (t : Z) : Date :=
  if (Z.abs t <=? tiempo_maximo)%Z then Some t else None.

(** Day number (days since 1970-01-01) to proleptic Gregorian year, month
    and day, and back. *)
Definition civil_de_dias (z0 : Z) : Z * Z * Z :=
  let z := (z0 + 719468)%Z in
  let era := (z / 146097)%Z in
  let doe := (z mod 146097)%Z in
  let yoe := ((doe - doe / 1460 + doe / 36524 - doe / 146096) / 365)%Z in
  let doy := (doe - (365 * yoe + yoe / 4 - yoe / 100))%Z in
  let mp := ((5 * doy + 2) / 153)%Z in
  let d := (doy - (153 * mp + 2) / 5 + 1)%Z in
  let m := (if mp <? 10 then mp + 3 else mp - 9)%Z in
  let y := (yoe + era * 400)%Z in
  ((if m <=? 2 then y + 1 else y)%Z, m, d).

Definition dias_de_civil (y0 m d : Z) : Z :=
  let y := (if m <=? 2 then y0 - 1 else y0)%Z in
  let era := (y / 400)%Z in
  let yoe := (y mod 400)%Z in
  let mp := (if m <=? 2 then m + 9 else m - 3)%Z in
  let doy := ((153 * mp + 2) / 5 + d - 1)%Z in
  let doe := (yoe * 365 + yoe / 4 - yoe / 100 + doy)%Z in
  (era * 146097 + doe - 719468)%Z.

Definition cifra (n : Z) : ascii := ascii_of_N (48 + Z.to_N (n mod 10)).

(** [n] written with exactly [w] digits. *)
Fixpoint cifras (w : nat) (n : Z) : string :=
  match w with
  | O => ""
  | S w' => cifras w' (n / 10) ++ String (cifra n) ""
  end.

(** Exactly [w] digits read from the front of [s]. *)
Fixpoint leer_cifras (w : nat) (acc : Z) (s : string) : option (Z * string) :=
  match w with
  | O => Some (acc, s)
  | S w' =>
      match s with
      | String c r =>
          let n := N_of_ascii c in
          if (48 <=? n)%N && (n <=? 57)%N
          then leer_cifras w' (10 * acc + Z.of_N (n - 48)) r
          else None
      | EmptyString => None
      end
  end.

Definition texto_anio (y : Z) : string :=
  if (0 <=? y)%Z && (y <=? 9999)%Z then cifras 4 y
  else (if (y <? 0)%Z then "-" else "+") ++ cifras 6 (Z.abs y).

(** [toISOString()]; [None] is the RangeError of an invalid date. *)
Definition Date_toISOString (d : Date) : option string :=
  match d with
  | None => None
  | Some t =>
      if negb (Z.abs t <=? tiempo_maximo)%Z then None else
      let dias := (t / ms_por_dia)%Z in
      let ms := (t mod ms_por_dia)%Z in
      let '(y, m, dd) := civil_de_dias dias in
      Some (texto_anio y ++ "-" ++ cifras 2 m ++ "-" ++ cifras 2 dd
            ++ "T" ++ cifras 2 (ms / 3600000)
            ++ ":" ++ cifras 2 ((ms / 60000) mod 60)
            ++ ":" ++ cifras 2 ((ms / 1000) mod 60)
            ++ "." ++ cifras 3 (ms mod 1000) ++ "Z")
  end.

Definition leer_anio (s : string) : option (Z * string) :=
  match s with
  | String "+" r => leer_cifras 6 0 r
  | String "-" r =>
      match leer_cifras 6 0 r with
      | Some (y, r') => if (y =? 0)%Z then None else Some ((- y)%Z, r')
      | None => None
      end
  | _ => leer_cifras 4 0 s
  end.

Definition tras (c : ascii) (s : string) : option string :=
  match s with
  | String c' r => if Ascii.eqb c c' then Some r else None
  | EmptyString => None
  end.

(** A text of the format [YYYY-MM-DDTHH:mm:ss.sssZ], the year possibly
    signed and of six digits, read as a time value. *)
Definition leer_fecha (s : string) : Date :=
  y ← leer_anio s;
  r ← tras "-" y.2;
  m ← leer_cifras 2 0 r;
  r ← tras "-" m.2;
  d ← leer_cifras 2 0 r;
  r ← tras "T" d.2;
  hh ← leer_cifras 2 0 r;
  r ← tras ":" hh.2;
  mm ← leer_cifras 2 0 r;
  r ← tras ":" mm.2;
  ss ← leer_cifras 2 0 r;
  r ← tras "." ss.2;
  ms ← leer_cifras 3 0 r;
  r ← tras "Z" ms.2;
  if String.eqb r ""
     && (1 <=? m.1)%Z && (m.1 <=? 12)%Z && (1 <=? d.1)%Z && (d.1 <=? 31)%Z
     && (hh.1 <=? 23)%Z && (mm.1 <=? 59)%Z && (ss.1 <=? 59)%Z
  then TimeClip (dias_de_civil y.1 m.1 d.1 * ms_por_dia
                 + hh.1 * 3600000 + mm.1 * 60000 + ss.1 * 1000 + ms.1)
  else None.

(** The integer part of a number (ToIntegerOrInfinity). *)
Definition num_truncar (n : numero) : Z :=
  let k := Z.of_nat (nb_digits (num_frac n)) in
  let m := (Z.of_N (num_ent n) * 10 ^ k + Z.of_N (N.of_uint (num_frac n)))%Z in
  let sh := (default 0 (num_exp n) - k)%Z in
  let a := (if 0 <=? sh then m * 10 ^ sh else m / 10 ^ (- sh))%Z in
  if num_neg n then (- a)%Z else a.

(** [Date.parse]: a text that [toISOString] writes denotes the date it
    was written for; what any other text gives is the engine's choice. *)
Definition Date_parse (s : string) : Date :=
  match leer_fecha s with
  | Some t =>
      if bool_decide (Date_toISOString (Some t) = Some s) then Some t
      else Date_parse_otro s ≫= TimeClip
  | None => Date_parse_otro s ≫= TimeClip
  end.

(** [new Date(v)] with one argument; the outer [None] is the TypeError of
    an object or array that cannot be converted to a primitive. *)
Definition Date_de_valor (v : jsval) : option Date :=
  match v with
  | JUndefined | JInfinito _ => Some None
  | JNull => Some (Some 0%Z)
  | JBool b => Some (Some (if b then 1 else 0)%Z)
  | JNum n => Some (TimeClip (num_truncar n))
  | JStr s => Some (Date_parse s)
  | JArr _ | JObj _ => option_map Date_parse (a_cadena v)
  end.

End ConPlataforma.

End JS.

Import JS.

(** ** Template *)

Record Template : Type := mkTemplate {
  titulo : jsval;
  mensaje : jsval;
  hashtag : jsval;
  categoria : jsval;
  fechaCreacion : Date;
  id : numero
}.

(** [esValida()]: the value of
    [this.titulo && this.mensaje && this.hashtag && this.categoria]. *)
Definition esValida (t : Template) : jsval :=
  js_and (js_and (js_and (titulo t) (mensaje t)) (hashtag t)) (categoria t).

Record EstadoLocal : Type := mkEstadoLocal {
  el_id : numero;
  el_titulo : jsval;
  el_categoria : jsval;
  el_hashtag : jsval;
  longitud : jsval;
  el_fechaCreacion : Date
}.

(** [getEstadoLocal()]; [this.mensaje.length] is a TypeError ([None]) when
    the message is [undefined] or [null]. *)
Definition getEstadoLocal (t : Template) : option EstadoLocal :=
  match prop (mensaje t) "length" with
  | Some l =>
      Some (mkEstadoLocal (id t) (titulo t) (categoria t) (hashtag t) l
              (fechaCreacion t))
  | None => None
  end.

(** ** Program state and effects *)

(** The outcome of a call: a value, or a thrown error with its message
    (for an error the engine raises, a name of the error: its text is the
    engine's, [mensaje_del_motor]). *)
Inductive resultado (A : Type) : Type :=
| Normal (a : A)
| Lanza (error : string).
Arguments Normal {A} a.
Arguments Lanza {A} error.

Inductive DatosEvento : Type :=
| DatosInicializado (plantillas : nat) (fuente : string)
| DatosAgregada (plantilla : Template) (total : nat)
| DatosEliminada (plantillaEliminada : Template) (total : nat)
| DatosTodasEliminadas (totalEliminadas : nat)
| DatosRecargado (total : nat).

(** What the object of the counts by category holds under a name: a
    number of templates or, for a name the object inherits a function
    under, a text (see [Persistence.incrementar]). *)
Inductive conteo : Type :=
| Veces (n : N)
| Texto (s : string).

Record Estadisticas : Type := mkEstadisticas {
  total : nat;
  categorias : list (string * conteo);
  est_ultimaActualizacion : Date;
  estaVacio : bool;
  est_persistenciaHabilitada : bool;
  infoLocalStorage : jsval
}.

Record Evento : Type := mkEvento {
  tipo : string;
  datos : DatosEvento;
  estadisticas : Estadisticas;
  timestamp : Date
}.

Section Estado.

(** What the rest of the page keeps for itself: the part of the page
    outside Store, Persistence and the storage. *)
Context {Pl : Plataforma} {Σ : Type}.

(** What a caller may pass where a [Template] is expected. *)
Inductive argumento : Type :=
| EsTemplate (t : Template)
| OtroValor (v : jsval).

(** What a call of the page gets back. *)
Inductive respuesta : Type :=
| RNada
| RBool (b : bool)
| RArreglo (k : nat) (elementos : list Template)
| RPlantillas (ps : list Template)
| RTexto (o : option string)
| RPropio (σ : Σ).

(** The code of the page, callbacks included, as far as it deals with the
    Store, with Persistence and with the storage.

    - An [operacion] is one call.  The page holds the arrays
      [getPlantillas] returned to it, which it may read and change as it
      likes ([OpCambiarArreglo], by any array operation: [push], [pop],
      [splice], an assignment to an index or to [length], ...); it holds no
      other array of the Store.  [OpPropio] is a step on what the page
      keeps for itself, which it gets back as it is after the step.
    - A [Suscriptor] is a function passed to [suscribirse]: [sus_id]
      stands for the identity of the function object ([indexOf] compares
      callbacks by identity), [sus_cuerpo] is what it does when called
      with an event.
    - A [programa] is what a function does: calls, each followed by what
      it goes on to do with the outcome of the call (a value, or an
      exception it caught), and at the end a last step on the state the
      page keeps for itself, with which it returns or throws. *)
Inductive operacion : Type :=
| OpInicializar
| OpAgregarPlantilla (a : argumento)
| OpEliminarPlantilla (ident : jsval)
| OpLimpiarTodas
| OpReset
| OpRecargarDesdePersistencia
| OpGetPlantillas
| OpSuscribirse (callback : argumento_callback)
| OpCancelar (callback : Suscriptor)
| OpCambiarArreglo (k : nat) (f : list Template -> list Template)
| OpLeerArreglo (k : nat)
| OpGuardarPlantillas (ps : list Template)
| OpCargarPlantillas
| OpResetearPlantillas
| OpSetItem (k v : string)
| OpRemoveItem (k : string)
| OpGetItem (k : string)
| OpConsole (nivel texto : string)
| OpPropio (f : Σ -> Σ)
with argumento_callback : Type :=
| EsFuncion (callback : Suscriptor)
| NoFuncion (v : jsval)
with Suscriptor : Type :=
| mkSuscriptor (sus_id : nat) (sus_cuerpo : Evento -> programa)
with programa : Type :=
| Termina (f : Σ -> resultado unit * Σ)
| Ejecuta (o : operacion) (k : resultado respuesta -> programa).

Definition sus_id (callback : Suscriptor) : nat :=
  match callback with mkSuscriptor i _ => i end.

Definition sus_cuerpo (callback : Suscriptor) : Evento -> programa :=
  match callback with mkSuscriptor _ c => c end.

Record Mundo : Type := mkMundo {
  (** the clock and [Math.random], as the sequences of their readings *)
  instante : nat -> N;
  azar : nat -> uint;
  lecturas_reloj : nat;
  lecturas_azar : nat;
  (** the browser *)
  localStorage : gmap string string;
  consola : list (string * string);
  hay_mostrarNotificacion : bool;
  notificaciones : list (string * string);
  (** the arrays of templates handed across the Store boundary, by address *)
  arreglos : list (list Template);
  (** the addresses of the arrays [getPlantillas] returned to the page,
      oldest first (kept to say which arrays the page holds; the program
      does not read it) *)
  entregados : list nat;
  (** [Store._state] and [Store._suscriptores] *)
  st_plantillas : nat;
  st_ultimaActualizacion : Date;
  st_persistenciaHabilitada : bool;
  _suscriptores : list Suscriptor;
  (** the calls of callbacks made so far, oldest first (kept for the
      statements about notification; the program does not read it) *)
  llamadas : list (nat * Evento);
  exterior : Σ
}.

Definition con_lecturas_reloj (x : nat) (w : Mundo) : Mundo :=
  {| instante := instante w; azar := azar w; lecturas_reloj := x;
     lecturas_azar := lecturas_azar w; localStorage := localStorage w;
     consola := consola w;
     hay_mostrarNotificacion := hay_mostrarNotificacion w;
     notificaciones := notificaciones w; arreglos := arreglos w;
     entregados := entregados w; st_plantillas := st_plantillas w;
     st_ultimaActualizacion := st_ultimaActualizacion w;
     st_persistenciaHabilitada := st_persistenciaHabilitada w;
     _suscriptores := _suscriptores w; llamadas := llamadas w;
     exterior := exterior w |}.

Definition con_lecturas_azar (x : nat) (w : Mundo) : Mundo :=
  {| instante := instante w; azar := azar w;
     lecturas_reloj := lecturas_reloj w; lecturas_azar := x;
     localStorage := localStorage w; consola := consola w;
     hay_mostrarNotificacion := hay_mostrarNotificacion w;
     notificaciones := notificaciones w; arreglos := arreglos w;
     entregados := entregados w; st_plantillas := st_plantillas w;
     st_ultimaActualizacion := st_ultimaActualizacion w;
     st_persistenciaHabilitada := st_persistenciaHabilitada w;
     _suscriptores := _suscriptores w; llamadas := llamadas w;
     exterior := exterior w |}.

Definition con_localStorage (x : gmap string string) (w : Mundo) : Mundo :=
  {| instante := instante w; azar := azar w;
     lecturas_reloj := lecturas_reloj w; lecturas_azar := lecturas_azar w;
     localStorage := x; consola := consola w;
     hay_mostrarNotificacion := hay_mostrarNotificacion w;
     notificaciones := notificaciones w; arreglos := arreglos w;
     entregados := entregados w; st_plantillas := st_plantillas w;
     st_ultimaActualizacion := st_ultimaActualizacion w;
     st_persistenciaHabilitada := st_persistenciaHabilitada w;
     _suscriptores := _suscriptores w; llamadas := llamadas w;
     exterior := exterior w |}.

Definition con_consola (x : list (string * string)) (w : Mundo) : Mundo :=
  {| instante := instante w; azar := azar w;
     lecturas_reloj := lecturas_reloj w; lecturas_azar := lecturas_azar w;
     localStorage := localStorage w; consola := x;
     hay_mostrarNotificacion := hay_mostrarNotificacion w;
     notificaciones := notificaciones w; arreglos := arreglos w;
     entregados := entregados w; st_plantillas := st_plantillas w;
     st_ultimaActualizacion := st_ultimaActualizacion w;
     st_persistenciaHabilitada := st_persistenciaHabilitada w;
     _suscriptores := _suscriptores w; llamadas := llamadas w;
     exterior := exterior w |}.

Definition con_notificaciones (x : list (string * string)) (w : Mundo) : Mundo :=
  {| instante := instante w; azar := azar w;
     lecturas_reloj := lecturas_reloj w; lecturas_azar := lecturas_azar w;
     localStorage := localStorage w; consola := consola w;
     hay_mostrarNotificacion := hay_mostrarNotificacion w;
     notificaciones := x; arreglos := arreglos w; entregados := entregados w;
     st_plantillas := st_plantillas w;
     st_ultimaActualizacion := st_ultimaActualizacion w;
     st_persistenciaHabilitada := st_persistenciaHabilitada w;
     _suscriptores := _suscriptores w; llamadas := llamadas w;
     exterior := exterior w |}.

Definition con_arreglos (x : list (list Template)) (w : Mundo) : Mundo :=
  {| instante := instante w; azar := azar w;
     lecturas_reloj := lecturas_reloj w; lecturas_azar := lecturas_azar w;
     localStorage := localStorage w; consola := consola w;
     hay_mostrarNotificacion := hay_mostrarNotificacion w;
     notificaciones := notificaciones w; arreglos := x;
     entregados := entregados w; st_plantillas := st_plantillas w;
     st_ultimaActualizacion := st_ultimaActualizacion w;
     st_persistenciaHabilitada := st_persistenciaHabilitada w;
     _suscriptores := _suscriptores w; llamadas := llamadas w;
     exterior := exterior w |}.

Definition con_entregados (x : list nat) (w : Mundo) : Mundo :=
  {| instante := instante w; azar := azar w;
     lecturas_reloj := lecturas_reloj w; lecturas_azar := lecturas_azar w;
     localStorage := localStorage w; consola := consola w;
     hay_mostrarNotificacion := hay_mostrarNotificacion w;
     notificaciones := notificaciones w; arreglos := arreglos w;
     entregados := x; st_plantillas := st_plantillas w;
     st_ultimaActualizacion := st_ultimaActualizacion w;
     st_persistenciaHabilitada := st_persistenciaHabilitada w;
     _suscriptores := _suscriptores w; llamadas := llamadas w;
     exterior := exterior w |}.

Definition con_st_plantillas (x : nat) (w : Mundo) : Mundo :=
  {| instante := instante w; azar := azar w;
     lecturas_reloj := lecturas_reloj w; lecturas_azar := lecturas_azar w;
     localStorage := localStorage w; consola := consola w;
     hay_mostrarNotificacion := hay_mostrarNotificacion w;
     notificaciones := notificaciones w; arreglos := arreglos w;
     entregados := entregados w; st_plantillas := x;
     st_ultimaActualizacion := st_ultimaActualizacion w;
     st_persistenciaHabilitada := st_persistenciaHabilitada w;
     _suscriptores := _suscriptores w; llamadas := llamadas w;
     exterior := exterior w |}.

Definition con_st_ultimaActualizacion (x : Date) (w : Mundo) : Mundo :=
  {| instante := instante w; azar := azar w;
     lecturas_reloj := lecturas_reloj w; lecturas_azar := lecturas_azar w;
     localStorage := localStorage w; consola := consola w;
     hay_mostrarNotificacion := hay_mostrarNotificacion w;
     notificaciones := notificaciones w; arreglos := arreglos w;
     entregados := entregados w; st_plantillas := st_plantillas w;
     st_ultimaActualizacion := x;
     st_persistenciaHabilitada := st_persistenciaHabilitada w;
     _suscriptores := _suscriptores w; llamadas := llamadas w;
     exterior := exterior w |}.

Definition con_suscriptores (x : list Suscriptor) (w : Mundo) : Mundo :=
  {| instante := instante w; azar := azar w;
     lecturas_reloj := lecturas_reloj w; lecturas_azar := lecturas_azar w;
     localStorage := localStorage w; consola := consola w;
     hay_mostrarNotificacion := hay_mostrarNotificacion w;
     notificaciones := notificaciones w; arreglos := arreglos w;
     entregados := entregados w; st_plantillas := st_plantillas w;
     st_ultimaActualizacion := st_ultimaActualizacion w;
     st_persistenciaHabilitada := st_persistenciaHabilitada w;
     _suscriptores := x; llamadas := llamadas w; exterior := exterior w |}.

Definition con_llamadas (x : list (nat * Evento)) (w : Mundo) : Mundo :=
  {| instante := instante w; azar := azar w;
     lecturas_reloj := lecturas_reloj w; lecturas_azar := lecturas_azar w;
     localStorage := localStorage w; consola := consola w;
     hay_mostrarNotificacion := hay_mostrarNotificacion w;
     notificaciones := notificaciones w; arreglos := arreglos w;
     entregados := entregados w; st_plantillas := st_plantillas w;
     st_ultimaActualizacion := st_ultimaActualizacion w;
     st_persistenciaHabilitada := st_persistenciaHabilitada w;
     _suscriptores := _suscriptores w; llamadas := x;
     exterior := exterior w |}.

Definition con_exterior (x : Σ) (w : Mundo) : Mundo :=
  {| instante := instante w; azar := azar w;
     lecturas_reloj := lecturas_reloj w; lecturas_azar := lecturas_azar w;
     localStorage := localStorage w; consola := consola w;
     hay_mostrarNotificacion := hay_mostrarNotificacion w;
     notificaciones := notificaciones w; arreglos := arreglos w;
     entregados := entregados w; st_plantillas := st_plantillas w;
     st_ultimaActualizacion := st_ultimaActualizacion w;
     st_persistenciaHabilitada := st_persistenciaHabilitada w;
     _suscriptores := _suscriptores w; llamadas := llamadas w;
     exterior := x |}.

(** Computations: state passing, with exceptions.  What a computation did
    to the state before it threw stays done. *)
Definition M (A : Type) : Type := Mundo -> resultado A * Mundo.

#[export] Instance M_ret : MRet M := fun A a w => (Normal a, w).

#[export] Instance M_bind : MBind M := fun A B f m w =>
  match m w with
  | (Normal a, w') => f a w'
  | (Lanza e, w') => (Lanza e, w')
  end.

Definition lanzar {A : Type} (mensaje : string) : M A :=
  fun w => (Lanza mensaje, w).

(** [try { m } catch (error) { manejar error.message }] *)
Definition try_catch {A : Type} (m : M A) (manejar : string -> M A) : M A :=
  fun w =>
    match m w with
    | (Normal a, w') => (Normal a, w')
    | (Lanza e, w') => manejar e w'
    end.

Definition leer {A : Type} (f : Mundo -> A) : M A := fun w => (Normal (f w), w).
Definition modificar (f : Mundo -> Mundo) : M unit := fun w => (Normal tt, f w).

Definition console (nivel texto : string) : M unit :=
  modificar (fun w => con_consola (consola w ++ [(nivel, texto)]) w).

(** [Date.now()].  The clock shows no more than the largest time value. *)
Definition Date_now : M N := fun w =>
  (Normal (N.min (instante w (lecturas_reloj w)) (Z.to_N tiempo_maximo)),
   con_lecturas_reloj (S (lecturas_reloj w)) w).

(** [new Date()] *)
Definition Date_nueva : M Date := t ← Date_now; mret (Some (Z.of_N t)).

(** [Math.random()]: the digits after [0.] *)
Definition Math_random : M uint := fun w =>
  (Normal (azar w (lecturas_azar w)),
   con_lecturas_azar (S (lecturas_azar w)) w).

Definition localStorage_getItem (k : string) : M (option string) :=
  leer (fun w => localStorage w !! k).

(** [localStorage.setItem(k, v)]: a QuotaExceededError when the storage
    does not take the value. *)
Definition localStorage_setItem (k v : string) : M unit :=
  m ← leer localStorage;
  if admite m k v
  then modificar (fun w => con_localStorage (<[k := v]> (localStorage w)) w)
  else lanzar "The quota has been exceeded".

Definition localStorage_removeItem (k : string) : M unit :=
  modificar (fun w => con_localStorage (delete k (localStorage w)) w).

(** [new Template(titulo, mensaje, hashtag, categoria, fechaCreacion)]; the
    last argument defaults to [new Date()] when it is not given. *)
Definition Template_new (titulo mensaje hashtag categoria : jsval)
    (fechaCreacion : option Date) : M Template :=
  fecha ← match fechaCreacion with
          | Some f => mret f
          | None => Date_nueva
          end;
  ahora ← Date_now;
  r ← Math_random;
  mret (mkTemplate titulo mensaje hashtag categoria fecha
          (num_ahora_mas_azar ahora r)).

End Estado.

Arguments respuesta : clear implicits.
Arguments operacion : clear implicits.
Arguments argumento_callback : clear implicits.
Arguments Suscriptor : clear implicits.
Arguments programa : clear implicits.
Arguments Mundo : clear implicits.
Arguments M : clear implicits.

(** How a callback is called: what the call does to the state, and
    whether it returns or throws.  [invocar_programa], below, runs the
    program of the callback. *)
Class Invocador (Σ : Type) : Type :=
  invocar : Suscriptor Σ -> Evento -> M Σ unit.

Section Utilidades.
Context {Pl : Plataforma} {Σ : Type}.

Fixpoint mapM {A B : Type} (f : A -> M Σ B) (l : list A) : M Σ (list B) :=
  match l with
  | [] => mret []
  | x :: r => y ← f x; ys ← mapM f r; mret (y :: ys)
  end.

(** [l.filter(f)] for a callback that may throw. *)
Fixpoint filterM {A : Type} (f : A -> M Σ bool) (l : list A) : M Σ (list A) :=
  match l with
  | [] => mret []
  | x :: r => b ← f x; ys ← filterM f r; mret (if b : bool then x :: ys else ys)
  end.

End Utilidades.

(** ** Persistence (js/models/persistence.js) *)

Module Persistence.

Definition STORAGE_KEY : string := "whatsapp_templates_data".
Definition VERSION : string := "1.0".
Definition MAX_STORAGE_SIZE : Z := 5 * 1024 * 1024.
Definition BACKUP_KEY : string := "whatsapp_templates_backup".

(** [(x || 0) + 1] for what the object of the counts holds: one more, or
    the text with [1] appended. *)
Definition mas_uno (x : conteo) : conteo :=
  match x with
  | Veces n => Veces (n + 1)
  | Texto s => if String.eqb s "" then Veces 1 else Texto (s ++ "1")
  end.

Fixpoint tiene_clave {A : Type} (k : string) (acc : list (string * A)) : bool :=
  match acc with
  | [] => false
  | (k', _) :: r => String.eqb k k' || tiene_clave k r
  end.

Fixpoint cambiar_propia (k : string) (acc : list (string * conteo))
  : list (string * conteo) :=
  match acc with
  | [] => []
  | (k', x) :: r =>
      if String.eqb k k' then (k', mas_uno x) :: r
      else (k', x) :: cambiar_propia k r
  end.

Section Conteos.
Context {Pl : Plataforma}.

(** [acc[k] = (acc[k] || 0) + 1] on the object [acc], which began as [{}].
    A name [acc] has of its own is counted once more.  A name it has not:
    [__proto__] reads the prototype, and the assignment of a text to it is
    ignored; a name [Object.prototype] holds a function under reads that
    function, which is truthy, so that the property created holds its
    source text followed by [1]; any other name reads [undefined], and the
    property created holds 1. *)
Definition incrementar (k : string) (acc : list (string * conteo))
  : list (string * conteo) :=
  if tiene_clave k acc then cambiar_propia k acc
  else if String.eqb k "__proto__" then acc
  else match Object_prototype k with
       | Some fuente => acc ++ [(k, Texto (fuente ++ "1"))]
       | None => acc ++ [(k, Veces 1)]
       end.

End Conteos.

Definition valor_de_conteo (x : conteo) : jsval :=
  match x with
  | Veces n => JNum (num_de_N n)
  | Texto s => JStr s
  end.

Definition objeto_de_conteos (h : list (string * conteo)) : jsval :=
  JObj (map (fun kx => (fst kx, valor_de_conteo (snd kx))) h).

Definition _verificarTamañoStorage (datos : string) : bool :=
  (Z.of_nat (unidades datos) <? MAX_STORAGE_SIZE)%Z.

(** The value of the callback of [every] in [_validarEstructuraDatos]:
    [plantilla && typeof plantilla === 'object' && plantilla.titulo &&
     plantilla.mensaje && plantilla.hashtag && plantilla.categoria]. *)
Definition estructura_plantilla (plantilla : jsval) : jsval :=
  js_and (js_and (js_and (js_and (js_and plantilla
    (JBool (typeof_object plantilla)))
    (campo plantilla "titulo"))
    (campo plantilla "mensaje"))
    (campo plantilla "hashtag"))
    (campo plantilla "categoria").

Definition elementos (v : jsval) : list jsval :=
  match v with JArr xs => xs | _ => [] end.

Section Persistence.
Context {Pl : Plataforma} {Σ : Type}.

(** ToPropertyKey *)
Definition a_clave (v : jsval) : M Σ string :=
  match a_cadena v with
  | Some k => mret k
  | None => lanzar "Cannot convert object to primitive value"
  end.

(** The counts by category of the templates [l], added to [acc]. *)
Fixpoint contar_categorias (l : list Template) (acc : list (string * conteo))
  : M Σ (list (string * conteo)) :=
  match l with
  | [] => mret acc
  | plantilla :: r =>
      k ← a_clave (categoria plantilla);
      contar_categorias r (incrementar k acc)
  end.

Definition _obtenerCategorias (plantillas : list Template)
  : M Σ (list (string * conteo)) :=
  contar_categorias plantillas [].

Definition _mostrarNotificacionPersistencia (mensaje tipo : string) : M Σ unit :=
  hay ← leer hay_mostrarNotificacion;
  if (hay : bool) then
    modificar (fun w =>
      con_notificaciones (notificaciones w ++ [("💾 " ++ mensaje, tipo)]) w)
  else console "log" ("📢 Persistencia: " ++ mensaje).

Definition _serializarPlantilla (plantilla : Template) : M Σ jsval :=
  match Date_toISOString (fechaCreacion plantilla) with
  | None => lanzar "Invalid time value"
  | Some iso =>
      mret (JObj [("id", JNum (id plantilla));
                  ("titulo", titulo plantilla);
                  ("mensaje", mensaje plantilla);
                  ("hashtag", hashtag plantilla);
                  ("categoria", categoria plantilla);
                  ("fechaCreacion", JStr iso)])
  end.

Definition _deserializarPlantilla (datos : jsval) : M Σ Template :=
  match datos with
  | JUndefined | JNull => lanzar "Cannot read properties of null"
  | _ =>
      match Date_de_valor (campo datos "fechaCreacion") with
      | Some fecha =>
          Template_new (campo datos "titulo") (campo datos "mensaje")
            (campo datos "hashtag") (campo datos "categoria") (Some fecha)
      | None => lanzar "Cannot convert object to primitive value"
      end
  end.

Definition _validarEstructuraDatos (datos : jsval) : M Σ bool :=
  if negb (truthy datos) || negb (typeof_object datos) then mret false
  else if negb (truthy (campo datos "version"))
          || negb (truthy (campo datos "plantillas"))
          || negb (Array_isArray (campo datos "plantillas"))
  then mret false
  else
    (if negb (estricto_igual (campo datos "version") (JStr VERSION))
     then console "warn"
            "⚠️ Versión de datos diferente, intentando migración automática"
     else mret tt);;
    mret (forallb (fun plantilla => truthy (estructura_plantilla plantilla))
            (elementos (campo datos "plantillas"))).

Definition _obtenerPlantillasDefault : M Σ (list Template) :=
  t1 ← Template_new (JStr "Bienvenida Automática")
         (JStr "¡Hola! 👋 Gracias por contactarnos. Te responderemos en breve. ¿En qué podemos ayudarte?")
         (JStr "#bienvenida") (JStr "soporte") None;
  t2 ← Template_new (JStr "Confirmación de Pedido")
         (JStr "Tu pedido #{{NUMERO}} ha sido recibido ✅. Te notificaremos cuando esté listo para entrega.")
         (JStr "#confirmacion") (JStr "ventas") None;
  mret [t1; t2].

(** The callback of [map] in [_procesarDatosGuardados]: a record that
    cannot be deserialized is logged and becomes [null]. *)
Definition deserializar_o_ignorar (datoPlantilla : jsval)
  : M Σ (option Template) :=
  try_catch
    (t ← _deserializarPlantilla datoPlantilla;
     mret (Some t))
    (fun error =>
       console "warn" ("⚠️ Plantilla corrupta ignorada: " ++ error);;
       mret None).

Definition _procesarDatosGuardados (datosString : string)
  : M Σ (list Template) :=
  try_catch
    (datos ← match JSON_parse datosString with
             | Some d => mret d
             | None => lanzar "Unexpected token in JSON"
             end;
     valida ← _validarEstructuraDatos datos;
     if negb valida then lanzar "Estructura de datos inválida"
     else
       plantillas ← mapM deserializar_o_ignorar
                     (elementos (campo datos "plantillas"));
       console "log" "✅ Datos validados correctamente:";;
       mret (omap (fun plantilla => plantilla) plantillas))
    (fun error =>
       console "error" ("❌ Error al procesar datos guardados: " ++ error);;
       lanzar ("Datos corruptos en LocalStorage: " ++ error)).

Definition _intentarRecuperacion : M Σ (list Template) :=
  recuperadas ←
    try_catch
      (backup ← localStorage_getItem BACKUP_KEY;
       match backup with
       | Some b =>
           if negb (String.eqb b "") then
             console "log" "🔄 Intentando recuperación desde backup...";;
             plantillasBackup ← _procesarDatosGuardados b;
             _mostrarNotificacionPersistencia
               "Datos recuperados desde backup" "warning";;
             mret (Some plantillasBackup)
           else mret None
       | None => mret None
       end)
      (fun error =>
         console "error" ("❌ Error en recuperación de backup: " ++ error);;
         mret None);
  match recuperadas with
  | Some plantillasBackup => mret plantillasBackup
  | None => _obtenerPlantillasDefault
  end.

Definition _crearBackup : M Σ unit :=
  try_catch
    (datosActuales ← localStorage_getItem STORAGE_KEY;
     match datosActuales with
     | Some d =>
         if negb (String.eqb d "") then
           localStorage_setItem BACKUP_KEY d;;
           console "log" "💾 Backup creado exitosamente"
         else mret tt
     | None => mret tt
     end)
    (fun error => console "warn" ("⚠️ No se pudo crear backup: " ++ error)).

Definition guardarPlantillas (plantillas : list Template) : M Σ bool :=
  try_catch
    (ahora ← Date_nueva;
     timestamp ← match Date_toISOString ahora with
                 | Some iso => mret iso
                 | None => lanzar "Invalid time value"
                 end;
     serializadas ← mapM _serializarPlantilla plantillas;
     categorias ← _obtenerCategorias plantillas;
     let datosParaGuardar :=
       JObj [("version", JStr VERSION);
             ("timestamp", JStr timestamp);
             ("plantillas", JArr serializadas);
             ("metadata",
              JObj [("total", JNum (num_de_N (N.of_nat (length plantillas))));
                    ("categorias", objeto_de_conteos categorias)])] in
     let jsonString := JSON_stringify datosParaGuardar in
     if _verificarTamañoStorage jsonString then
       _crearBackup;;
       localStorage_setItem STORAGE_KEY jsonString;;
       console "log" "💾 Persistencia: Plantillas guardadas exitosamente";;
       _mostrarNotificacionPersistencia
         "Plantillas guardadas en LocalStorage" "success";;
       mret true
     else lanzar "Datos demasiado grandes para LocalStorage")
    (fun error =>
       console "error" ("❌ Error al guardar plantillas: " ++ error);;
       _mostrarNotificacionPersistencia "Error al guardar plantillas" "error";;
       mret false).

Definition cargarPlantillas : M Σ (list Template) :=
  try_catch
    (datosGuardados ← localStorage_getItem STORAGE_KEY;
     let hayDatos :=
       match datosGuardados with
       | Some d => negb (String.eqb d "")
       | None => false
       end in
     plantillasIniciales ←
       match datosGuardados with
       | Some d =>
           if negb (String.eqb d "") then _procesarDatosGuardados d
           else _obtenerPlantillasDefault
       | None => _obtenerPlantillasDefault
       end;
     console "log" "📂 Persistencia: Plantillas cargadas";;
     (if hayDatos && (0 <? length plantillasIniciales)%nat then
        _mostrarNotificacionPersistencia
          (texto_numero (num_de_N (N.of_nat (length plantillasIniciales)))
           ++ " plantillas cargadas desde LocalStorage") "info"
      else mret tt);;
     mret plantillasIniciales)
    (fun error =>
       console "error" ("❌ Error al cargar plantillas: " ++ error);;
       _mostrarNotificacionPersistencia
         "Error al cargar plantillas, usando datos por defecto" "warning";;
       _intentarRecuperacion).

Definition resetearPlantillas : M Σ bool :=
  try_catch
    (_crearBackup;;
     localStorage_removeItem STORAGE_KEY;;
     localStorage_removeItem BACKUP_KEY;;
     console "log"
       "🧹 Persistencia: Todas las plantillas eliminadas de LocalStorage";;
     _mostrarNotificacionPersistencia
       "Todas las plantillas eliminadas correctamente" "success";;
     mret true)
    (fun error =>
       console "error" ("❌ Error al resetear plantillas: " ++ error);;
       _mostrarNotificacionPersistencia "Error al eliminar plantillas" "error";;
       mret false).

Definition tieneDatosGuardados : M Σ bool :=
  d ← localStorage_getItem STORAGE_KEY;
  mret (match d with Some _ => true | None => false end).

(** [(longitud / 1024).toFixed(2)]: the nearest multiple of 0.01, the larger
    one on a tie; the division by 1024 is exact in doubles. *)
Definition kilobytes_toFixed2 (longitud : nat) : string :=
  let n := ((200 * Z.of_nat longitud + 1024) / 2048)%Z in
  texto_digitos (N.to_uint (Z.to_N (n / 100))) ++ "." ++ cifras 2 (n mod 100).

Definition getInfoStorage : M Σ jsval :=
  try_catch
    (datos ← localStorage_getItem STORAGE_KEY;
     match datos with
     | None =>
         mret (JObj [("existe", JBool false); ("tamaño", JNum (num_de_N 0));
                     ("plantillas", JNum (num_de_N 0))])
     | Some d =>
         if String.eqb d "" then
           mret (JObj [("existe", JBool false); ("tamaño", JNum (num_de_N 0));
                       ("plantillas", JNum (num_de_N 0))])
         else
           parsed ← match JSON_parse d with
                    | Some v => mret v
                    | None => lanzar "Unexpected token in JSON"
                    end;
           metadata ← match prop parsed "metadata" with
                      | Some v => mret v
                      | None => lanzar "Cannot read properties of null"
                      end;
           let total := match metadata with
                        | JUndefined | JNull => JUndefined
                        | _ => campo metadata "total"
                        end in
           mret (JObj [("existe", JBool true);
                       ("tamaño",
                        JStr (kilobytes_toFixed2 (unidades d) ++ " KB"));
                       ("plantillas",
                        if truthy total then total else JNum (num_de_N 0));
                       ("version", campo parsed "version");
                       ("ultimaActualizacion", campo parsed "timestamp")])
     end)
    (fun error =>
       mret (JObj [("existe", JBool false);
                   ("error", JStr (mensaje_del_motor error))])).

End Persistence.

End Persistence.

(** ** Store (the store with persistence) *)

Module Store.

Abbreviation argumento := argumento.
Abbreviation EsTemplate := EsTemplate.
Abbreviation OtroValor := OtroValor.
Abbreviation argumento_callback := argumento_callback.
Abbreviation EsFuncion := EsFuncion.
Abbreviation NoFuncion := NoFuncion.

Section Store.
Context {Pl : Plataforma} {Σ : Type} `{!Invocador Σ}.

Definition arreglo_en (l : nat) (w : Mundo Σ) : list Template :=
  default [] (arreglos w !! l).

(** The elements of [this._state.plantillas]. *)
Definition plantillas (w : Mundo Σ) : list Template :=
  arreglo_en (st_plantillas w) w.

(** A new array with the given elements; its address. *)
Definition nuevo_arreglo (xs : list Template) : M Σ nat :=
  fun w => (Normal (length (arreglos w)), con_arreglos (arreglos w ++ [xs]) w).

Fixpoint forEach {A : Type} (f : A -> M Σ unit) (l : list A) : M Σ unit :=
  match l with
  | [] => mret tt
  | x :: r => f x;; forEach f r
  end.

(** [[...this._state.plantillas]]: the address of the copy, which the
    page holds from now on. *)
Definition getPlantillas : M Σ nat :=
  actuales ← leer plantillas;
  l ← nuevo_arreglo actuales;
  modificar (fun w => con_entregados (entregados w ++ [l]) w);;
  mret l.

(** The state once the script has run: an empty array, and
    [ultimaActualizacion: new Date()]. *)
Definition mundo_inicial (reloj : nat -> N) (aleatorio : nat -> uint)
    (almacen : gmap string string) (sink : bool) (σ : Σ) : Mundo Σ :=
  mkMundo reloj aleatorio 1 0 almacen [] sink [] [[]] [] 0
    (Some (Z.of_N (N.min (reloj 0%nat) (Z.to_N tiempo_maximo)))) true [] [] σ.

Definition getPlantillaPorId (id_buscado : jsval) : M Σ (option Template) :=
  leer (fun w =>
    find (fun plantilla => estricto_igual (JNum (id plantilla)) id_buscado)
      (plantillas w)).

(** [getEstadisticas()]: the counts by category are made first, and the
    conversion of a category to a property name may throw. *)
Definition getEstadisticas : M Σ Estadisticas :=
  ps ← leer plantillas;
  categorias ← Persistence.contar_categorias ps [];
  ultima ← leer st_ultimaActualizacion;
  habilitada ← leer st_persistenciaHabilitada;
  info ← Persistence.getInfoStorage;
  mret (mkEstadisticas (length ps) categorias ultima
          (Nat.eqb (length ps) 0) habilitada info).

(** One call of a callback, recorded. *)
Definition llamar (callback : Suscriptor Σ) (evento : Evento) : M Σ unit :=
  modificar (fun w =>
    con_llamadas (llamadas w ++ [(sus_id callback, evento)]) w);;
  invocar callback evento.

(** [this._suscriptores.forEach(f)], from index [k] on, [n] indices to go.
    The array is the one being walked, as it is at each step: a callback
    that subscribes or cancels changes it under the walk.  An index the
    array no longer has is skipped; the number of indices was fixed when
    the walk began. *)
Fixpoint recorrer_suscriptores (n k : nat) (f : Suscriptor Σ -> M Σ unit)
  : M Σ unit :=
  match n with
  | O => mret tt
  | S n' =>
      callbacks ← leer _suscriptores;
      match callbacks !! k with
      | Some callback => f callback
      | None => mret tt
      end;;
      recorrer_suscriptores n' (S k) f
  end.

Definition _notificarCambios (tipo : string) (datos : DatosEvento) : M Σ unit :=
  est ← getEstadisticas;
  ahora ← Date_nueva;
  let evento := mkEvento tipo datos est ahora in
  callbacks ← leer _suscriptores;
  recorrer_suscriptores (length callbacks) 0
    (fun callback =>
       try_catch (llamar callback evento)
         (fun error =>
            console "error" ("❌ Error en suscriptor del Store: " ++ error))).

Definition _cargarPlantillasDefault : M Σ unit :=
  t1 ← Template_new (JStr "Bienvenida por Defecto")
         (JStr "¡Hola! 👋 Bienvenido/a. Estamos aquí para ayudarte. ¿En qué podemos asistirte?")
         (JStr "#bienvenida") (JStr "soporte") None;
  t2 ← Template_new (JStr "Confirmación Estándar")
         (JStr "Tu solicitud ha sido recibida ✅. Te contactaremos pronto. ¡Gracias!")
         (JStr "#confirmacion") (JStr "soporte") None;
  l ← nuevo_arreglo [t1; t2];
  modificar (con_st_plantillas l);;
  ahora ← Date_nueva;
  modificar (con_st_ultimaActualizacion ahora);;
  console "log" "📝 Store: Plantillas por defecto cargadas".

Definition inicializar : M Σ unit :=
  try_catch
    (console "log" "🔗 Store: Inicializando con persistencia...";;
     plantillasGuardadas ← Persistence.cargarPlantillas;
     l ← nuevo_arreglo plantillasGuardadas;
     modificar (con_st_plantillas l);;
     ahora ← Date_nueva;
     modificar (con_st_ultimaActualizacion ahora);;
     _ ← Persistence.tieneDatosGuardados;
     console "log" "✅ Store inicializado con persistencia:";;
     tiene ← Persistence.tieneDatosGuardados;
     _notificarCambios "STORE_INICIALIZADO"
       (DatosInicializado (length plantillasGuardadas)
          (if (tiene : bool) then "localStorage" else "default")))
    (fun error =>
       console "error" ("❌ Error al inicializar Store: " ++ error);;
       _cargarPlantillasDefault).

Definition agregarPlantilla (nuevaPlantilla : argumento) : M Σ bool :=
  try_catch
    (t ← match nuevaPlantilla with
         | EsTemplate t => mret t
         | OtroValor _ => lanzar "Debe ser una instancia de Template"
         end;
     if negb (truthy (esValida t)) then
       lanzar "La plantilla no tiene todos los campos requeridos"
     else
       actuales ← leer plantillas;
       l ← nuevo_arreglo (actuales ++ [t]);
       modificar (con_st_plantillas l);;
       ahora ← Date_nueva;
       modificar (con_st_ultimaActualizacion ahora);;
       nuevas ← leer plantillas;
       _notificarCambios "PLANTILLA_AGREGADA" (DatosAgregada t (length nuevas));;
       match getEstadoLocal t with
       | Some _ =>
           console "log" "🟢 Store: Plantilla agregada exitosamente";;
           mret true
       | None => lanzar "Cannot read properties of undefined (reading 'length')"
       end)
    (fun error =>
       console "error" ("❌ Store: Error al agregar plantilla: " ++ error);;
       mret false).

Definition eliminarPlantilla (id_buscado : jsval) : M Σ bool :=
  try_catch
    (plantillaAEliminar ← getPlantillaPorId id_buscado;
     match plantillaAEliminar with
     | None => lanzar "Plantilla no encontrada"
     | Some eliminada =>
         actuales ← leer plantillas;
         l ← nuevo_arreglo
               (List.filter (fun plantilla =>
                               negb (estricto_igual (JNum (id plantilla)) id_buscado))
                  actuales);
         modificar (con_st_plantillas l);;
         ahora ← Date_nueva;
         modificar (con_st_ultimaActualizacion ahora);;
         nuevas ← leer plantillas;
         _notificarCambios "PLANTILLA_ELIMINADA"
           (DatosEliminada eliminada (length nuevas));;
         match getEstadoLocal eliminada with
         | Some _ =>
             console "log" "🔴 Store: Plantilla eliminada exitosamente";;
             mret true
         | None =>
             lanzar "Cannot read properties of undefined (reading 'length')"
         end
     end)
    (fun error =>
       console "error" ("❌ Store: Error al eliminar plantilla: " ++ error);;
       mret false).

Definition limpiarTodas : M Σ bool :=
  try_catch
    (anteriores ← leer plantillas;
     l ← nuevo_arreglo [];
     modificar (con_st_plantillas l);;
     ahora ← Date_nueva;
     modificar (con_st_ultimaActualizacion ahora);;
     _notificarCambios "TODAS_ELIMINADAS"
       (DatosTodasEliminadas (length anteriores));;
     console "log" "🧹 Store: Todas las plantillas eliminadas";;
     mret true)
    (fun error =>
       console "error" ("❌ Store: Error al limpiar plantillas: " ++ error);;
       mret false).

Definition reset : M Σ unit :=
  l ← nuevo_arreglo [];
  modificar (con_st_plantillas l);;
  ahora ← Date_nueva;
  modificar (con_st_ultimaActualizacion ahora);;
  console "log" "🔄 Store: Reseteado a estado inicial".

Definition recargarDesdePersistencia : M Σ bool :=
  try_catch
    (plantillasGuardadas ← Persistence.cargarPlantillas;
     l ← nuevo_arreglo plantillasGuardadas;
     modificar (con_st_plantillas l);;
     ahora ← Date_nueva;
     modificar (con_st_ultimaActualizacion ahora);;
     _notificarCambios "RECARGADO_DESDE_PERSISTENCIA"
       (DatosRecargado (length plantillasGuardadas));;
     console "log" "🔄 Store: Recargado desde persistencia";;
     mret true)
    (fun error =>
       console "error" ("❌ Error al recargar desde persistencia: " ++ error);;
       mret false).

(** [suscribirse(callback)].  The function it returns closes over the
    callback: the model returns that callback, and [cancelar] is the
    returned function called. *)
Definition suscribirse (callback : argumento_callback Σ)
  : M Σ (Suscriptor Σ) :=
  match callback with
  | NoFuncion _ => lanzar "El callback debe ser una función"
  | EsFuncion f =>
      modificar (fun w => con_suscriptores (_suscriptores w ++ [f]) w);;
      mret f
  end.

Fixpoint quitar_primero (k : nat) (l : list (Suscriptor Σ))
  : list (Suscriptor Σ) :=
  match l with
  | [] => []
  | f :: r => if Nat.eqb (sus_id f) k then r else f :: quitar_primero k r
  end.

Definition cancelar (callback : Suscriptor Σ) : M Σ unit :=
  modificar (fun w =>
    con_suscriptores (quitar_primero (sus_id callback) (_suscriptores w)) w).

(** [plantilla[criterio]] when [typeof] gives ['string'] for it: one of the
    four fields when it holds a string.  The identifier is a number, the
    creation date an object, the methods are functions and any other name
    is [undefined]. *)
Definition campo_texto (criterio : string) (plantilla : Template)
  : option string :=
  let valorCampo :=
    if String.eqb criterio "titulo" then titulo plantilla
    else if String.eqb criterio "mensaje" then mensaje plantilla
    else if String.eqb criterio "hashtag" then hashtag plantilla
    else if String.eqb criterio "categoria" then categoria plantilla
    else JUndefined in
  match valorCampo with
  | JStr s => Some s
  | _ => None
  end.

(** [String.prototype.toLowerCase], of the platform. *)
Context (toLowerCase : string -> string).

(** [buscarPlantillas(criterio, valor)].  [plantilla[criterio]] converts
    [criterio] to a property name, a TypeError when it cannot be converted;
    [valor.toLowerCase()] is evaluated for the templates that hold a string
    under [criterio], and is a TypeError when [valor] is not a string. *)
Definition buscarPlantillas (criterio valor : jsval) : M Σ nat :=
  if negb (truthy valor) || negb (truthy criterio) then getPlantillas
  else
    actuales ← leer plantillas;
    coinciden ←
      filterM (fun plantilla =>
                 nombre ← Persistence.a_clave criterio;
                 match campo_texto nombre plantilla with
                 | Some valorCampo =>
                     match valor with
                     | JStr v =>
                         mret (incluye (toLowerCase valorCampo) (toLowerCase v))
                     | _ => lanzar "valor.toLowerCase is not a function"
                     end
                 | None => mret false
                 end)
        actuales;
    nuevo_arreglo coinciden.

End Store.

End Store.

(** ** Helper functions of the Store *)

Section Ayudantes.
Context {Pl : Plataforma} {Σ : Type} `{!Invocador Σ}.

Definition crearYAgregarPlantilla (titulo mensaje hashtag categoria : jsval)
  : M Σ bool :=
  try_catch
    (nuevaPlantilla ← Template_new titulo mensaje hashtag categoria None;
     Store.agregarPlantilla (Store.EsTemplate nuevaPlantilla))
    (fun error =>
       console "error" ("❌ Error al crear plantilla: " ++ error);;
       mret false).

Definition obtenerPlantillasParaRender : M Σ nat := Store.getPlantillas.

Definition storeEstaVacio : M Σ bool :=
  estadisticas ← Store.getEstadisticas;
  mret (estaVacio estadisticas).

(** [inicializarStoreConPersistencia()] (js/models/persistence.js) *)
Definition inicializarStoreConPersistencia : M Σ (list Template) :=
  try_catch
    (plantillasCargadas ← Persistence.cargarPlantillas;
     Store.reset;;
     Store.forEach
       (fun plantilla =>
          _ ← Store.agregarPlantilla (Store.EsTemplate plantilla);
          mret tt)
       plantillasCargadas;;
     _ ← Persistence.tieneDatosGuardados;
     console "log" "🚀 Store inicializado con persistencia:";;
     mret plantillasCargadas)
    (fun error =>
       console "error"
         ("❌ Error al inicializar Store con persistencia: " ++ error);;
       mret []).

End Ayudantes.

(** ** The code of the page *)

Section Programas.
Context {Pl : Plataforma} {Σ : Type}.

(** The page changes, by any array operation [f], the array at [l]. *)
Definition cambiar_arreglo (l : nat) (f : list Template -> list Template)
    (w : Mundo Σ) : Mundo Σ :=
  con_arreglos (alter f l (arreglos w)) w.

Section Nivel.
Context `{!Invocador Σ}.

(** One call of the page.  The arrays it reads and changes are those
    [getPlantillas] returned, by their number in the order they were
    returned. *)
Definition ejecutar_operacion (o : operacion Σ) : M Σ (respuesta Σ) :=
  match o with
  | OpInicializar => Store.inicializar;; mret RNada
  | OpAgregarPlantilla a => b ← Store.agregarPlantilla a; mret (RBool b)
  | OpEliminarPlantilla ident => b ← Store.eliminarPlantilla ident; mret (RBool b)
  | OpLimpiarTodas => b ← Store.limpiarTodas; mret (RBool b)
  | OpReset => Store.reset;; mret RNada
  | OpRecargarDesdePersistencia =>
      b ← Store.recargarDesdePersistencia; mret (RBool b)
  | OpGetPlantillas =>
      k ← leer (fun w => length (entregados w));
      l ← Store.getPlantillas;
      elementos ← leer (Store.arreglo_en l);
      mret (RArreglo k elementos)
  | OpSuscribirse callback => _ ← Store.suscribirse callback; mret RNada
  | OpCancelar callback => Store.cancelar callback;; mret RNada
  | OpCambiarArreglo k f =>
      modificar (fun w =>
        match entregados w !! k with
        | Some l => cambiar_arreglo l f w
        | None => w
        end);;
      mret RNada
  | OpLeerArreglo k =>
      leer (fun w =>
        match entregados w !! k with
        | Some l => RPlantillas (Store.arreglo_en l w)
        | None => RNada
        end)
  | OpGuardarPlantillas ps => b ← Persistence.guardarPlantillas ps; mret (RBool b)
  | OpCargarPlantillas => ps ← Persistence.cargarPlantillas; mret (RPlantillas ps)
  | OpResetearPlantillas => b ← Persistence.resetearPlantillas; mret (RBool b)
  | OpSetItem k v => localStorage_setItem k v;; mret RNada
  | OpRemoveItem k => localStorage_removeItem k;; mret RNada
  | OpGetItem k => o ← localStorage_getItem k; mret (RTexto o)
  | OpConsole nivel texto => console nivel texto;; mret RNada
  | OpPropio f =>
      modificar (fun w => con_exterior (f (exterior w)) w);;
      σ ← leer exterior;
      mret (RPropio σ)
  end.

(** A program run: each call, then what follows it. *)
Fixpoint correr (p : programa Σ) : M Σ unit :=
  match p with
  | Termina f => fun w => let (r, σ) := f (exterior w) in (r, con_exterior σ w)
  | Ejecuta o k =>
      fun w => let (r, w') := ejecutar_operacion o w in correr (k r) w'
  end.

End Nivel.

(** The call of a callback when [n] calls of callbacks can still be
    nested: with none left the stack is exhausted, a RangeError; otherwise
    the program of the callback is run, the callbacks that its calls of the
    Store notify being called with one less. *)
Fixpoint invocar_programa (n : nat) : Invocador Σ :=
  match n with
  | O => fun _ _ => lanzar "Maximum call stack size exceeded"
  | S n' =>
      fun callback evento =>
        correr (Invocador0 := invocar_programa n') (sus_cuerpo callback evento)
  end.

(** The calls of callbacks that the calls of the page lead to. *)
#[export] Instance de_la_pagina : Invocador Σ := invocar_programa (S pila).

(** A session: what the page has come to, one call after another. *)
Record Sesion : Type := mkSesion {
  mundo : Mundo Σ
}.

(** The addresses of the arrays [getPlantillas] returned, oldest first. *)
Definition devueltos (s : Sesion) : list nat := entregados (mundo s).

Definition paso (s : Sesion) (o : operacion Σ) : Sesion :=
  mkSesion (snd (ejecutar_operacion o (mundo s))).

Definition ejecutar (ops : list (operacion Σ)) (s : Sesion) : Sesion :=
  fold_left paso ops s.

(** The page once the scripts are loaded. *)
Definition sesion_inicial (reloj : nat -> N) (aleatorio : nat -> uint)
    (almacen : gmap string string) (sink : bool) (σ : Σ) : Sesion :=
  mkSesion (Store.mundo_inicial reloj aleatorio almacen sink σ).

(** The callback [conectarPersistenciaConStore] subscribes
    (js/models/persistence.js), as a subscriber of identity [i]. *)
Definition autoguardado (i : nat) : Suscriptor Σ :=
  mkSuscriptor i (fun evento =>
    Ejecuta (OpConsole "log"
               ("🔔 Persistencia: Detectado cambio en Store: " ++ tipo evento))
      (fun _ =>
         Ejecuta OpGetPlantillas (fun r =>
           match r with
           | Normal (RArreglo _ plantillas) =>
               Ejecuta (OpGuardarPlantillas plantillas)
                 (fun _ => Termina (fun σ => (Normal tt, σ)))
           | _ => Termina (fun σ => (Normal tt, σ))
           end))).

(** [conectarPersistenciaConStore()] (js/models/persistence.js): the
    function it subscribes is a new one at each call, of identity [i]. *)
Definition conectarPersistenciaConStore (i : nat) : M Σ unit :=
  _ ← Store.suscribirse (Store.EsFuncion (autoguardado i));
  console "log" "🔗 Persistencia conectada con Store - Auto-guardado activado".

End Programas.

Arguments Sesion : clear implicits.

(** * Properties *)

(** ** Reasoning about computations *)

(** What a computation returned, if it returned. *)
Definition devuelto {A : Type} (r : resultado A) : option A :=
  match r with Normal a => Some a | Lanza _ => None end.

Ltac reducir := cbv beta iota delta [negb fst snd mret M_ret lanzar].
Ltac reducir_en H := cbv beta iota delta [negb fst snd mret M_ret lanzar] in H.

Section Computaciones.
Context {Σ : Type}.

(** [hoare P m Q E]: from a state in [P], [m] ends in [Q] when it returns
    and in [E] when it throws. *)
Definition hoare {A : Type} (P : Mundo Σ -> Prop) (m : M Σ A)
    (Q : A -> Mundo Σ -> Prop) (E : string -> Mundo Σ -> Prop) : Prop :=
  forall w, P w ->
    match m w with
    | (Normal a, w') => Q a w'
    | (Lanza e, w') => E e w'
    end.

Lemma correr_bind {A B : Type} (m : M Σ A) (f : A -> M Σ B) w :
  (m ≫= f) w
  = match m w with
    | (Normal a, w') => f a w'
    | (Lanza e, w') => (Lanza e, w')
    end.
Proof. reflexivity. Qed.

Lemma correr_try_catch {A : Type} (m : M Σ A) h w :
  try_catch m h w
  = match m w with
    | (Normal a, w') => (Normal a, w')
    | (Lanza e, w') => h e w'
    end.
Proof. reflexivity. Qed.

Lemma hoare_ret {A : Type} (P : Mundo Σ -> Prop) (a : A) Q E :
  (forall w, P w -> Q a w) -> hoare P (mret a) Q E.
Proof. intros H w Hw. simpl. auto. Qed.

Lemma hoare_bind {A B : Type} P (m : M Σ A) (f : A -> M Σ B) R Q E :
  hoare P m R E -> (forall a, hoare (R a) (f a) Q E) ->
  hoare P (m ≫= f) Q E.
Proof.
  intros Hm Hf w Hw. unfold mbind, M_bind.
  specialize (Hm w Hw). destruct (m w) as [[a|e] w']; [|exact Hm].
  exact (Hf a w' Hm).
Qed.

Lemma hoare_try_catch {A : Type} P (m : M Σ A) h Q E E' :
  hoare P m Q E' -> (forall e, hoare (E' e) (h e) Q E) ->
  hoare P (try_catch m h) Q E.
Proof.
  intros Hm Hh w Hw. unfold try_catch.
  specialize (Hm w Hw). destruct (m w) as [[a|e] w']; [exact Hm|].
  exact (Hh e w' Hm).
Qed.

Lemma hoare_consecuencia {A : Type} (P P' : Mundo Σ -> Prop) (m : M Σ A)
    (Q Q' : A -> Mundo Σ -> Prop) (E E' : string -> Mundo Σ -> Prop) :
  hoare P' m Q' E' ->
  (forall w, P w -> P' w) ->
  (forall a w, Q' a w -> Q a w) ->
  (forall e w, E' e w -> E e w) ->
  hoare P m Q E.
Proof.
  intros Hm HP HQ HE w Hw. specialize (Hm w (HP w Hw)).
  destruct (m w) as [[a|e] w']; auto.
Qed.

Lemma hoare_lanzar {A : Type} (P : Mundo Σ -> Prop) msg
    (Q : A -> Mundo Σ -> Prop) E :
  (forall w, P w -> E msg w) -> hoare P (lanzar msg) Q E.
Proof. intros H w Hw. simpl. auto. Qed.

Lemma hoare_leer {A : Type} (P : Mundo Σ -> Prop) (f : Mundo Σ -> A) Q E :
  (forall w, P w -> Q (f w) w) -> hoare P (leer f) Q E.
Proof. intros H w Hw. simpl. auto. Qed.

Lemma hoare_modificar (P : Mundo Σ -> Prop) f Q E :
  (forall w, P w -> Q tt (f w)) -> hoare P (modificar f) Q E.
Proof. intros H w Hw. simpl. auto. Qed.

(** A predicate on states that a computation keeps, however it ends. *)
Definition conserva {A : Type} (I : Mundo Σ -> Prop) (m : M Σ A) : Prop :=
  hoare I m (fun _ => I) (fun _ => I).

Lemma conserva_ret {A : Type} I (a : A) : conserva I (mret a).
Proof. apply hoare_ret. auto. Qed.

Lemma conserva_bind {A B : Type} I (m : M Σ A) (f : A -> M Σ B) :
  conserva I m -> (forall a, conserva I (f a)) -> conserva I (m ≫= f).
Proof. intros. eapply hoare_bind; eauto. Qed.

Lemma conserva_try_catch {A : Type} I (m : M Σ A) h :
  conserva I m -> (forall e, conserva I (h e)) -> conserva I (try_catch m h).
Proof. intros. eapply hoare_try_catch; eauto. Qed.

Lemma conserva_lanzar {A : Type} I msg : conserva I (@lanzar Σ A msg).
Proof. apply hoare_lanzar. auto. Qed.

Lemma conserva_leer {A : Type} I (f : Mundo Σ -> A) : conserva I (leer f).
Proof. apply hoare_leer. auto. Qed.

Lemma conserva_modificar I (f : Mundo Σ -> Mundo Σ) :
  (forall w, I w -> I (f w)) -> conserva I (modificar f).
Proof. intros Hf. apply hoare_modificar. exact Hf. Qed.

Lemma conserva_mapM {A B : Type} I (f : A -> M Σ B) l :
  (forall x, conserva I (f x)) -> conserva I (mapM f l).
Proof.
  intros Hf. induction l as [|x r IH]; simpl.
  - apply conserva_ret.
  - apply conserva_bind; [apply Hf|]. intros y.
    apply conserva_bind; [apply IH|]. intros ys. apply conserva_ret.
Qed.

(** A computation that returns, whatever the state. *)
Definition retorna {A : Type} (m : M Σ A) : Prop :=
  forall w, exists a, fst (m w) = Normal a.

Lemma retorna_try_catch {A : Type} (m : M Σ A) h :
  (forall e, retorna (h e)) -> retorna (try_catch m h).
Proof.
  intros Hh w. unfold try_catch.
  destruct (m w) as [[a|e] w']; simpl; [eauto|]. apply Hh.
Qed.

Lemma retorna_bind {A B : Type} (m : M Σ A) (f : A -> M Σ B) :
  retorna m -> (forall a, retorna (f a)) -> retorna (m ≫= f).
Proof.
  intros Hm Hf w. unfold mbind, M_bind.
  destruct (Hm w) as [a Ha]. destruct (m w) as [[a'|e] w']; simpl in Ha.
  - apply Hf.
  - discriminate.
Qed.

Lemma retorna_ret {A : Type} (a : A) : retorna (mret a : M Σ A).
Proof. intros w. simpl. eauto. Qed.

Lemma retorna_console n t : retorna (@console Σ n t).
Proof. intros w. simpl. eauto. Qed.

End Computaciones.

(** ** JSON: reading back what was written *)

Section HechosJSON.

#[local] Arguments String.append : simpl nomatch.

Lemma append_assoc (a b c : string) : (a ++ b) ++ c = a ++ (b ++ c).
Proof. induction a as [|x a IH]; simpl; [reflexivity|]. f_equal. exact IH. Qed.

Lemma append_nil_r (a : string) : a ++ "" = a.
Proof. induction a as [|x a IH]; simpl; [reflexivity|]. f_equal. exact IH. Qed.

Lemma length_append (a b : string) :
  String.length (a ++ b) = String.length a + String.length b.
Proof. induction a as [|x a IH]; simpl; [reflexivity|]. f_equal. exact IH. Qed.

(** The first character of a text, if any, is none of [cs]. *)
Definition no_empieza (cs : list ascii) (r : string) : Prop :=
  match r with
  | String c _ => ~ In c cs
  | EmptyString => True
  end.

Definition digitos : list ascii :=
  ["0"; "1"; "2"; "3"; "4"; "5"; "6"; "7"; "8"; "9"]%char.

Lemma digito_de_None c : ~ In c digitos -> digito_de c = None.
Proof.
  intros H. destruct c as [[] [] [] [] [] [] [] []]; try reflexivity;
    exfalso; apply H; simpl; tauto.
Qed.

Lemma leer_digitos_texto (d : uint) (r : string) :
  no_empieza digitos r -> leer_digitos (texto_digitos d ++ r) = (d, r).
Proof.
  intros Hr. induction d; simpl; try (rewrite IHd; reflexivity).
  destruct r as [|c r']; [reflexivity|]. simpl.
  rewrite (digito_de_None c Hr). reflexivity.
Qed.

Lemma leer_digitos1_texto (d : uint) (r : string) :
  d <> Nil -> no_empieza digitos r ->
  leer_digitos1 (texto_digitos d ++ r) = Some (d, r).
Proof.
  intros Hd Hr. unfold leer_digitos1. rewrite leer_digitos_texto by done.
  destruct d; congruence.
Qed.

Lemma nzhead_sin_cero d u : nzhead d <> D0 u.
Proof. induction d; simpl; congruence. Qed.

Lemma to_uint_normal (n : N) : unorm (N.to_uint n) = N.to_uint n.
Proof.
  rewrite <- (DecimalN.Unsigned.of_to n) at 2.
  rewrite DecimalN.Unsigned.to_of. reflexivity.
Qed.

Lemma to_uint_cabeza (n : N) :
  N.to_uint n = D0 Nil \/ (N.to_uint n <> Nil /\ forall u, N.to_uint n <> D0 u).
Proof.
  pose proof (to_uint_normal n) as H. unfold unorm in H.
  destruct (nzhead (N.to_uint n)) as [|u|u|u|u|u|u|u|u|u|u] eqn:E;
    [left; congruence
    |exfalso; exact (nzhead_sin_cero _ _ E)
    |right; rewrite <- H; split; [discriminate|intros u'; discriminate]..].
Qed.

Lemma leer_entero_texto (n : N) (r : string) :
  no_empieza digitos r ->
  leer_entero (texto_digitos (N.to_uint n) ++ r) = Some (n, r).
Proof.
  intros Hr. destruct (to_uint_cabeza n) as [H0|[Hnil Hcab]].
  - assert (n = 0%N) as ->.
    { apply DecimalN.Unsigned.to_uint_inj. rewrite H0. reflexivity. }
    reflexivity.
  - unfold leer_entero.
    pose proof (leer_digitos1_texto (N.to_uint n) r Hnil Hr) as Hd.
    destruct (N.to_uint n) as [|u|u|u|u|u|u|u|u|u|u] eqn:E;
      try congruence; try (exfalso; exact (Hcab u eq_refl));
      simpl texto_digitos in *; simpl append in *; cbv beta iota;
      change (N_of_ascii _ =? 48)%N with false; cbv iota;
      rewrite Hd; rewrite <- E, DecimalN.Unsigned.of_to; reflexivity.
Qed.

(** What may follow a value: nothing, or a character that ends it. *)
Definition fin_de_numero : list ascii :=
  (digitos ++ ["."; "e"; "E"; "-"; "+"])%char%list.

Lemma no_empieza_mas cs cs' r :
  (forall c, In c cs' -> In c cs) -> no_empieza cs r -> no_empieza cs' r.
Proof. intros H. destruct r as [|c r]; simpl; [done|]. intros Hc Hin. eauto. Qed.

Lemma leer_fraccion_texto (f : uint) (r : string) :
  no_empieza ("."%char :: digitos) r ->
  leer_fraccion (match f with
                 | Nil => ""
                 | _ => "." ++ texto_digitos f
                 end ++ r) = Some (f, r).
Proof.
  intros Hr.
  assert (Hd : no_empieza digitos r).
  { revert Hr. apply no_empieza_mas. intros c Hc. right. exact Hc. }
  assert (Hp : forall x, leer_fraccion ("." ++ x) = leer_digitos1 x)
    by reflexivity.
  destruct f;
    try (rewrite append_assoc, Hp;
         apply leer_digitos1_texto; [discriminate|exact Hd]).
  simpl. destruct r as [|c r']; [reflexivity|].
  simpl in Hr. unfold leer_fraccion.
  destruct c as [[] [] [] [] [] [] [] []]; try reflexivity.
  exfalso. apply Hr. left. reflexivity.
Qed.

Lemma to_uint_no_nil (n : N) : N.to_uint n <> Nil.
Proof.
  destruct n as [|p]; [discriminate|].
  apply DecimalPos.Unsigned.to_uint_nonnil.
Qed.

Lemma leer_exponente_texto (e : option Z) (r : string) :
  no_empieza fin_de_numero r ->
  leer_exponente
    (match e with
     | None => ""
     | Some e =>
         "e" ++ (if (e <? 0)%Z then "-" else "+")
         ++ texto_digitos (N.to_uint (Z.abs_N e))
     end ++ r) = Some (e, r).
Proof.
  intros Hr.
  assert (Hd : no_empieza digitos r).
  { revert Hr. apply no_empieza_mas. unfold fin_de_numero. intros c Hc.
    apply in_or_app. left. exact Hc. }
  destruct e as [e|].
  - rewrite !append_assoc. simpl.
    destruct (e <? 0)%Z eqn:Hneg; simpl;
      rewrite leer_digitos1_texto by (auto using to_uint_no_nil);
      rewrite DecimalN.Unsigned.of_to; do 3 f_equal.
    + apply Z.ltb_lt in Hneg. rewrite N2Z.inj_abs_N. lia.
    + apply Z.ltb_ge in Hneg. rewrite N2Z.inj_abs_N. lia.
  - simpl. destruct r as [|c r']; [reflexivity|].
    simpl in Hr. unfold leer_exponente.
    destruct c as [[] [] [] [] [] [] [] []]; try reflexivity;
      exfalso; apply Hr; unfold fin_de_numero; simpl; tauto.
Qed.

Lemma no_empieza_fraccion (f : uint) (e : option Z) (r : string) :
  no_empieza fin_de_numero r ->
  no_empieza digitos
    (match f with
     | Nil => ""
     | _ => "." ++ texto_digitos f
     end
     ++ match e with
        | None => ""
        | Some e =>
            "e" ++ (if (e <? 0)%Z then "-" else "+")
            ++ texto_digitos (N.to_uint (Z.abs_N e))
        end ++ r).
Proof.
  intros Hr.
  assert (Hd : no_empieza digitos r).
  { revert Hr. apply no_empieza_mas. unfold fin_de_numero. intros c Hc.
    apply in_or_app. left. exact Hc. }
  assert (He : no_empieza digitos
                 (match e with
                  | None => ""
                  | Some e =>
                      "e" ++ (if (e <? 0)%Z then "-" else "+")
                      ++ texto_digitos (N.to_uint (Z.abs_N e))
                  end ++ r)).
  { destruct e as [e|]; [|exact Hd]. simpl.
    intros H. unfold digitos in H. simpl in H.
    repeat (destruct H as [H|H]; [discriminate H|]). exact H. }
  destruct f; try exact He; simpl; intros H; unfold digitos in H; simpl in H;
    repeat (destruct H as [H|H]; [discriminate H|]); exact H.
Qed.

Lemma leer_signo_digitos (d : uint) (x : string) :
  d <> Nil -> leer_signo (texto_digitos d ++ x) = (false, texto_digitos d ++ x).
Proof. destruct d; try congruence; reflexivity. Qed.

Lemma leer_numero_texto (n : numero) (r : string) :
  no_empieza fin_de_numero r -> leer_numero (texto_numero n ++ r) = Some (n, r).
Proof.
  intros Hr. destruct n as [neg ent f e]. unfold texto_numero.
  cbn [num_neg num_ent num_frac num_exp].
  pose proof (leer_fraccion_texto f) as HF.
  pose proof (leer_exponente_texto e r Hr) as HX.
  pose proof (no_empieza_fraccion f e r Hr) as HE.
  assert (Hx : no_empieza ("."%char :: digitos)
                 (match e with
                  | None => ""
                  | Some e =>
                      "e" ++ (if (e <? 0)%Z then "-" else "+")
                      ++ texto_digitos (N.to_uint (Z.abs_N e))
                  end ++ r)).
  { destruct e as [e|].
    - simpl. intros H. repeat (destruct H as [H|H]; [discriminate H|]). exact H.
    - revert Hr. apply no_empieza_mas. unfold fin_de_numero. intros c Hc.
      simpl in Hc. simpl. tauto. }
  set (F := match f with Nil => "" | _ => "." ++ texto_digitos f end) in *.
  set (X := match e with
            | None => ""
            | Some e =>
                "e" ++ (if (e <? 0)%Z then "-" else "+")
                ++ texto_digitos (N.to_uint (Z.abs_N e))
            end) in *.
  rewrite !append_assoc. unfold leer_numero.
  assert (Hs : leer_signo
                 ((if neg then "-" else "")
                  ++ texto_digitos (N.to_uint ent) ++ F ++ X ++ r)
               = (neg, texto_digitos (N.to_uint ent) ++ F ++ X ++ r)).
  { destruct neg; [reflexivity|].
    apply leer_signo_digitos, to_uint_no_nil. }
  rewrite Hs.
  rewrite leer_entero_texto by exact HE.
  rewrite HF by exact Hx.
  rewrite HX.
  reflexivity.
Qed.

(** String literals *)

Lemma leer_cadena_escapar (c : ascii) (x : string) :
  leer_cadena (escapar c ++ x) = anteponer (String c "") (leer_cadena x).
Proof. destruct c as [[] [] [] [] [] [] [] []]; reflexivity. Qed.

Lemma leer_cadena_texto (s r : string) :
  leer_cadena (escapar_cadena s ++ String comilla r) = Some (s, r).
Proof.
  induction s as [|c s IH]; [reflexivity|].
  simpl escapar_cadena. rewrite append_assoc, leer_cadena_escapar, IH.
  reflexivity.
Qed.

(** Values *)

Lemma jsval_induccion (P : jsval -> Prop) :
  P JUndefined -> P JNull -> (forall b, P (JBool b)) -> (forall n, P (JNum n)) ->
  (forall b, P (JInfinito b)) -> (forall s, P (JStr s)) ->
  (forall xs, Forall P xs -> P (JArr xs)) ->
  (forall cs, Forall (fun kv : string * jsval => P (snd kv)) cs -> P (JObj cs)) ->
  forall v, P v.
Proof.
  intros HU HN HB HNum HI HS HA HO.
  fix IH 1. intros [| |b|n|i|s|xs|cs].
  - exact HU.
  - exact HN.
  - apply HB.
  - apply HNum.
  - apply HI.
  - apply HS.
  - apply HA.
    exact ((fix go (l : list jsval) : Forall P l :=
              match l with
              | [] => @List.Forall_nil _ P
              | x :: r => @List.Forall_cons _ P x r (IH x) (go r)
              end) xs).
  - apply HO.
    exact ((fix go (l : list (string * jsval))
              : Forall (fun kv => P (snd kv)) l :=
              match l with
              | [] => @List.Forall_nil _ _
              | x :: r => @List.Forall_cons _ _ x r (IH (snd x)) (go r)
              end) cs).
Qed.

(** The fuel that reading a value back takes. *)
Fixpoint peso (v : jsval) : nat :=
  match v with
  | JArr xs => S (list_sum (map (fun x => S (peso x)) xs))
  | JObj cs => S (list_sum (map (fun kv : string * jsval => S (peso (snd kv))) cs))
  | _ => 1
  end.

Definition inicio_de_valor : list ascii :=
  (["n"; "t"; "f"; "-"; "["; "{"; comilla] ++ digitos)%char%list.

Lemma texto_numero_inicio (x : numero) (r : string) :
  exists c t, texto_numero x ++ r = String c t /\ In c ("-"%char :: digitos).
Proof.
  destruct x as [neg ent f e]. unfold texto_numero.
  cbn [num_neg num_ent num_frac num_exp].
  destruct neg.
  - eexists _, _. split; [reflexivity|]. left. reflexivity.
  - pose proof (to_uint_no_nil ent) as Hn.
    destruct (N.to_uint ent); try congruence;
      (eexists _, _; split; [reflexivity|]; right; unfold digitos; simpl; tauto).
Qed.

Lemma texto_inicio (v : jsval) (r : string) :
  exists c t, imprimir v ++ r = String c t /\ In c inicio_de_valor.
Proof.
  destruct v as [| |[]|n|i|s|xs|cs];
    try (eexists _, _; split; [reflexivity|]; unfold inicio_de_valor; simpl; tauto).
  destruct (texto_numero_inicio n r) as (c & t & H & Hc).
  exists c, t. split; [exact H|].
  unfold inicio_de_valor. destruct Hc as [<-|Hc]; [simpl; tauto|].
  apply in_or_app. right. exact Hc.
Qed.

Lemma leer_valor_es_numero (n : nat) (c : ascii) (t : string) :
  In c ("-"%char :: digitos) ->
  leer_valor (S n) (String c t)
  = match leer_numero (String c t) with
    | Some (x, r') => Some (JNum x, r')
    | None => None
    end.
Proof.
  intros H. unfold digitos in H. simpl in H.
  repeat (destruct H as [<-|H]; [reflexivity|]). destruct H.
Qed.

(** One step of each reader. *)

Lemma leer_elementos_S (n : nat) (s : string) :
  leer_elementos (S n) s
  = match leer_valor n s with
    | Some (v, r) =>
        match saltar_espacios r with
        | String "," r' =>
            match leer_elementos n r' with
            | Some (l, r'') => Some (v :: l, r'')
            | None => None
            end
        | String "]" r' => Some ([v], r')
        | _ => None
        end
    | None => None
    end.
Proof. reflexivity. Qed.

Lemma leer_miembros_S (n : nat) (x : string) :
  leer_miembros (S n) (String comilla x)
  = match leer_cadena x with
    | Some (k, r1) =>
        match saltar_espacios r1 with
        | String ":" r2 =>
            match leer_valor n r2 with
            | Some (v, r3) =>
                match saltar_espacios r3 with
                | String "," r4 =>
                    match leer_miembros n r4 with
                    | Some (l, r5) => Some ((k, v) :: l, r5)
                    | None => None
                    end
                | String "}" r4 => Some ([(k, v)], r4)
                | _ => None
                end
            | None => None
            end
        | _ => None
        end
    | None => None
    end.
Proof. reflexivity. Qed.

Lemma leer_valor_arreglo (n : nat) (c : ascii) (t : string) :
  In c inicio_de_valor ->
  leer_valor (S n) (String "[" (String c t))
  = match leer_elementos n (String c t) with
    | Some (l, r') => Some (JArr l, r')
    | None => None
    end.
Proof.
  intros H. unfold inicio_de_valor, digitos in H. simpl in H.
  repeat (destruct H as [<-|H]; [reflexivity|]). destruct H.
Qed.

Lemma leer_valor_objeto (n : nat) (t : string) :
  leer_valor (S n) (String "{" (String comilla t))
  = match leer_miembros n (String comilla t) with
    | Some (l, r') => Some (objeto_de l, r')
    | None => None
    end.
Proof. reflexivity. Qed.

Lemma leer_valor_cadena (n : nat) (t : string) :
  leer_valor (S n) (String comilla t)
  = match leer_cadena t with
    | Some (x, r') => Some (JStr x, r')
    | None => None
    end.
Proof. reflexivity. Qed.

(** What reading a value back means. *)
Definition se_lee (v : jsval) : Prop :=
  json_limpio v = true ->
  forall n r, peso v <= n -> no_empieza fin_de_numero r ->
    leer_valor n (imprimir v ++ r) = Some (v, r).

Lemma leer_elementos_texto (xs : list jsval) :
  xs <> [] -> Forall se_lee xs -> forallb json_limpio xs = true ->
  forall n r,
    list_sum (map (fun x => S (peso x)) xs) <= n ->
    leer_elementos n (unir "," (map imprimir xs) ++ "]" ++ r)
    = Some (xs, r).
Proof.
  induction xs as [|x xs IH]; [congruence|].
  intros _ HP Hl n r Hn.
  apply Forall_cons in HP. destruct HP as [Hx HP].
  simpl in Hl. apply andb_prop in Hl. destruct Hl as [Hlx Hl].
  simpl in Hn. destruct n as [|n]; [lia|].
  rewrite leer_elementos_S.
  destruct xs as [|y ys].
  - simpl unir. simpl map in Hn. simpl list_sum in Hn.
    rewrite (Hx Hlx n ("]" ++ r)); [reflexivity|lia|].
    simpl. unfold fin_de_numero. simpl. intros H.
    repeat (destruct H as [H|H]; [discriminate H|]). exact H.
  - change (unir "," (map imprimir (x :: y :: ys)))
      with (imprimir x ++ "," ++ unir "," (map imprimir (y :: ys))).
    rewrite !append_assoc.
    rewrite (Hx Hlx n); [|lia|].
    2:{ simpl. unfold fin_de_numero. simpl. intros H.
        repeat (destruct H as [H|H]; [discriminate H|]). exact H. }
    change (saltar_espacios ("," ++ ?z)) with (String "," z).
    cbv beta iota.
    match goal with |- context [leer_elementos n ?z] =>
      replace (leer_elementos n z) with (Some (y :: ys, r))
    end; [reflexivity|].
    symmetry. apply IH; [discriminate|exact HP|exact Hl|].
    revert Hn. generalize (list_sum (map (fun x => S (peso x)) (y :: ys))).
    intros. lia.
Qed.

Definition texto_miembro (kv : string * jsval) : string :=
  texto_cadena (fst kv) ++ ":" ++ imprimir (snd kv).

Lemma limpio_no_undefined (v : jsval) :
  json_limpio v = true -> es_undefined v = false.
Proof. destruct v; simpl; congruence. Qed.

Lemma presentes_limpio (cs : list (string * jsval)) :
  forallb (fun kv : string * jsval => json_limpio (snd kv)) cs = true ->
  presentes
    (map (fun kv : string * jsval =>
            if es_undefined (snd kv) then None
            else Some (texto_cadena (fst kv) ++ ":" ++ imprimir (snd kv)))
       cs)
  = map texto_miembro cs.
Proof.
  induction cs as [|[k v] cs IH]; [reflexivity|].
  cbn [forallb map fst snd]. intros H.
  apply andb_prop in H. destruct H as [Hv H].
  rewrite (limpio_no_undefined v Hv). cbn [presentes].
  rewrite IH by exact H. reflexivity.
Qed.

Lemma no_empieza_cierre (c : ascii) (r : string) :
  In c [","; "]"; "}"]%char -> no_empieza fin_de_numero (String c r).
Proof.
  intros Hc. simpl. unfold fin_de_numero, digitos. simpl. intros H.
  simpl in Hc.
  repeat (destruct Hc as [<-|Hc];
          [repeat (destruct H as [H|H]; [discriminate H|]); exact H|]).
  exact Hc.
Qed.

Lemma leer_miembros_texto (cs : list (string * jsval)) :
  cs <> [] -> Forall (fun kv : string * jsval => se_lee (snd kv)) cs ->
  forallb (fun kv : string * jsval => json_limpio (snd kv)) cs = true ->
  forall n r,
    list_sum (map (fun kv : string * jsval => S (peso (snd kv))) cs) <= n ->
    leer_miembros n (unir "," (map texto_miembro cs) ++ "}" ++ r)
    = Some (cs, r).
Proof.
  induction cs as [|[k v] cs IH]; [congruence|].
  intros _ HP Hl n r Hn.
  apply Forall_cons in HP. destruct HP as [Hx HP]. simpl in Hx.
  simpl in Hl. apply andb_prop in Hl. destruct Hl as [Hlx Hl].
  simpl in Hn. destruct n as [|n]; [lia|].
  destruct cs as [|y ys].
  - simpl unir. unfold texto_miembro at 1. simpl fst. simpl snd.
    unfold texto_cadena. rewrite !append_assoc.
    change (String comilla ?a ++ ?b) with (String comilla (a ++ b)).
    rewrite leer_miembros_S. rewrite !append_assoc.
    change (String comilla "" ++ ?b) with (String comilla b).
    rewrite leer_cadena_texto.
    change (saltar_espacios (":" ++ ?z)) with (String ":" z). cbv beta iota.
    rewrite (Hx Hlx n ("}" ++ r)); [reflexivity|lia|].
    apply no_empieza_cierre. simpl. tauto.
  - change (unir "," (map texto_miembro ((k, v) :: y :: ys)))
      with (texto_miembro (k, v) ++ "," ++ unir "," (map texto_miembro (y :: ys))).
    unfold texto_miembro at 1. simpl fst. simpl snd.
    unfold texto_cadena. rewrite !append_assoc.
    change (String comilla ?a ++ ?b) with (String comilla (a ++ b)).
    rewrite leer_miembros_S. rewrite !append_assoc.
    change (String comilla "" ++ ?b) with (String comilla b).
    rewrite leer_cadena_texto.
    change (saltar_espacios (":" ++ ?z)) with (String ":" z). cbv beta iota.
    rewrite (Hx Hlx n); [|lia|apply no_empieza_cierre; simpl; tauto].
    change (saltar_espacios ("," ++ ?z)) with (String "," z). cbv beta iota.
    match goal with |- context [leer_miembros n ?z] =>
      replace (leer_miembros n z) with (Some (y :: ys, r))
    end; [reflexivity|].
    symmetry. apply IH; [discriminate|exact HP|exact Hl|].
    revert Hn.
    generalize (list_sum (map (fun kv : string * jsval => S (peso (snd kv)))
                            (y :: ys))).
    intros. lia.
Qed.

Lemma poner_campo_nuevo k v (acc : list (string * jsval)) :
  ~ In k (map fst acc) -> poner_campo k v acc = (acc ++ [(k, v)])%list.
Proof.
  induction acc as [|[k' v'] acc IH]; simpl; intros H; [reflexivity|].
  destruct (String.eqb k k') eqn:E.
  - apply String.eqb_eq in E. subst k'. exfalso. apply H. left. reflexivity.
  - rewrite IH; [reflexivity|]. intros Hin. apply H. right. exact Hin.
Qed.

Lemma fold_poner_campo (l acc : list (string * jsval)) :
  NoDup (map fst (acc ++ l)%list) ->
  fold_left (fun acc kv => poner_campo (fst kv) (snd kv) acc) l acc
  = (acc ++ l)%list.
Proof.
  revert acc. induction l as [|[k v] l IH]; intros acc H; simpl.
  - rewrite app_nil_r. reflexivity.
  - rewrite poner_campo_nuevo.
    + rewrite IH; rewrite <- app_assoc; [reflexivity|exact H].
    + rewrite map_app in H. simpl in H. apply NoDup_app in H.
      destruct H as (_ & H & _). intros Hin.
      apply (H k); [apply list_elem_of_In; exact Hin|left].
Qed.

Lemma objeto_de_limpio (cs : list (string * jsval)) :
  NoDup (map fst cs) -> objeto_de cs = JObj cs.
Proof. intros H. unfold objeto_de. rewrite fold_poner_campo; done. Qed.

Lemma se_lee_todo (v : jsval) : se_lee v.
Proof.
  induction v as [| |b|x|i|s|xs IH|cs IH] using jsval_induccion;
    intros Hl n r Hn Hr.
  - discriminate Hl.
  - destruct n as [|n]; [simpl in Hn; lia|]. reflexivity.
  - destruct n as [|n]; [simpl in Hn; lia|]. destruct b; reflexivity.
  - destruct n as [|n]; [simpl in Hn; lia|].
    cbn [imprimir].
    destruct (texto_numero_inicio x r) as (c & t & Ht & Hc).
    pose proof (leer_numero_texto x r Hr) as Hnum.
    rewrite Ht in *. rewrite leer_valor_es_numero by exact Hc.
    rewrite Hnum. reflexivity.
  - discriminate Hl.
  - destruct n as [|n]; [simpl in Hn; lia|].
    cbn [imprimir]. unfold texto_cadena.
    change (String comilla ?a ++ ?b) with (String comilla (a ++ b)).
    rewrite leer_valor_cadena, append_assoc.
    change (String comilla "" ++ ?b) with (String comilla b).
    rewrite leer_cadena_texto. reflexivity.
  - destruct n as [|n]; [simpl in Hn; lia|].
    cbn [imprimir json_limpio peso] in *.
    destruct xs as [|x xs]; [reflexivity|].
    rewrite !append_assoc.
    change ("[" ++ ?z) with (String "[" z).
    pose proof (leer_elementos_texto (x :: xs) ltac:(discriminate) IH Hl n r
                  ltac:(lia)) as He.
    change (unir "," (map imprimir (x :: xs)))
      with (unir "," (imprimir x :: map imprimir xs)) in *.
    destruct (texto_inicio x
                (match map imprimir xs with
                 | [] => ""
                 | _ => "," ++ unir "," (map imprimir xs)
                 end ++ "]" ++ r)) as (c & t & Ht & Hc).
    assert (Hu : unir "," (imprimir x :: map imprimir xs) ++ "]" ++ r
                 = String c t).
    { rewrite <- Ht. destruct (map imprimir xs); simpl unir.
      - reflexivity.
      - rewrite !append_assoc. reflexivity. }
    rewrite Hu in *. rewrite leer_valor_arreglo by exact Hc.
    rewrite He. reflexivity.
  - destruct n as [|n]; [simpl in Hn; lia|].
    cbn [imprimir json_limpio peso] in *.
    apply andb_prop in Hl. destruct Hl as [Hnd Hl].
    apply bool_decide_eq_true_1 in Hnd.
    rewrite presentes_limpio by exact Hl.
    destruct cs as [|[k0 v0] cs]; [reflexivity|].
    rewrite !append_assoc.
    change ("{" ++ ?z) with (String "{" z).
    assert (Hn' : list_sum (map (fun kv : string * jsval => S (peso (snd kv)))
                              ((k0, v0) :: cs)) <= n) by (apply le_S_n; exact Hn).
    pose proof (leer_miembros_texto ((k0, v0) :: cs) ltac:(discriminate) IH Hl
                  n r Hn') as He.
    assert (Hu : exists t,
               unir "," (map texto_miembro ((k0, v0) :: cs)) ++ "}" ++ r
               = String comilla t).
    { cbn [map]. unfold texto_miembro at 1, texto_cadena.
      destruct (map texto_miembro cs); simpl unir; eexists; reflexivity. }
    destruct Hu as [t Hu]. rewrite Hu in *.
    rewrite leer_valor_objeto, He.
    rewrite objeto_de_limpio by exact Hnd. reflexivity.
Qed.

Lemma length_unir_peso (xs : list jsval) :
  Forall (fun x => peso x <= String.length (imprimir x)) xs ->
  list_sum (map (fun x => S (peso x)) xs)
  <= S (String.length (unir "," (map imprimir xs))).
Proof.
  induction xs as [|x xs IH]; intros H; [simpl; lia|].
  apply Forall_cons in H. destruct H as [Hx H]. specialize (IH H).
  destruct xs as [|y ys].
  - simpl in *. lia.
  - change (unir "," (map imprimir (x :: y :: ys)))
      with (imprimir x ++ "," ++ unir "," (map imprimir (y :: ys))).
    change (list_sum (map (fun x => S (peso x)) (x :: y :: ys)))
      with (S (peso x) + list_sum (map (fun x => S (peso x)) (y :: ys))).
    rewrite !length_append. change (String.length ",") with 1. lia.
Qed.

Lemma length_unir_miembros (cs : list (string * jsval)) :
  Forall (fun kv : string * jsval =>
            peso (snd kv) <= String.length (imprimir (snd kv))) cs ->
  list_sum (map (fun kv : string * jsval => S (peso (snd kv))) cs)
  <= S (String.length (unir "," (map texto_miembro cs))).
Proof.
  induction cs as [|[k v] cs IH]; intros H; [simpl; lia|].
  apply Forall_cons in H. destruct H as [Hx H]. specialize (IH H).
  cbn [snd] in Hx.
  assert (Hm : S (peso v) <= String.length (texto_miembro (k, v))).
  { unfold texto_miembro. rewrite !length_append. cbn [fst snd].
    change (String.length ":") with 1.
    revert Hx. generalize (String.length (imprimir v)).
    generalize (String.length (texto_cadena k)). generalize (peso v).
    intros. lia. }
  destruct cs as [|y ys].
  - cbn [map unir snd] in *. simpl list_sum. lia.
  - change (unir "," (map texto_miembro ((k, v) :: y :: ys)))
      with (texto_miembro (k, v) ++ "," ++ unir "," (map texto_miembro (y :: ys))).
    change (list_sum (map (fun kv : string * jsval => S (peso (snd kv)))
                        ((k, v) :: y :: ys)))
      with (S (peso v)
            + list_sum (map (fun kv : string * jsval => S (peso (snd kv)))
                          (y :: ys))).
    rewrite !length_append. change (String.length ",") with 1. lia.
Qed.

Lemma peso_longitud (v : jsval) :
  json_limpio v = true -> peso v <= String.length (imprimir v).
Proof.
  induction v as [| |b|x|i|s|xs IH|cs IH] using jsval_induccion; intros Hl.
  - discriminate Hl.
  - simpl. lia.
  - destruct b; simpl; lia.
  - destruct (texto_numero_inicio x "") as (c & t & Ht & _).
    rewrite append_nil_r in Ht. cbn [imprimir peso]. rewrite Ht.
    simpl. lia.
  - discriminate Hl.
  - simpl. lia.
  - cbn [imprimir json_limpio peso] in *.
    rewrite !length_append. change (String.length "[") with 1.
    change (String.length "]") with 1.
    assert (H : Forall (fun x => peso x <= String.length (imprimir x)) xs).
    { clear -IH Hl. induction xs as [|x xs IHxs]; [constructor|].
      apply Forall_cons in IH. destruct IH as [Hx IH].
      simpl in Hl. apply andb_prop in Hl. destruct Hl as [Hlx Hl].
      constructor; auto. }
    pose proof (length_unir_peso xs H). lia.
  - cbn [imprimir json_limpio peso] in *.
    apply andb_prop in Hl. destruct Hl as [_ Hl].
    rewrite presentes_limpio by exact Hl.
    rewrite !length_append. change (String.length "{") with 1.
    change (String.length "}") with 1.
    assert (H : Forall (fun kv : string * jsval =>
                          peso (snd kv) <= String.length (imprimir (snd kv)))
                  cs).
    { clear -IH Hl. induction cs as [|x xs IHxs]; [constructor|].
      apply Forall_cons in IH. destruct IH as [Hx IH].
      simpl in Hl. apply andb_prop in Hl. destruct Hl as [Hlx Hl].
      constructor; auto. }
    pose proof (length_unir_miembros cs H). lia.
Qed.

(** The text of a value read back is the value. *)
Theorem JSON_leer_imprimir (v : jsval) :
  json_limpio v = true -> JSON_leer (imprimir v) = Some v.
Proof.
  intros Hl. unfold JSON_leer.
  pose proof (peso_longitud v Hl) as Hp.
  pose proof (se_lee_todo v Hl (2 * String.length (imprimir v) + 2) ""
                ltac:(lia) I) as H.
  rewrite append_nil_r in H. rewrite H. reflexivity.
Qed.

(** *** The order of the properties *)

Lemma insertar_permuta {A : Type} (i : N) (kv : string * A) (l : list (string * A)) :
  insertar i kv l ≡ₚ kv :: l.
Proof.
  induction l as [|x r IH]; simpl; [reflexivity|].
  destruct (indice_de (fst x)) as [j|]; [|reflexivity].
  destruct (i <? j)%N; [reflexivity|].
  rewrite IH. apply Permutation_swap.
Qed.

Lemma colocar_permuta {A : Type} (l : list (string * A)) (kv : string * A) :
  colocar l kv ≡ₚ kv :: l.
Proof.
  unfold colocar. destruct (indice_de (fst kv)) as [i|].
  - apply insertar_permuta.
  - symmetry. apply Permutation_cons_append.
Qed.

Lemma ordenar_campos_permuta {A : Type} (l : list (string * A)) :
  ordenar_campos l ≡ₚ l.
Proof.
  unfold ordenar_campos.
  assert (H : forall acc, fold_left colocar l acc ≡ₚ (acc ++ l)%list).
  { induction l as [|x r IH]; intros acc; simpl.
    - rewrite app_nil_r. reflexivity.
    - rewrite IH, colocar_permuta.
      rewrite (Permutation_middle acc r x). reflexivity. }
  exact (H []).
Qed.

Lemma ordenar_sin_indices {A : Type} (l : list (string * A)) :
  Forall (fun kv => indice_de (fst kv) = None) l -> ordenar_campos l = l.
Proof.
  unfold ordenar_campos. intros H.
  assert (G : forall acc, fold_left colocar l acc = (acc ++ l)%list).
  { induction H as [|x r Hx _ IH]; intros acc; simpl.
    - rewrite app_nil_r. reflexivity.
    - unfold colocar at 2. rewrite Hx, IH, <- app_assoc. reflexivity. }
  exact (G []).
Qed.

Lemma enumerado_limpio (v : jsval) :
  json_limpio v = true -> json_limpio (enumerado v) = true.
Proof.
  induction v as [| |b|x|i|s|xs IH|cs IH] using jsval_induccion;
    intros Hl; try exact Hl.
  - cbn [enumerado json_limpio] in *.
    rewrite forallb_forall in *. intros y Hy.
    apply in_map_iff in Hy. destruct Hy as (x & <- & Hx).
    rewrite List.Forall_forall in IH. apply (IH x Hx). apply Hl. exact Hx.
  - cbn [enumerado json_limpio] in *.
    apply andb_prop in Hl. destruct Hl as [Hnd Hl].
    apply bool_decide_eq_true_1 in Hnd.
    set (cs' := map (fun kv : string * jsval => (fst kv, enumerado (snd kv))) cs).
    pose proof (ordenar_campos_permuta cs') as Hp.
    apply andb_true_intro. split.
    + apply bool_decide_eq_true_2. rewrite Hp. unfold cs'.
      rewrite map_map. simpl. exact Hnd.
    + apply forallb_forall. intros kv Hkv.
      apply list_elem_of_In in Hkv. rewrite Hp in Hkv.
      apply list_elem_of_In in Hkv. unfold cs' in Hkv.
      apply in_map_iff in Hkv. destruct Hkv as (x & <- & Hx). simpl.
      rewrite List.Forall_forall in IH. apply (IH x Hx).
      rewrite forallb_forall in Hl. apply Hl. exact Hx.
Qed.

End HechosJSON.

(** [JSON.parse (JSON.stringify v)]: the value with the properties of its
    objects in the order they are listed in, and its numerals rounded. *)
Theorem JSON_parse_stringify {Pl : Plataforma} (v : jsval) :
  json_limpio v = true ->
  JSON_parse (JSON_stringify v) = Some (redondeado (enumerado v)).
Proof.
  intros Hl. unfold JSON_parse, JSON_stringify.
  rewrite (JSON_leer_imprimir _ (enumerado_limpio v Hl)). reflexivity.
Qed.
(** ** Dates: reading back what was written *)

Section HechosDate.
#[local] Arguments String.append : simpl nomatch.
Local Open Scope Z_scope.

Lemma N_of_cifra (n : Z) : N_of_ascii (cifra n) = (48 + Z.to_N (n mod 10))%N.
Proof.
  unfold cifra. apply N_ascii_embedding.
  pose proof (Z.mod_pos_bound n 10 ltac:(lia)). lia.
Qed.

Lemma leer_cifras_texto (w : nat) :
  forall (n acc : Z) (k : nat) (r : string),
    0 <= n < 10 ^ Z.of_nat w ->
    leer_cifras (w + k) acc (cifras w n ++ r)
    = leer_cifras k (acc * 10 ^ Z.of_nat w + n) r.
Proof.
  induction w as [|w IH]; intros n acc k r Hn.
  - simpl in *. f_equal. lia.
  - cbn [cifras]. rewrite append_assoc.
    replace (S w + k)%nat with (w + S k)%nat by lia.
    rewrite Nat2Z.inj_succ, Z.pow_succ_r in Hn by lia.
    rewrite IH by (split; [apply Z.div_pos; lia|apply Z.div_lt_upper_bound; lia]).
    change (String (cifra n) "" ++ r)%string with (String (cifra n) r).
    cbn [leer_cifras]. rewrite N_of_cifra.
    pose proof (Z.mod_pos_bound n 10 ltac:(lia)) as Hm.
    replace ((48 <=? 48 + Z.to_N (n mod 10))%N && (48 + Z.to_N (n mod 10) <=? 57)%N)
      with true.
    2:{ symmetry. apply andb_true_intro. split; apply N.leb_le; lia. }
    f_equal. rewrite Nat2Z.inj_succ, Z.pow_succ_r by lia.
    replace (Z.of_N (48 + Z.to_N (n mod 10) - 48)) with (n mod 10) by lia.
    pose proof (Z.div_mod n 10 ltac:(lia)). lia.
Qed.

Lemma leer_cifras_exacto (w : nat) (n : Z) (r : string) :
  0 <= n < 10 ^ Z.of_nat w ->
  leer_cifras w 0 (cifras w n ++ r) = Some (n, r).
Proof.
  intros Hn. pose proof (leer_cifras_texto w n 0 0 r Hn) as H.
  rewrite Nat.add_0_r in H. rewrite H.
  replace (0 * 10 ^ Z.of_nat w + n) with n by lia. reflexivity.
Qed.

(** *** The calendar *)

(** Of a day of an era of 400 years: the year of the era, the day of the
    year (counted from the first of March), the month (March is 0) and the
    day of the month that [civil_de_dias] computes are in range. *)
Lemma calendario_cotas (doe : Z) :
  0 <= doe < 146097 ->
  let yoe := (doe - doe / 1460 + doe / 36524 - doe / 146096) / 365 in
  let doy := doe - (365 * yoe + yoe / 4 - yoe / 100) in
  let mp := (5 * doy + 2) / 153 in
  let d := doy - (153 * mp + 2) / 5 + 1 in
  0 <= yoe <= 399 /\ 0 <= doy <= 365 /\ 0 <= mp <= 11 /\ 1 <= d <= 31.
Proof. intros H. cbv zeta. Z.div_mod_to_equations. lia. Qed.

Lemma civil_ida_y_vuelta (z : Z) :
  let '(y, m, d) := civil_de_dias z in
  dias_de_civil y m d = z /\ 1 <= m <= 12 /\ 1 <= d <= 31
  /\ (z + 719468) / 146097 * 400 <= y <= (z + 719468) / 146097 * 400 + 400.
Proof.
  unfold civil_de_dias, dias_de_civil.
  set (z1 := z + 719468).
  pose proof (Z.mod_pos_bound z1 146097 ltac:(lia)) as Hdoe.
  pose proof (Z.div_mod z1 146097 ltac:(lia)) as Hz.
  set (era := z1 / 146097) in *. set (doe := z1 mod 146097) in *.
  pose proof (calendario_cotas doe Hdoe) as Hb. cbv zeta in Hb.
  set (yoe := (doe - doe / 1460 + doe / 36524 - doe / 146096) / 365) in *.
  set (doy := doe - (365 * yoe + yoe / 4 - yoe / 100)) in *.
  set (mp := (5 * doy + 2) / 153) in *.
  set (d := doy - (153 * mp + 2) / 5 + 1) in *.
  destruct Hb as (Hyoe & Hdoy & Hmp' & Hd').
  destruct (mp <? 10) eqn:Hmp.
  - apply Z.ltb_lt in Hmp.
    replace (mp + 3 <=? 2) with false by (symmetry; apply Z.leb_gt; lia).
    replace ((yoe + era * 400) / 400) with era
      by (apply (Z.div_unique _ 400 era yoe); lia).
    replace ((yoe + era * 400) mod 400) with yoe
      by (apply (Z.mod_unique _ 400 era yoe); lia).
    replace (mp + 3 - 3) with mp by lia.
    subst d doy. split; [lia|]. split; [lia|]. split; lia.
  - apply Z.ltb_ge in Hmp.
    replace (mp - 9 <=? 2) with true by (symmetry; apply Z.leb_le; lia).
    replace (yoe + era * 400 + 1 - 1) with (yoe + era * 400) by lia.
    replace ((yoe + era * 400) / 400) with era
      by (apply (Z.div_unique _ 400 era yoe); lia).
    replace ((yoe + era * 400) mod 400) with yoe
      by (apply (Z.mod_unique _ 400 era yoe); lia).
    replace (mp - 9 + 9) with mp by lia.
    subst d doy. split; [lia|]. split; [lia|]. split; lia.
Qed.

(** *** The text of a date *)

Lemma cifra_digito (n : Z) : In (cifra n) digitos.
Proof.
  unfold cifra. pose proof (Z.mod_pos_bound n 10 ltac:(lia)) as H.
  assert (Hk : exists k : nat, (k < 10)%nat /\ Z.to_N (n mod 10) = N.of_nat k).
  { exists (Z.to_nat (n mod 10)). split; lia. }
  destruct Hk as (k & Hk & ->).
  do 10 (destruct k as [|k]; [simpl; tauto|]). lia.
Qed.

Lemma leer_anio_digito (c : ascii) (r : string) :
  In c digitos -> leer_anio (String c r) = leer_cifras 4 0 (String c r).
Proof.
  intros H. unfold digitos in H. simpl in H.
  repeat (destruct H as [<-|H]; [reflexivity|]). destruct H.
Qed.

Lemma leer_anio_texto (y : Z) (r : string) :
  -999999 <= y <= 999999 ->
  leer_anio (texto_anio y ++ r) = Some (y, r).
Proof.
  intros Hy. unfold texto_anio.
  destruct ((0 <=? y) && (y <=? 9999)) eqn:H4.
  - apply andb_prop in H4. destruct H4 as [H0 H9].
    apply Z.leb_le in H0. apply Z.leb_le in H9.
    pose proof (leer_cifras_exacto 4 y r ltac:(simpl; lia)) as Hl.
    cbn [cifras] in *. simpl append in *.
    rewrite leer_anio_digito by apply cifra_digito. exact Hl.
  - destruct (y <? 0) eqn:Hneg.
    + apply Z.ltb_lt in Hneg.
      change (("-" ++ cifras 6 (Z.abs y)) ++ r)%string
        with (String "-" (cifras 6 (Z.abs y) ++ r)).
      cbn [leer_anio].
      rewrite leer_cifras_exacto by (simpl; lia).
      replace (Z.abs y =? 0) with false by (symmetry; apply Z.eqb_neq; lia).
      f_equal. f_equal. lia.
    + apply Z.ltb_ge in Hneg.
      change (("+" ++ cifras 6 (Z.abs y)) ++ r)%string
        with (String "+" (cifras 6 (Z.abs y) ++ r)).
      cbn [leer_anio].
      rewrite leer_cifras_exacto by (simpl; lia).
      f_equal. f_equal. lia.
Qed.

Lemma tras_texto (c : ascii) (r : string) :
  tras c (String c "" ++ r) = Some r.
Proof. simpl. rewrite Ascii.eqb_refl. reflexivity. Qed.

Lemma leer_fecha_toISOString (t : Z) :
  Z.abs t <= tiempo_maximo ->
  exists s, Date_toISOString (Some t) = Some s /\ leer_fecha s = Some t.
Proof.
  intros Ht. unfold Date_toISOString.
  replace (Z.abs t <=? tiempo_maximo) with true
    by (symmetry; apply Z.leb_le; exact Ht).
  cbn [negb].
  pose proof (civil_ida_y_vuelta (t / ms_por_dia)) as Hc.
  destruct (civil_de_dias (t / ms_por_dia)) as [[y m] d].
  destruct Hc as (Hd & Hm & Hdd & Hy).
  eexists. split; [reflexivity|].
  unfold tiempo_maximo, ms_por_dia in *.
  pose proof (Z.mod_pos_bound t 86400000 ltac:(lia)) as Hms.
  pose proof (Z.div_mod t 86400000 ltac:(lia)) as Hdm.
  set (ms := t mod 86400000) in *. set (dias := t / 86400000) in *.
  assert (Hdias : -100000000 <= dias <= 100000000) by lia.
  assert (Hera : -690 <= (dias + 719468) / 146097 <= 690).
  { split; [apply Z.div_le_lower_bound|apply Z.div_le_upper_bound]; lia. }
  assert (Hhh : 0 <= ms / 3600000 <= 23).
  { split; [apply Z.div_pos; lia|].
    apply Z.lt_succ_r. apply Z.div_lt_upper_bound; lia. }
  pose proof (Z.mod_pos_bound (ms / 60000) 60 ltac:(lia)) as Hmm.
  pose proof (Z.mod_pos_bound (ms / 1000) 60 ltac:(lia)) as Hss.
  pose proof (Z.mod_pos_bound ms 1000 ltac:(lia)) as Hmmm.
  assert (Hsuma : ms / 3600000 * 3600000 + (ms / 60000) mod 60 * 60000
                  + (ms / 1000) mod 60 * 1000 + ms mod 1000 = ms).
  { clear -Hms. Z.div_mod_to_equations. lia. }
  unfold leer_fecha.
  rewrite leer_anio_texto by lia. cbn [mbind option_bind fst snd].
  rewrite tras_texto. cbn [mbind option_bind fst snd].
  rewrite (leer_cifras_exacto 2 m) by (simpl; lia).
  cbn [mbind option_bind fst snd].
  rewrite tras_texto. cbn [mbind option_bind fst snd].
  rewrite (leer_cifras_exacto 2 d) by (simpl; lia).
  cbn [mbind option_bind fst snd].
  rewrite tras_texto. cbn [mbind option_bind fst snd].
  rewrite (leer_cifras_exacto 2 (ms / 3600000)) by (simpl; lia).
  cbn [mbind option_bind fst snd].
  rewrite tras_texto. cbn [mbind option_bind fst snd].
  rewrite (leer_cifras_exacto 2 ((ms / 60000) mod 60)) by (simpl; lia).
  cbn [mbind option_bind fst snd].
  rewrite tras_texto. cbn [mbind option_bind fst snd].
  rewrite (leer_cifras_exacto 2 ((ms / 1000) mod 60)) by (simpl; lia).
  cbn [mbind option_bind fst snd].
  rewrite tras_texto. cbn [mbind option_bind fst snd].
  pose proof (leer_cifras_exacto 3 (ms mod 1000) "Z" ltac:(simpl; lia)) as H3.
  rewrite H3. cbn [mbind option_bind fst snd].
  change (tras "Z" "Z") with (Some ""). cbn [mbind option_bind fst snd].
  change (String.eqb "" "") with true.
  replace (1 <=? m) with true by (symmetry; apply Z.leb_le; lia).
  replace (m <=? 12) with true by (symmetry; apply Z.leb_le; lia).
  replace (1 <=? d) with true by (symmetry; apply Z.leb_le; lia).
  replace (d <=? 31) with true by (symmetry; apply Z.leb_le; lia).
  replace (ms / 3600000 <=? 23) with true by (symmetry; apply Z.leb_le; lia).
  replace ((ms / 60000) mod 60 <=? 59) with true
    by (symmetry; apply Z.leb_le; lia).
  replace ((ms / 1000) mod 60 <=? 59) with true
    by (symmetry; apply Z.leb_le; lia).
  cbn [andb]. rewrite Hd. unfold TimeClip, tiempo_maximo, ms_por_dia.
  replace (dias * 86400000 + ms / 3600000 * 3600000
           + (ms / 60000) mod 60 * 60000 + (ms / 1000) mod 60 * 1000
           + ms mod 1000) with t by lia.
  replace (Z.abs t <=? 8640000000000000) with true
    by (symmetry; apply Z.leb_le; exact Ht).
  reflexivity.
Qed.

(** [Date.parse(x.toISOString())] is [x]. *)
Lemma Date_parse_toISOString {Pl : Plataforma} (t : Z) :
  Z.abs t <= tiempo_maximo ->
  exists s, Date_toISOString (Some t) = Some s /\ Date_parse s = Some t.
Proof.
  intros Ht. destruct (leer_fecha_toISOString t Ht) as (s & Hs & Hl).
  exists s. split; [exact Hs|].
  unfold Date_parse. rewrite Hl.
  rewrite bool_decide_eq_true_2 by exact Hs. reflexivity.
Qed.

End HechosDate.

(** ** The Store: notification *)

Section HechosStore.
Context {Pl : Plataforma} {Σ : Type} `{!Invocador Σ}.
Implicit Types (w : Mundo Σ) (t : Template).

#[local] Arguments estricto_igual : simpl never.

(** What notification and loading leave alone: the arrays, which of them
    the page holds, the state of the Store, its subscribers and the
    storage. *)
Definition fijo w :=
  (arreglos w, entregados w, st_plantillas w, st_ultimaActualizacion w,
   st_persistenciaHabilitada w, _suscriptores w, localStorage w).

(** A template whose category can be made the name of a property. *)
Definition categoria_convertible t : bool :=
  match a_cadena (categoria t) with Some _ => true | None => false end.

(** The counts by category, when every category can be converted. *)
Fixpoint contar_puro (l : list Template) (acc : list (string * conteo))
  : option (list (string * conteo)) :=
  match l with
  | [] => Some acc
  | plantilla :: r =>
      match a_cadena (categoria plantilla) with
      | Some k => contar_puro r (Persistence.incrementar k acc)
      | None => None
      end
  end.

Lemma contar_categorias_puro (l : list Template) acc w :
  Persistence.contar_categorias l acc w
  = (match contar_puro l acc with
     | Some h => Normal h
     | None => Lanza "Cannot convert object to primitive value"
     end, w).
Proof.
  revert acc. induction l as [|p r IH]; intros acc; [reflexivity|].
  cbn [Persistence.contar_categorias contar_puro]. rewrite correr_bind.
  unfold Persistence.a_clave.
  destruct (a_cadena (categoria p)) as [k|]; [|reflexivity].
  apply IH.
Qed.

Lemma contar_puro_convertibles (l : list Template) acc :
  forallb categoria_convertible l = true -> is_Some (contar_puro l acc).
Proof.
  revert acc. induction l as [|p r IH]; intros acc Hl; simpl; [eauto|].
  simpl in Hl. apply andb_prop in Hl. destruct Hl as [Hp Hr].
  unfold categoria_convertible in Hp.
  destruct (a_cadena (categoria p)) as [k|]; [|discriminate Hp].
  apply IH. exact Hr.
Qed.

Lemma contar_puro_inconvertible (l : list Template) acc :
  forallb categoria_convertible l = false -> contar_puro l acc = None.
Proof.
  revert acc. induction l as [|p r IH]; intros acc Hl; simpl in *;
    [discriminate Hl|].
  unfold categoria_convertible in Hl at 1.
  destruct (a_cadena (categoria p)) as [k|]; [|reflexivity].
  apply IH. exact Hl.
Qed.

Lemma getInfoStorage_puro w :
  exists v, Persistence.getInfoStorage w = (Normal v, w).
Proof.
  unfold Persistence.getInfoStorage.
  rewrite correr_try_catch, correr_bind.
  unfold localStorage_getItem at 1, leer at 1. reducir.
  destruct (localStorage w !! Persistence.STORAGE_KEY) as [d|]; [|eauto].
  destruct (String.eqb d ""); [eauto|].
  rewrite correr_bind.
  destruct (JSON_parse d) as [v|]; reducir; [|eauto].
  rewrite correr_bind.
  destruct (prop v "metadata"); reducir; eauto.
Qed.

Lemma getInfoStorage_localStorage w w' :
  localStorage w' = localStorage w ->
  fst (Persistence.getInfoStorage w') = fst (Persistence.getInfoStorage w).
Proof.
  intros E. unfold Persistence.getInfoStorage.
  rewrite !correr_try_catch, !correr_bind.
  unfold localStorage_getItem, leer. reducir. rewrite E.
  destruct (localStorage w !! Persistence.STORAGE_KEY) as [d|]; [|reflexivity].
  destruct (String.eqb d ""); [reflexivity|].
  rewrite !correr_bind.
  destruct (JSON_parse d) as [v|]; reducir; [|reflexivity].
  rewrite !correr_bind.
  destruct (prop v "metadata"); reducir; reflexivity.
Qed.

(** [getEstadisticas] changes nothing, however it ends. *)
Lemma getEstadisticas_estado w : snd (Store.getEstadisticas w) = w.
Proof.
  unfold Store.getEstadisticas.
  rewrite correr_bind. unfold leer at 1. reducir.
  rewrite correr_bind, contar_categorias_puro.
  destruct (contar_puro (Store.plantillas w) []) as [h|]; [|reflexivity].
  rewrite correr_bind. unfold leer at 1. reducir.
  rewrite correr_bind. unfold leer at 1. reducir.
  rewrite correr_bind.
  destruct (getInfoStorage_puro w) as [v Hv]. rewrite Hv. reflexivity.
Qed.

Lemma getEstadisticas_convertibles w :
  forallb categoria_convertible (Store.plantillas w) = true ->
  exists e, Store.getEstadisticas w = (Normal e, w)
            /\ total e = length (Store.plantillas w)
            /\ estaVacio e = Nat.eqb (length (Store.plantillas w)) 0
            /\ contar_puro (Store.plantillas w) [] = Some (categorias e).
Proof.
  intros Hc. unfold Store.getEstadisticas.
  rewrite correr_bind. unfold leer at 1. reducir.
  rewrite correr_bind, contar_categorias_puro.
  destruct (contar_puro_convertibles _ [] Hc) as [h Hh]. rewrite Hh.
  rewrite correr_bind. unfold leer at 1. reducir.
  rewrite correr_bind. unfold leer at 1. reducir.
  rewrite correr_bind.
  destruct (getInfoStorage_puro w) as [v Hv]. rewrite Hv. reducir.
  eexists. split; [reflexivity|]. simpl. auto.
Qed.

Lemma getEstadisticas_inconvertible w :
  forallb categoria_convertible (Store.plantillas w) = false ->
  Store.getEstadisticas w
  = (Lanza "Cannot convert object to primitive value", w).
Proof.
  intros Hc. unfold Store.getEstadisticas.
  rewrite correr_bind. unfold leer at 1. reducir.
  rewrite correr_bind, contar_categorias_puro.
  rewrite (contar_puro_inconvertible _ [] Hc). reflexivity.
Qed.

Lemma getEstadisticas_igual w w' :
  Store.plantillas w' = Store.plantillas w ->
  st_ultimaActualizacion w' = st_ultimaActualizacion w ->
  st_persistenciaHabilitada w' = st_persistenciaHabilitada w ->
  localStorage w' = localStorage w ->
  fst (Store.getEstadisticas w') = fst (Store.getEstadisticas w).
Proof.
  intros Hp Hu Hh Hl.
  pose proof (getInfoStorage_localStorage w w' Hl) as Hi.
  unfold Store.getEstadisticas.
  rewrite !correr_bind. unfold leer at 1 4. reducir.
  rewrite !correr_bind, !contar_categorias_puro. rewrite Hp.
  destruct (contar_puro (Store.plantillas w) []) as [h|]; [|reflexivity].
  rewrite !correr_bind. unfold leer at 1 3. reducir.
  rewrite !correr_bind. unfold leer at 1 2. reducir.
  rewrite !correr_bind.
  destruct (getInfoStorage_puro w) as [v Hv].
  destruct (getInfoStorage_puro w') as [v' Hv'].
  rewrite Hv, Hv' in *. simpl in Hi. reducir. rewrite Hu, Hh. congruence.
Qed.

(** *** Callbacks that call nothing *)

(** What a callback does at its last step, for a callback that makes no
    call before it. *)
Definition efecto (cb : Suscriptor Σ) (ev : Evento) : Σ -> resultado unit * Σ :=
  match sus_cuerpo cb ev with
  | Termina f => f
  | Ejecuta _ _ => fun σ => (Normal tt, σ)
  end.

(** A callback that calls neither the Store, nor Persistence, nor the
    storage, whatever the event: it works on what the page keeps for
    itself, and returns or throws. *)
Definition callado (cb : Suscriptor Σ) : Prop :=
  forall ev, exists f, sus_cuerpo cb ev = Termina f.

Definition solo_exterior (f : Σ -> resultado unit * Σ) : M Σ unit :=
  fun w => let (r, σ) := f (exterior w) in (r, con_exterior σ w).

(** The call of a callback comes to its last step. *)
Definition sosegado (cb : Suscriptor Σ) : Prop :=
  forall ev w, invocar cb ev w = solo_exterior (efecto cb ev) w.

(** The state of the page after the callbacks [cbs] ran on [ev], each once
    and in order. *)
Definition exterior_tras (ev : Evento) (cbs : list (Suscriptor Σ)) (σ : Σ) : Σ :=
  fold_left (fun σ cb => snd (efecto cb ev σ)) cbs σ.

Definition llamadas_de (ev : Evento) (cbs : list (Suscriptor Σ))
  : list (nat * Evento) :=
  map (fun cb => (sus_id cb, ev)) cbs.

(** What [_notificarCambios] does with one callback. *)
Definition notificar_a (ev : Evento) (callback : Suscriptor Σ) : M Σ unit :=
  try_catch (Store.llamar callback ev)
    (fun error =>
       console "error" ("❌ Error en suscriptor del Store: " ++ error)).

Lemma notificar_a_sosegado ev cb w :
  sosegado cb ->
  exists w',
    notificar_a ev cb w = (Normal tt, w')
    /\ fijo w' = fijo w
    /\ llamadas w' = (llamadas w ++ [(sus_id cb, ev)])%list
    /\ exterior w' = snd (efecto cb ev (exterior w)).
Proof.
  intros Hs. unfold notificar_a, Store.llamar.
  rewrite correr_try_catch, correr_bind. unfold modificar at 1. reducir.
  rewrite Hs. unfold solo_exterior. simpl.
  destruct (efecto cb ev (exterior w)) as [[[]|e] σ]; simpl;
    eexists; repeat split.
Qed.

Lemma recorrer_sosegados ev (n : nat) :
  forall k w,
    Forall sosegado (_suscriptores w) ->
    k + n = length (_suscriptores w) ->
    exists w',
      Store.recorrer_suscriptores n k (notificar_a ev) w = (Normal tt, w')
      /\ fijo w' = fijo w
      /\ llamadas w'
         = (llamadas w ++ llamadas_de ev (drop k (_suscriptores w)))%list
      /\ exterior w' = exterior_tras ev (drop k (_suscriptores w)) (exterior w).
Proof.
  induction n as [|n IH]; intros k w Hq Hk.
  - exists w. rewrite drop_ge by lia. simpl. rewrite app_nil_r. auto.
  - cbn [Store.recorrer_suscriptores].
    rewrite correr_bind. unfold leer at 1. reducir.
    destruct (lookup_lt_is_Some_2 (_suscriptores w) k ltac:(lia)) as [cb Hcb].
    rewrite Hcb. rewrite correr_bind.
    pose proof (proj1 (Forall_lookup _ _) Hq k cb Hcb) as Hs.
    destruct (notificar_a_sosegado ev cb w Hs) as (w1 & H1 & Hf1 & Hl1 & Hx1).
    rewrite H1.
    assert (Hsus : _suscriptores w1 = _suscriptores w).
    { unfold fijo in Hf1. congruence. }
    destruct (IH (S k) w1) as (w2 & H2 & Hf2 & Hl2 & Hx2).
    { rewrite Hsus. exact Hq. }
    { rewrite Hsus. lia. }
    exists w2. split; [exact H2|]. split; [congruence|].
    rewrite Hsus in Hl2, Hx2.
    rewrite (drop_S _ _ _ Hcb). simpl.
    rewrite Hl2, Hl1, Hx2, Hx1, <- app_assoc. auto.
Qed.

Lemma _notificarCambios_efecto (tp : string) (dt : DatosEvento) w :
  Forall sosegado (_suscriptores w) ->
  forallb categoria_convertible (Store.plantillas w) = true ->
  exists ev w',
    Store._notificarCambios tp dt w = (Normal tt, w')
    /\ tipo ev = tp /\ datos ev = dt
    /\ total (estadisticas ev) = length (Store.plantillas w)
    /\ fijo w' = fijo w
    /\ llamadas w' = (llamadas w ++ llamadas_de ev (_suscriptores w))%list
    /\ exterior w' = exterior_tras ev (_suscriptores w) (exterior w).
Proof.
  intros Hq Hc. unfold Store._notificarCambios.
  rewrite correr_bind.
  destruct (getEstadisticas_convertibles w Hc) as (e & He & Htot & _).
  rewrite He. rewrite correr_bind.
  unfold Date_nueva at 1. rewrite correr_bind. unfold Date_now at 1. reducir.
  rewrite correr_bind. unfold leer at 1. reducir.
  match goal with
  | |- context [Store.recorrer_suscriptores _ _ ?F ?w1] =>
      match F with
      | context [mkEvento tp dt e ?f] =>
          change F with (notificar_a (mkEvento tp dt e f));
          destruct (recorrer_sosegados (mkEvento tp dt e f)
                      (length (_suscriptores w)) 0 w1 Hq eq_refl)
            as (w' & Hw' & Hf & Hl & Hx);
          exists (mkEvento tp dt e f), w'
      end
  end.
  split; [exact Hw'|]. simpl.
  repeat split; first [reflexivity | assumption].
Qed.

(** With a category that cannot be converted, [_notificarCambios] throws
    before it calls anybody. *)
Lemma _notificarCambios_lanza (tp : string) (dt : DatosEvento) w :
  forallb categoria_convertible (Store.plantillas w) = false ->
  Store._notificarCambios tp dt w
  = (Lanza "Cannot convert object to primitive value", w).
Proof.
  intros Hc. unfold Store._notificarCambios.
  rewrite correr_bind, (getEstadisticas_inconvertible w Hc). reflexivity.
Qed.

(** [w'] is [w] after a mutation that made [nuevas] the collection and
    notified the event of type [tp] with data [dt]. *)
Definition tras_mutacion w w' (nuevas : list Template) (tp : string)
    (dt : DatosEvento) : Prop :=
  arreglos w' = (arreglos w ++ [nuevas])%list
  /\ entregados w' = entregados w
  /\ st_plantillas w' = length (arreglos w)
  /\ _suscriptores w' = _suscriptores w
  /\ localStorage w' = localStorage w
  /\ st_persistenciaHabilitada w' = st_persistenciaHabilitada w
  /\ exists ev,
       tipo ev = tp /\ datos ev = dt
       /\ total (estadisticas ev) = length nuevas
       /\ llamadas w' = (llamadas w ++ llamadas_de ev (_suscriptores w))%list
       /\ exterior w' = exterior_tras ev (_suscriptores w) (exterior w).

Lemma arreglo_en_nuevo (h : list (list Template)) xs :
  default [] ((h ++ [xs])%list !! length h) = xs.
Proof. rewrite lookup_app_r, Nat.sub_diag by lia. done. Qed.

Lemma plantillas_tras_mutacion w w' nuevas tp dt :
  tras_mutacion w w' nuevas tp dt -> Store.plantillas w' = nuevas.
Proof.
  intros (Ha & _ & Hs & _). unfold Store.plantillas, Store.arreglo_en.
  rewrite Ha, Hs. apply arreglo_en_nuevo.
Qed.

Lemma truthy_js_and a b : truthy (js_and a b) = truthy a && truthy b.
Proof. unfold js_and. destruct (truthy a) eqn:E; simpl; auto. Qed.

Lemma truthy_esValida t :
  truthy (esValida t)
  = truthy (titulo t) && truthy (mensaje t) && truthy (hashtag t)
    && truthy (categoria t).
Proof. unfold esValida. rewrite !truthy_js_and. done. Qed.

Lemma prop_truthy v k : truthy v = true -> is_Some (prop v k).
Proof. destruct v; simpl; intros; try discriminate; eauto. Qed.

Lemma getEstadoLocal_valida t :
  truthy (esValida t) = true -> is_Some (getEstadoLocal t).
Proof.
  rewrite truthy_esValida. intros H0.
  repeat (apply andb_prop in H0; destruct H0 as [H0 ?]).
  unfold getEstadoLocal.
  destruct (prop_truthy (mensaje t) "length") as [l Hl]; [done|].
  rewrite Hl. eauto.
Qed.

(** *** Mutations *)

(** The state in which a mutation notifies: a new array [nuevas] is the
    collection, and the date of the last update was read from the clock. *)
Definition al_notificar w (nuevas : list Template) : Mundo Σ :=
  con_st_ultimaActualizacion
    (Some (Z.of_N (N.min (instante w (lecturas_reloj w))
                     (Z.to_N tiempo_maximo))))
    (con_lecturas_reloj (S (lecturas_reloj w))
       (con_st_plantillas (length (arreglos w))
          (con_arreglos (arreglos w ++ [nuevas]) w))).

Lemma plantillas_al_notificar w nuevas :
  Store.plantillas (al_notificar w nuevas) = nuevas.
Proof. unfold Store.plantillas, Store.arreglo_en. simpl. apply arreglo_en_nuevo. Qed.

(** Making [nuevas] the collection and going on with [resto]. *)
Lemma correr_reemplazo {A : Type} (nuevas : list Template) (resto : M Σ A) w :
  (l ← Store.nuevo_arreglo nuevas;
   modificar (con_st_plantillas l);;
   ahora ← Date_nueva;
   modificar (con_st_ultimaActualizacion ahora);;
   resto) w
  = resto (al_notificar w nuevas).
Proof. reflexivity. Qed.

Lemma notificar_tras_reemplazo w (nuevas : list Template) tp dt :
  Forall sosegado (_suscriptores w) ->
  forallb categoria_convertible nuevas = true ->
  exists w',
    Store._notificarCambios tp dt (al_notificar w nuevas) = (Normal tt, w')
    /\ tras_mutacion w w' nuevas tp dt.
Proof.
  intros Hq Hc.
  destruct (_notificarCambios_efecto tp dt (al_notificar w nuevas))
    as (ev & w' & Hn & Htp & Hdt & Htot & Hf & Hl & Hx).
  { exact Hq. }
  { rewrite plantillas_al_notificar. exact Hc. }
  exists w'. split; [exact Hn|].
  rewrite plantillas_al_notificar in Htot.
  unfold fijo in Hf. simpl in Hf, Hl, Hx. inversion Hf.
  unfold tras_mutacion. repeat split; try done.
  exists ev. repeat split; done.
Qed.

Lemma agregarPlantilla_valida w t :
  truthy (esValida t) = true ->
  Forall sosegado (_suscriptores w) ->
  forallb categoria_convertible (Store.plantillas w ++ [t]) = true ->
  exists w',
    Store.agregarPlantilla (Store.EsTemplate t) w = (Normal true, w')
    /\ tras_mutacion w w' (Store.plantillas w ++ [t])%list
         "PLANTILLA_AGREGADA"
         (DatosAgregada t (length (Store.plantillas w ++ [t])%list)).
Proof.
  intros Hv Hq Hc.
  destruct (getEstadoLocal_valida t Hv) as [el Hel].
  unfold Store.agregarPlantilla.
  rewrite correr_try_catch, correr_bind. reducir. rewrite Hv. reducir.
  rewrite correr_bind. unfold leer at 1. reducir.
  rewrite correr_reemplazo.
  rewrite correr_bind. unfold leer at 1. reducir.
  rewrite plantillas_al_notificar. rewrite correr_bind.
  destruct (notificar_tras_reemplazo w _ "PLANTILLA_AGREGADA"
              (DatosAgregada t (length (Store.plantillas w ++ [t])%list)) Hq Hc)
    as (w' & Hn & Hm).
  rewrite Hn. rewrite Hel. rewrite correr_bind.
  unfold console at 1, modificar at 1. reducir.
  eexists. split; [reflexivity|].
  destruct Hm as (H1 & H2 & H3 & H4 & H5 & H6 & ev & H7).
  unfold tras_mutacion. simpl. repeat split; try done. exists ev. exact H7.
Qed.

(** A valid template is appended even when the notification then fails on
    a category that cannot be converted: the call returns [false], the
    template is in the collection and nobody was called. *)
Lemma agregarPlantilla_inconvertible w t :
  truthy (esValida t) = true ->
  forallb categoria_convertible (Store.plantillas w ++ [t]) = false ->
  exists w',
    Store.agregarPlantilla (Store.EsTemplate t) w = (Normal false, w')
    /\ Store.plantillas w' = (Store.plantillas w ++ [t])%list
    /\ llamadas w' = llamadas w.
Proof.
  intros Hv Hc.
  unfold Store.agregarPlantilla.
  rewrite correr_try_catch, correr_bind. reducir. rewrite Hv. reducir.
  rewrite correr_bind. unfold leer at 1. reducir.
  rewrite correr_reemplazo.
  rewrite correr_bind. unfold leer at 1. reducir.
  rewrite plantillas_al_notificar. rewrite correr_bind.
  rewrite _notificarCambios_lanza
    by (rewrite plantillas_al_notificar; exact Hc).
  rewrite correr_bind. unfold console at 1, modificar at 1. reducir.
  eexists. split; [reflexivity|].
  split; [apply (plantillas_al_notificar w)|reflexivity].
Qed.

Lemma agregarPlantilla_rechazada w (a : Store.argumento) :
  match a with
  | Store.EsTemplate t => truthy (esValida t) = false
  | Store.OtroValor _ => True
  end ->
  exists msg,
    Store.agregarPlantilla a w
    = (Normal false,
       con_consola
         (consola w ++ [("error",
                         "❌ Store: Error al agregar plantilla: " ++ msg)]) w).
Proof.
  intros H0. unfold Store.agregarPlantilla.
  rewrite correr_try_catch, correr_bind.
  destruct a as [t|v]; reducir.
  - rewrite H0. reducir. eauto.
  - eauto.
Qed.

Definition tiene_id (ident : jsval) (plantilla : Template) : bool :=
  estricto_igual (JNum (id plantilla)) ident.

Lemma eliminarPlantilla_ausente w ident :
  find (tiene_id ident) (Store.plantillas w) = None ->
  Store.eliminarPlantilla ident w
  = (Normal false,
     con_consola
       (consola w ++ [("error",
                       "❌ Store: Error al eliminar plantilla: "
                       ++ "Plantilla no encontrada")]) w).
Proof.
  intros H0. unfold Store.eliminarPlantilla.
  rewrite correr_try_catch, correr_bind.
  unfold Store.getPlantillaPorId, leer at 1. reducir.
  unfold tiene_id in H0. rewrite H0. reflexivity.
Qed.

Lemma eliminarPlantilla_presente w ident eliminada :
  find (tiene_id ident) (Store.plantillas w) = Some eliminada ->
  let restantes :=
    List.filter (fun plantilla => negb (tiene_id ident plantilla))
      (Store.plantillas w) in
  Forall sosegado (_suscriptores w) ->
  forallb categoria_convertible restantes = true ->
  exists w',
    Store.eliminarPlantilla ident w
    = (Normal (match getEstadoLocal eliminada with
               | Some _ => true
               | None => false
               end), w')
    /\ tras_mutacion w w' restantes "PLANTILLA_ELIMINADA"
         (DatosEliminada eliminada (length restantes)).
Proof.
  intros H0 restantes Hq Hc. unfold Store.eliminarPlantilla.
  rewrite correr_try_catch, correr_bind.
  unfold Store.getPlantillaPorId, leer at 1. reducir.
  unfold tiene_id in H0. rewrite H0.
  rewrite correr_bind. unfold leer at 1. reducir.
  change (List.filter _ (Store.plantillas w)) with restantes.
  rewrite correr_reemplazo.
  rewrite correr_bind. unfold leer at 1. reducir.
  rewrite plantillas_al_notificar. rewrite correr_bind.
  destruct (notificar_tras_reemplazo w restantes "PLANTILLA_ELIMINADA"
              (DatosEliminada eliminada (length restantes)) Hq Hc)
    as (w' & Hn & Hm).
  rewrite Hn.
  destruct Hm as (H1 & H2 & H3 & H4 & H5 & H6 & ev & H7).
  destruct (getEstadoLocal eliminada) as [el|].
  - rewrite correr_bind. unfold console at 1, modificar at 1. reducir.
    eexists. split; [reflexivity|].
    unfold tras_mutacion. simpl. repeat split; try done. exists ev. exact H7.
  - reducir. rewrite correr_bind. unfold console at 1, modificar at 1. reducir.
    eexists. split; [reflexivity|].
    unfold tras_mutacion. simpl. repeat split; try done. exists ev. exact H7.
Qed.

(** The template is removed even when the notification then fails on a
    category that cannot be converted: the call returns [false]. *)
Lemma eliminarPlantilla_inconvertible w ident eliminada :
  find (tiene_id ident) (Store.plantillas w) = Some eliminada ->
  let restantes :=
    List.filter (fun plantilla => negb (tiene_id ident plantilla))
      (Store.plantillas w) in
  forallb categoria_convertible restantes = false ->
  exists w',
    Store.eliminarPlantilla ident w = (Normal false, w')
    /\ Store.plantillas w' = restantes
    /\ llamadas w' = llamadas w.
Proof.
  intros H0 restantes Hc. unfold Store.eliminarPlantilla.
  rewrite correr_try_catch, correr_bind.
  unfold Store.getPlantillaPorId, leer at 1. reducir.
  unfold tiene_id in H0. rewrite H0.
  rewrite correr_bind. unfold leer at 1. reducir.
  change (List.filter _ (Store.plantillas w)) with restantes.
  rewrite correr_reemplazo.
  rewrite correr_bind. unfold leer at 1. reducir.
  rewrite plantillas_al_notificar. rewrite correr_bind.
  rewrite _notificarCambios_lanza
    by (rewrite plantillas_al_notificar; exact Hc).
  rewrite correr_bind. unfold console at 1, modificar at 1. reducir.
  eexists. split; [reflexivity|].
  split; [apply (plantillas_al_notificar w)|reflexivity].
Qed.

Lemma limpiarTodas_efecto w :
  Forall sosegado (_suscriptores w) ->
  exists w',
    Store.limpiarTodas w = (Normal true, w')
    /\ tras_mutacion w w' [] "TODAS_ELIMINADAS"
         (DatosTodasEliminadas (length (Store.plantillas w))).
Proof.
  intros Hq. unfold Store.limpiarTodas.
  rewrite correr_try_catch, correr_bind. unfold leer at 1. reducir.
  rewrite correr_reemplazo. rewrite correr_bind.
  destruct (notificar_tras_reemplazo w [] "TODAS_ELIMINADAS"
              (DatosTodasEliminadas (length (Store.plantillas w))) Hq eq_refl)
    as (w' & Hn & Hm).
  rewrite Hn. rewrite correr_bind.
  unfold console at 1, modificar at 1. reducir.
  eexists. split; [reflexivity|].
  destruct Hm as (H1 & H2 & H3 & H4 & H5 & H6 & ev & H7).
  unfold tras_mutacion. simpl. repeat split; try done. exists ev. exact H7.
Qed.

End HechosStore.
(** ** Persistence: what loading returns *)

Section HechosPersistence.
Context {Pl : Plataforma} {Σ : Type}.
Implicit Types (w : Mundo Σ) (t : Template).

(** Everything but the console, the notifications shown and the number of
    readings of the clock and of [Math.random]. *)
Definition estable w :=
  (instante w, azar w, localStorage w, hay_mostrarNotificacion w, arreglos w,
   entregados w, st_plantillas w, st_ultimaActualizacion w,
   st_persistenciaHabilitada w, _suscriptores w, llamadas w, exterior w).

Definition Est c : Mundo Σ -> Prop := fun w => estable w = c.

Definition nunca : string -> Mundo Σ -> Prop := fun _ _ => False.

Lemma hoare_console c n x :
  hoare (Est c) (console n x) (fun _ => Est c) nunca.
Proof. intros w Hw. exact Hw. Qed.

Lemma hoare_mostrarNotificacion c m tp :
  hoare (Est c) (Persistence._mostrarNotificacionPersistencia m tp)
    (fun _ => Est c) nunca.
Proof.
  intros w Hw. unfold Persistence._mostrarNotificacionPersistencia.
  unfold mbind, M_bind, leer. simpl.
  destruct (hay_mostrarNotificacion w); exact Hw.
Qed.

Lemma hoare_Date_nueva c :
  hoare (Est c) Date_nueva (fun _ => Est c) nunca.
Proof. intros w Hw. exact Hw. Qed.

Lemma hoare_getItem c k :
  hoare (Est c) (localStorage_getItem k)
    (fun o w => Est c w /\ o = localStorage w !! k) nunca.
Proof. intros w Hw. simpl. auto. Qed.

Lemma hoare_Template_new c a b d e f :
  hoare (Est c) (Template_new a b d e f)
    (fun t w => Est c w /\ titulo t = a /\ mensaje t = b /\ hashtag t = d
                /\ categoria t = e
                /\ match f with Some x => fechaCreacion t = x | None => True end)
    nunca.
Proof.
  intros w Hw. unfold Template_new, mbind, M_bind.
  destruct f as [x|]; simpl; repeat split; auto.
Qed.

(** The four required fields of a template, and these with the creation
    date: all of a template but its identifier. *)
Definition cuatro t := (titulo t, mensaje t, hashtag t, categoria t).
Definition campos_de t := (cuatro t, fechaCreacion t).

(** The same, read from a stored record; [None] for a record whose
    creation date is an object or array that cannot be converted to a
    primitive: [new Date] throws on it and the record is dropped. *)
Definition campos_guardados (d : jsval)
  : option (jsval * jsval * jsval * jsval * Date) :=
  option_map
    (fun fecha =>
       ((campo d "titulo", campo d "mensaje", campo d "hashtag",
         campo d "categoria"), fecha))
    (Date_de_valor (campo d "fechaCreacion")).

(** The fixed pair of default templates. *)
Definition predeterminadas : list (jsval * jsval * jsval * jsval) :=
  [(JStr "Bienvenida Automática",
    JStr "¡Hola! 👋 Gracias por contactarnos. Te responderemos en breve. ¿En qué podemos ayudarte?",
    JStr "#bienvenida", JStr "soporte");
   (JStr "Confirmación de Pedido",
    JStr "Tu pedido #{{NUMERO}} ha sido recibido ✅. Te notificaremos cuando esté listo para entrega.",
    JStr "#confirmacion", JStr "ventas")].

(** What [_validarEstructuraDatos] answers. *)
Definition estructura_valida (v : jsval) : bool :=
  truthy v && typeof_object v
  && truthy (campo v "version") && truthy (campo v "plantillas")
  && Array_isArray (campo v "plantillas")
  && forallb (fun d => truthy (Persistence.estructura_plantilla d))
       (Persistence.elementos (campo v "plantillas")).

(** The envelope a stored text holds, when it is JSON and passes the
    validation. *)
Definition envelope_de (s : string) : option jsval :=
  match JSON_parse s with
  | Some v => if estructura_valida v then Some v else None
  | None => None
  end.

(** A slot that holds a text, and not the empty one. *)
Definition con_texto (o : option string) : option string :=
  match o with
  | Some s => if String.eqb s "" then None else Some s
  | None => None
  end.

Definition plantilla_valida t : Prop := truthy (esValida t) = true.

(** [ps] are the templates of the envelope [v], but for their
    identifiers: one for every record, in their order, the records whose
    creation date cannot be converted left out. *)
Definition plantillas_de (v : jsval) (ps : list Template) : Prop :=
  map campos_de ps
  = omap campos_guardados (Persistence.elementos (campo v "plantillas")).

Definition son_predeterminadas (ps : list Template) : Prop :=
  map cuatro ps = predeterminadas.

Lemma hoare_obtenerPlantillasDefault c :
  hoare (Est c) Persistence._obtenerPlantillasDefault
    (fun ps w => Est c w /\ son_predeterminadas ps
                 /\ Forall plantilla_valida ps) nunca.
Proof.
  intros w Hw. unfold Persistence._obtenerPlantillasDefault, Template_new.
  unfold mbind, M_bind. simpl.
  split; [exact Hw|]. split; [reflexivity|].
  repeat constructor.
Qed.

Lemma hoare_validarEstructuraDatos c v :
  hoare (Est c) (Persistence._validarEstructuraDatos v)
    (fun b w => Est c w /\ b = estructura_valida v) nunca.
Proof.
  intros w Hw. unfold Persistence._validarEstructuraDatos, estructura_valida.
  destruct (truthy v); simpl; [|auto].
  destruct (typeof_object v); simpl; [|auto].
  destruct (truthy (campo v "version")); simpl; [|auto].
  destruct (truthy (campo v "plantillas")); simpl; [|auto].
  destruct (Array_isArray (campo v "plantillas")); simpl; [|auto].
  unfold mbind, M_bind.
  destruct (negb (estricto_igual (campo v "version") (JStr Persistence.VERSION)));
    simpl; auto.
Qed.

Lemma estructura_plantilla_truthy d :
  truthy (Persistence.estructura_plantilla d) = true ->
  truthy d = true
  /\ truthy (campo d "titulo") = true /\ truthy (campo d "mensaje") = true
  /\ truthy (campo d "hashtag") = true /\ truthy (campo d "categoria") = true.
Proof.
  unfold Persistence.estructura_plantilla. rewrite !truthy_js_and.
  intros H. repeat (apply andb_prop in H; destruct H as [H ?]). auto.
Qed.

Lemma hoare_deserializarPlantilla c d :
  truthy (Persistence.estructura_plantilla d) = true ->
  hoare (Est c) (Persistence._deserializarPlantilla d)
    (fun t w => Est c w /\ campos_guardados d = Some (campos_de t)
                /\ plantilla_valida t)
    (fun _ w => Est c w /\ campos_guardados d = None).
Proof.
  intros Hd w Hw.
  destruct (estructura_plantilla_truthy d Hd) as (H0 & H1 & H2 & H3 & H4).
  unfold Persistence._deserializarPlantilla, campos_guardados.
  assert (Hnn : match d with
                | JUndefined | JNull => False
                | _ => True
                end) by (destruct d; try discriminate; exact I).
  destruct (Date_de_valor (campo d "fechaCreacion")) as [f|].
  - assert (G : match Template_new (campo d "titulo") (campo d "mensaje")
                        (campo d "hashtag") (campo d "categoria") (Some f) w with
                | (Normal t, w') =>
                    Est c w' /\ Some ((campo d "titulo", campo d "mensaje",
                                       campo d "hashtag", campo d "categoria"), f)
                                = Some (campos_de t)
                    /\ plantilla_valida t
                | (Lanza _, _) => False
                end).
    { unfold Template_new, mbind, M_bind. simpl.
      split; [exact Hw|]. split; [reflexivity|].
      unfold plantilla_valida. rewrite truthy_esValida. simpl.
      rewrite H1, H2, H3, H4. reflexivity. }
    destruct d; try (destruct Hnn);
      (destruct (Template_new _ _ _ _ _ w) as [[t|e] w'];
       [exact G|destruct G]).
  - destruct d; try (destruct Hnn); simpl; auto.
Qed.

(** A computation that cannot throw returns. *)
Lemma hoare_corre {A : Type} c (m : M Σ A) Q w :
  hoare (Est c) m Q nunca -> Est c w ->
  exists a w', m w = (Normal a, w') /\ Q a w'.
Proof.
  intros H Hw. specialize (H w Hw).
  destruct (m w) as [[a|e] w']; [eauto|destruct H].
Qed.

Lemma hoare_deserializar_o_ignorar c d :
  truthy (Persistence.estructura_plantilla d) = true ->
  hoare (Est c) (Persistence.deserializar_o_ignorar d)
    (fun o w => Est c w
                /\ option_map campos_de o = campos_guardados d
                /\ match o with
                   | Some t => plantilla_valida t
                   | None => True
                   end) nunca.
Proof.
  intros Hd w Hw. unfold Persistence.deserializar_o_ignorar.
  rewrite correr_try_catch, correr_bind.
  pose proof (hoare_deserializarPlantilla c d Hd w Hw) as G.
  destruct (Persistence._deserializarPlantilla d w) as [[t|e] w1].
  - destruct G as (G1 & G2 & G3). reducir. simpl. rewrite G2. auto.
  - destruct G as (G1 & G2). rewrite correr_bind.
    unfold console at 1, modificar at 1. reducir. simpl. rewrite G2. auto.
Qed.

Lemma hoare_deserializar_todas c (ds : list jsval) :
  forallb (fun d => truthy (Persistence.estructura_plantilla d)) ds = true ->
  hoare (Est c) (mapM Persistence.deserializar_o_ignorar ds)
    (fun os w => Est c w
                 /\ map campos_de (omap (fun plantilla => plantilla) os)
                    = omap campos_guardados ds
                 /\ Forall plantilla_valida
                      (omap (fun plantilla => plantilla) os)) nunca.
Proof.
  induction ds as [|d r IH]; intros Hds w Hw.
  - simpl. split; [exact Hw|]. split; [reflexivity|constructor].
  - cbn [forallb] in Hds. apply andb_prop in Hds. destruct Hds as [Hd Hr].
    cbn [mapM]. rewrite correr_bind.
    destruct (hoare_corre c _ _ w (hoare_deserializar_o_ignorar c d Hd) Hw)
      as (o & w1 & Ho & Hw1 & Hc & Hv).
    rewrite Ho. rewrite correr_bind.
    destruct (hoare_corre c _ _ w1 (IH Hr) Hw1)
      as (os & w2 & Hos & Hw2 & Hps & Hvs).
    rewrite Hos. reducir. split; [exact Hw2|].
    cbn [omap list_omap]. rewrite <- Hc.
    destruct o as [t|]; cbn [option_map].
    + cbn [map]. rewrite Hps. split; [reflexivity|]. constructor; assumption.
    + split; assumption.
Qed.

Lemma hoare_procesarDatosGuardados c s :
  hoare (Est c) (Persistence._procesarDatosGuardados s)
    (fun ps w => Est c w
                 /\ exists v, envelope_de s = Some v /\ plantillas_de v ps
                      /\ Forall plantilla_valida ps)
    (fun _ w => Est c w /\ envelope_de s = None).
Proof.
  intros w Hw. unfold Persistence._procesarDatosGuardados, envelope_de.
  rewrite correr_try_catch, correr_bind.
  destruct (JSON_parse s) as [v|]; reducir; [|simpl; auto].
  rewrite correr_bind.
  destruct (hoare_corre c _ _ w (hoare_validarEstructuraDatos c v) Hw)
    as (b & w1 & Hb & Hw1 & ->).
  rewrite Hb. reducir.
  destruct (estructura_valida v) eqn:Hval; reducir; [|simpl; auto].
  rewrite correr_bind.
  assert (Hds : forallb (fun d => truthy (Persistence.estructura_plantilla d))
                  (Persistence.elementos (campo v "plantillas")) = true).
  { unfold estructura_valida in Hval.
    apply andb_prop in Hval. exact (proj2 Hval). }
  destruct (hoare_corre c _ _ w1 (hoare_deserializar_todas c _ Hds) Hw1)
    as (os & w2 & Hos & Hw2 & Hps & Hvs).
  rewrite Hos. reducir. rewrite correr_bind. reducir. simpl.
  split; [exact Hw2|].
  exists v. auto.
Qed.

(** What recovery returns, by the storage [m]: the templates of the
    backup when it holds an envelope, the default pair otherwise. *)
Definition recuperadas (m : gmap string string) (ps : list Template) : Prop :=
  match con_texto (m !! Persistence.BACKUP_KEY) ≫= envelope_de with
  | Some v => plantillas_de v ps
  | None => son_predeterminadas ps
  end.

(** What [cargarPlantillas] returns, by the storage [m]. *)
Definition cargadas (m : gmap string string) (ps : list Template) : Prop :=
  match con_texto (m !! Persistence.STORAGE_KEY) with
  | None => son_predeterminadas ps
  | Some s =>
      match envelope_de s with
      | Some v => plantillas_de v ps
      | None => recuperadas m ps
      end
  end.

Lemma Est_localStorage w0 w :
  Est (estable w0) w -> localStorage w = localStorage w0.
Proof. unfold Est, estable. intros H. by inversion H. Qed.

Lemma hoare_intentarRecuperacion w0 :
  hoare (Est (estable w0)) Persistence._intentarRecuperacion
    (fun ps w => Est (estable w0) w /\ recuperadas (localStorage w0) ps
                 /\ Forall plantilla_valida ps) nunca.
Proof.
  intros w Hw. pose proof (Est_localStorage w0 w Hw) as Hm.
  unfold Persistence._intentarRecuperacion, recuperadas.
  rewrite correr_bind, correr_try_catch, correr_bind.
  unfold localStorage_getItem at 1, leer at 1. reducir.
  rewrite Hm.
  destruct (localStorage w0 !! Persistence.BACKUP_KEY) as [b|] eqn:Hb;
    cbn [con_texto mbind option_bind].
  2:{ reducir.
      exact (hoare_obtenerPlantillasDefault (estable w0) w Hw). }
  destruct (String.eqb b "") eqn:Hvacio; reducir.
  { exact (hoare_obtenerPlantillasDefault (estable w0) w Hw). }
  change (Some b ≫= envelope_de) with (envelope_de b).
  rewrite correr_bind. unfold console at 1, modificar at 1. reducir.
  rewrite correr_bind.
  match goal with |- context [Persistence._procesarDatosGuardados b ?w1] =>
    pose proof (hoare_procesarDatosGuardados (estable w0) b w1 Hw) as Hp;
    destruct (Persistence._procesarDatosGuardados b w1) as [[ps|e] w2]
  end.
  - destruct Hp as (Hw2 & v & Hv & Hps & Hvs). rewrite Hv.
    rewrite correr_bind.
    destruct (hoare_corre _ _ _ w2
                (hoare_mostrarNotificacion (estable w0)
                   "Datos recuperados desde backup" "warning") Hw2)
      as ([] & w3 & Hn & Hw3).
    rewrite Hn. reducir. auto.
  - destruct Hp as (Hw2 & Hv). rewrite Hv.
    rewrite correr_bind. unfold console at 1, modificar at 1. reducir.
    match goal with |- context [Persistence._obtenerPlantillasDefault ?w3] =>
      exact (hoare_obtenerPlantillasDefault (estable w0) w3 Hw2)
    end.
Qed.

Lemma hoare_cargarPlantillas w0 :
  hoare (Est (estable w0)) Persistence.cargarPlantillas
    (fun ps w => Est (estable w0) w /\ cargadas (localStorage w0) ps
                 /\ Forall plantilla_valida ps) nunca.
Proof.
  intros w Hw. pose proof (Est_localStorage w0 w Hw) as Hm.
  unfold Persistence.cargarPlantillas, cargadas.
  rewrite correr_try_catch, correr_bind.
  unfold localStorage_getItem at 1, leer at 1. reducir.
  rewrite Hm.
  destruct (localStorage w0 !! Persistence.STORAGE_KEY) as [d|] eqn:Hd;
    cbn [con_texto].
  2:{ rewrite correr_bind.
      destruct (hoare_corre _ _ _ w
                  (hoare_obtenerPlantillasDefault (estable w0)) Hw)
        as (ps & w1 & Hps & Hw1 & Hpre & Hval).
      rewrite Hps. reducir. simpl. auto. }
  destruct (String.eqb d "") eqn:Hvacio; reducir.
  { rewrite correr_bind.
    destruct (hoare_corre _ _ _ w
                (hoare_obtenerPlantillasDefault (estable w0)) Hw)
      as (ps & w1 & Hps & Hw1 & Hpre & Hval).
    rewrite Hps. reducir. simpl. auto. }
  rewrite correr_bind.
  pose proof (hoare_procesarDatosGuardados (estable w0) d w Hw) as Hp.
  destruct (Persistence._procesarDatosGuardados d w) as [[ps|e] w1].
  - destruct Hp as (Hw1 & v & Hv & Hps & Hvs). rewrite Hv.
    rewrite correr_bind. unfold console at 1, modificar at 1. reducir.
    rewrite correr_bind.
    match goal with
    | |- context [(if ?b
                   then Persistence._mostrarNotificacionPersistencia ?m ?tp
                   else _) ?w2] =>
        destruct b;
        [ destruct (hoare_corre _ _ _ w2
                      (hoare_mostrarNotificacion (estable w0) m tp) Hw1)
            as ([] & w3 & Hn & Hw3); rewrite Hn; reducir; auto
        | reducir; auto ]
    end.
  - destruct Hp as (Hw1 & Hv). rewrite Hv.
    rewrite correr_bind. unfold console at 1, modificar at 1. reducir.
    rewrite correr_bind.
    match goal with |- context [Persistence._mostrarNotificacionPersistencia ?a ?b ?w2] =>
      destruct (hoare_corre _ _ _ w2
                  (hoare_mostrarNotificacion (estable w0) a b) Hw1)
        as ([] & w3 & Hn & Hw3); rewrite Hn; reducir
    end.
    exact (hoare_intentarRecuperacion w0 w3 Hw3).
Qed.

End HechosPersistence.
(** ** Persistence: what saving writes *)

Section HechosGuardar.
Context {Pl : Plataforma} {Σ : Type}.
Implicit Types (w : Mundo Σ) (t : Template).
#[local] Arguments estricto_igual : simpl never.

Definition cadena_no_vacia (v : jsval) : bool :=
  match v with JStr s => negb (String.eqb s "") | _ => false end.

(** A date with a time value: not the invalid date. *)
Definition fecha_valida (f : Date) : bool :=
  match f with
  | Some z => (Z.abs z <=? tiempo_maximo)%Z
  | None => false
  end.

(** A template of four non-empty strings and a valid creation date. *)
Definition guardable t : bool :=
  cadena_no_vacia (titulo t) && cadena_no_vacia (mensaje t)
  && cadena_no_vacia (hashtag t) && cadena_no_vacia (categoria t)
  && fecha_valida (fechaCreacion t).

Definition iso (f : Date) : string := default "" (Date_toISOString f).

(** What [_serializarPlantilla] returns for a template with a valid date. *)
Definition registro t : jsval :=
  JObj [("id", JNum (id t)); ("titulo", titulo t); ("mensaje", mensaje t);
        ("hashtag", hashtag t); ("categoria", categoria t);
        ("fechaCreacion", JStr (iso (fechaCreacion t)))].

(** What [new Date()] gives in [w]. *)
Definition ahora w : Date :=
  Some (Z.of_N (N.min (instante w (lecturas_reloj w)) (Z.to_N tiempo_maximo))).

(** The counts by category of templates whose categories can be
    converted. *)
Definition histograma (ps : list Template) : list (string * conteo) :=
  default [] (contar_puro ps []).

(** The envelope [guardarPlantillas] builds in [w], and its text. *)
Definition sobre w (ps : list Template) : jsval :=
  JObj [("version", JStr Persistence.VERSION);
        ("timestamp", JStr (iso (ahora w)));
        ("plantillas", JArr (map registro ps));
        ("metadata",
         JObj [("total", JNum (num_de_N (N.of_nat (length ps))));
               ("categorias", Persistence.objeto_de_conteos (histograma ps))])].

Definition texto_guardado w (ps : list Template) : string :=
  JSON_stringify (sobre w ps).

Lemma iso_valida (f : Date) :
  fecha_valida f = true ->
  Date_toISOString f = Some (iso f) /\ Date_parse (iso f) = f.
Proof.
  destruct f as [z|]; [|discriminate]. simpl. intros Hz.
  apply Z.leb_le in Hz.
  destruct (Date_parse_toISOString z Hz) as (s & Hs & Hp).
  unfold iso. rewrite Hs. simpl. auto.
Qed.

Lemma ahora_valida w : fecha_valida (ahora w) = true.
Proof.
  unfold ahora, fecha_valida. apply Z.leb_le.
  unfold tiempo_maximo. lia.
Qed.

Lemma guardable_fecha t : guardable t = true -> fecha_valida (fechaCreacion t) = true.
Proof. unfold guardable. intros H. apply andb_prop in H. tauto. Qed.

Lemma cadena_limpia (v : jsval) : cadena_no_vacia v = true -> json_limpio v = true.
Proof. destruct v; simpl; congruence. Qed.

Lemma cadena_truthy (v : jsval) : cadena_no_vacia v = true -> truthy v = true.
Proof. destruct v; simpl; congruence. Qed.

Lemma cadena_es_texto (v : jsval) :
  cadena_no_vacia v = true -> exists s, v = JStr s.
Proof. destruct v; simpl; try discriminate. eauto. Qed.

Lemma guardable_cuatro t :
  guardable t = true ->
  cadena_no_vacia (titulo t) = true /\ cadena_no_vacia (mensaje t) = true
  /\ cadena_no_vacia (hashtag t) = true /\ cadena_no_vacia (categoria t) = true.
Proof.
  unfold guardable. intros H.
  repeat (apply andb_prop in H; destruct H as [H ?]). auto.
Qed.

Lemma guardable_convertible t :
  guardable t = true -> categoria_convertible t = true.
Proof.
  intros H. destruct (guardable_cuatro t H) as (_ & _ & _ & H4).
  destruct (cadena_es_texto _ H4) as [s Hs].
  unfold categoria_convertible. rewrite Hs. reflexivity.
Qed.

Lemma guardables_convertibles (ps : list Template) :
  forallb guardable ps = true -> forallb categoria_convertible ps = true.
Proof.
  rewrite !forallb_forall. intros H t Ht. apply guardable_convertible, H, Ht.
Qed.

Lemma serializar_todas (ps : list Template) w :
  forallb guardable ps = true ->
  mapM Persistence._serializarPlantilla ps w = (Normal (map registro ps), w).
Proof.
  induction ps as [|t r IH]; simpl; intros H; [reflexivity|].
  apply andb_prop in H. destruct H as [Ht Hr].
  unfold mbind at 1, M_bind at 1.
  unfold Persistence._serializarPlantilla at 1.
  destruct (iso_valida _ (guardable_fecha t Ht)) as [Hi _].
  rewrite Hi. reducir. unfold mbind at 1, M_bind at 1.
  rewrite (IH Hr). reflexivity.
Qed.

Lemma obtenerCategorias_convertibles (ps : list Template) w :
  forallb categoria_convertible ps = true ->
  Persistence._obtenerCategorias ps w = (Normal (histograma ps), w).
Proof.
  intros H. unfold Persistence._obtenerCategorias, histograma.
  rewrite contar_categorias_puro.
  destruct (contar_puro_convertibles ps [] H) as [h Hh]. rewrite Hh.
  reflexivity.
Qed.

(** *** The envelope written is read back *)

Lemma tiene_clave_In {A : Type} k (acc : list (string * A)) :
  Persistence.tiene_clave k acc = true <-> In k (map fst acc).
Proof.
  induction acc as [|[k' x] r IH]; simpl; [split; [discriminate|tauto]|].
  rewrite orb_true_iff, IH, String.eqb_eq. split; intros [E|E]; auto.
Qed.

Lemma cambiar_propia_claves k (acc : list (string * conteo)) :
  map fst (Persistence.cambiar_propia k acc) = map fst acc.
Proof.
  induction acc as [|[k' x] r IH]; simpl; [reflexivity|].
  destruct (String.eqb k k'); simpl; [reflexivity|]. f_equal. exact IH.
Qed.

Lemma incrementar_NoDup k (acc : list (string * conteo)) :
  NoDup (map fst acc) -> NoDup (map fst (Persistence.incrementar k acc)).
Proof.
  intros Hnd. unfold Persistence.incrementar.
  destruct (Persistence.tiene_clave k acc) eqn:Ht.
  - rewrite cambiar_propia_claves. exact Hnd.
  - assert (Hno : ~ In k (map fst acc)).
    { intros Hin. apply tiene_clave_In in Hin. congruence. }
    assert (Hn : forall x, NoDup (map fst (acc ++ [(k, x)])%list)).
    { intros x. rewrite map_app. simpl. apply NoDup_app.
      split; [exact Hnd|]. split.
      - intros y Hy Hk. apply list_elem_of_In in Hy.
        apply list_elem_of_singleton in Hk. subst y. contradiction.
      - apply NoDup_singleton. }
    destruct (String.eqb k "__proto__"); [exact Hnd|].
    destruct (Object_prototype k); apply Hn.
Qed.

Lemma contar_puro_NoDup (ps : list Template) :
  forall acc h, NoDup (map fst acc) -> contar_puro ps acc = Some h ->
                NoDup (map fst h).
Proof.
  induction ps as [|t r IH]; simpl; intros acc h Hacc Hh.
  - congruence.
  - destruct (a_cadena (categoria t)) as [k|]; [|discriminate Hh].
    apply (IH _ _ (incrementar_NoDup k acc Hacc) Hh).
Qed.

Lemma histograma_NoDup (ps : list Template) : NoDup (map fst (histograma ps)).
Proof.
  unfold histograma.
  destruct (contar_puro ps []) as [h|] eqn:Hh; simpl; [|constructor].
  apply (contar_puro_NoDup ps [] h); [constructor|exact Hh].
Qed.

Lemma conteos_limpio (h : list (string * conteo)) :
  NoDup (map fst h) -> json_limpio (Persistence.objeto_de_conteos h) = true.
Proof.
  intros H. unfold Persistence.objeto_de_conteos. simpl.
  apply andb_true_intro. split.
  - apply bool_decide_eq_true. rewrite map_map. simpl. exact H.
  - apply forallb_forall. intros kv Hkv. apply in_map_iff in Hkv.
    destruct Hkv as ([k []] & <- & _); reflexivity.
Qed.

Lemma registro_limpio t : guardable t = true -> json_limpio (registro t) = true.
Proof.
  intros H. destruct (guardable_cuatro t H) as (H1 & H2 & H3 & H4).
  unfold registro. cbn [json_limpio forallb snd map fst].
  rewrite (cadena_limpia _ H1), (cadena_limpia _ H2), (cadena_limpia _ H3),
    (cadena_limpia _ H4).
  repeat (apply andb_true_intro; split); reflexivity.
Qed.

Lemma sobre_limpio w (ps : list Template) :
  forallb guardable ps = true -> json_limpio (sobre w ps) = true.
Proof.
  intros H. unfold sobre.
  cbn [json_limpio forallb snd map fst].
  rewrite (conteos_limpio _ (histograma_NoDup ps)).
  repeat (apply andb_true_intro; split); try reflexivity.
  apply forallb_forall. intros d Hd. apply in_map_iff in Hd.
  destruct Hd as (t & <- & Ht). apply registro_limpio.
  rewrite forallb_forall in H. exact (H t Ht).
Qed.

Lemma campos_de_un_registro (a b c d e f : jsval) :
  let r := JObj [("id", a); ("titulo", b); ("mensaje", c); ("hashtag", d);
                 ("categoria", e); ("fechaCreacion", f)] in
  campo r "titulo" = b /\ campo r "mensaje" = c /\ campo r "hashtag" = d
  /\ campo r "categoria" = e /\ campo r "fechaCreacion" = f.
Proof. repeat split; reflexivity. Qed.

(** A stored record as [JSON.parse] gives it back. *)
Definition registro_leido t : jsval := redondeado (enumerado (registro t)).

Lemma registro_leido_campos t :
  guardable t = true ->
  truthy (Persistence.estructura_plantilla (registro_leido t)) = true
  /\ campos_guardados (registro_leido t) = Some (campos_de t).
Proof.
  intros H. destruct (guardable_cuatro t H) as (H1 & H2 & H3 & H4).
  destruct (iso_valida _ (guardable_fecha t H)) as [_ Hp].
  destruct (cadena_es_texto _ H1) as [s1 E1].
  destruct (cadena_es_texto _ H2) as [s2 E2].
  destruct (cadena_es_texto _ H3) as [s3 E3].
  destruct (cadena_es_texto _ H4) as [s4 E4].
  assert (E : registro_leido t
              = JObj [("id", redondeado (JNum (id t))); ("titulo", titulo t);
                      ("mensaje", mensaje t); ("hashtag", hashtag t);
                      ("categoria", categoria t);
                      ("fechaCreacion", JStr (iso (fechaCreacion t)))]).
  { unfold registro_leido, registro. rewrite E1, E2, E3, E4.
    cbn [enumerado map fst snd].
    rewrite ordenar_sin_indices by (repeat constructor). reflexivity. }
  rewrite E.
  destruct (campos_de_un_registro (redondeado (JNum (id t))) (titulo t)
              (mensaje t) (hashtag t) (categoria t)
              (JStr (iso (fechaCreacion t)))) as (G1 & G2 & G3 & G4 & G5).
  split.
  - unfold Persistence.estructura_plantilla. rewrite !truthy_js_and.
    rewrite G1, G2, G3, G4.
    rewrite (cadena_truthy _ H1), (cadena_truthy _ H2), (cadena_truthy _ H3),
      (cadena_truthy _ H4). reflexivity.
  - unfold campos_guardados, campos_de, cuatro.
    rewrite G1, G2, G3, G4, G5. cbn [Date_de_valor option_map].
    rewrite Hp. reflexivity.
Qed.

(** The envelope as [JSON.parse] gives it back. *)
Definition sobre_leido w (ps : list Template) : jsval :=
  redondeado (enumerado (sobre w ps)).

Lemma sobre_leido_plantillas w (ps : list Template) :
  campo (sobre_leido w ps) "version" = JStr Persistence.VERSION
  /\ campo (sobre_leido w ps) "plantillas" = JArr (map registro_leido ps).
Proof.
  unfold sobre_leido, sobre.
  cbn [enumerado map fst snd].
  rewrite (ordenar_sin_indices
             [("version", _); ("timestamp", _); ("plantillas", _);
              ("metadata", _)]) by (repeat constructor).
  cbn [redondeado map fst snd].
  split; [reflexivity|].
  match goal with
  | |- campo (JObj [_; _; ("plantillas", ?x); _]) _ = _ =>
      transitivity x; [reflexivity|]
  end.
  rewrite !map_map. reflexivity.
Qed.

Lemma sobre_valido w (ps : list Template) :
  forallb guardable ps = true -> estructura_valida (sobre_leido w ps) = true.
Proof.
  intros H. unfold estructura_valida.
  destruct (sobre_leido_plantillas w ps) as [Hv Hp]. rewrite Hv, Hp.
  assert (Ho : truthy (sobre_leido w ps) = true
               /\ typeof_object (sobre_leido w ps) = true).
  { unfold sobre_leido, sobre. cbn [enumerado redondeado]. auto. }
  destruct Ho as [-> ->].
  cbn [truthy Array_isArray Persistence.elementos andb].
  change (negb (String.eqb Persistence.VERSION "")) with true. cbn [andb].
  apply forallb_forall. intros d Hd. apply in_map_iff in Hd.
  destruct Hd as (t & <- & Ht). apply registro_leido_campos.
  rewrite forallb_forall in H. exact (H t Ht).
Qed.

Lemma envelope_de_texto_guardado w (ps : list Template) :
  forallb guardable ps = true ->
  envelope_de (texto_guardado w ps) = Some (sobre_leido w ps).
Proof.
  intros H. unfold envelope_de, texto_guardado.
  rewrite (JSON_parse_stringify _ (sobre_limpio w ps H)).
  fold (sobre_leido w ps).
  rewrite (sobre_valido w ps H). reflexivity.
Qed.

Lemma plantillas_del_sobre w (ps ps' : list Template) :
  forallb guardable ps = true ->
  plantillas_de (sobre_leido w ps) ps' -> map campos_de ps' = map campos_de ps.
Proof.
  intros H Hps. unfold plantillas_de in Hps. rewrite Hps.
  destruct (sobre_leido_plantillas w ps) as [_ Hp]. rewrite Hp.
  cbn [Persistence.elementos].
  clear Hps Hp. induction ps as [|t r IH]; [reflexivity|].
  cbn [forallb] in H. apply andb_prop in H. destruct H as [Ht Hr].
  cbn [map omap list_omap].
  rewrite (proj2 (registro_leido_campos t Ht)). f_equal. apply IH. exact Hr.
Qed.

(** *** What [guardarPlantillas] does *)

(** The storage after [_crearBackup]: the text of the primary slot, when
    there is one, is in the backup slot too, unless the storage refused
    it. *)
Definition respaldado (m : gmap string string) : gmap string string :=
  match con_texto (m !! Persistence.STORAGE_KEY) with
  | Some d =>
      if admite m Persistence.BACKUP_KEY d
      then <[Persistence.BACKUP_KEY := d]> m else m
  | None => m
  end.

(** What [guardarPlantillas] returns for the text [s] of the envelope, and
    what it leaves in the storage [m]. *)
Definition guardado (m : gmap string string) (s : string)
  : bool * gmap string string :=
  if Persistence._verificarTamañoStorage s then
    if admite (respaldado m) Persistence.STORAGE_KEY s
    then (true, <[Persistence.STORAGE_KEY := s]> (respaldado m))
    else (false, respaldado m)
  else (false, m).

Lemma crearBackup_almacen w :
  exists w',
    Persistence._crearBackup w = (Normal tt, w')
    /\ localStorage w' = respaldado (localStorage w).
Proof.
  unfold Persistence._crearBackup, respaldado.
  rewrite correr_try_catch, correr_bind.
  unfold localStorage_getItem at 1, leer at 1. reducir.
  destruct (localStorage w !! Persistence.STORAGE_KEY) as [d|] eqn:Hd;
    cbn [con_texto]; [|eexists; split; reflexivity].
  destruct (String.eqb d ""); reducir; [eexists; split; reflexivity|].
  rewrite correr_bind. unfold localStorage_setItem at 1.
  rewrite correr_bind. unfold leer at 1. reducir.
  destruct (admite (localStorage w) Persistence.BACKUP_KEY d).
  - unfold modificar at 1. reducir. unfold console, modificar.
    eexists. split; reflexivity.
  - reducir. unfold console, modificar. eexists. split; reflexivity.
Qed.

Lemma mostrarNotificacion_efecto m tp w :
  exists w',
    Persistence._mostrarNotificacionPersistencia m tp w = (Normal tt, w')
    /\ localStorage w' = localStorage w.
Proof.
  unfold Persistence._mostrarNotificacionPersistencia.
  rewrite correr_bind. unfold leer at 1. reducir.
  destruct (hay_mostrarNotificacion w); eexists; split; reflexivity.
Qed.

Lemma guardarPlantillas_efecto w (ps : list Template) :
  forallb guardable ps = true ->
  exists w1,
    Persistence.guardarPlantillas ps w
    = (Normal (fst (guardado (localStorage w) (texto_guardado w ps))), w1)
    /\ localStorage w1 = snd (guardado (localStorage w) (texto_guardado w ps)).
Proof.
  intros H. unfold Persistence.guardarPlantillas.
  rewrite correr_try_catch, correr_bind.
  unfold Date_nueva at 1. rewrite correr_bind.
  unfold Date_now at 1. reducir.
  change (Some (Z.of_N (N.min (instante w (lecturas_reloj w))
                          (Z.to_N tiempo_maximo)))) with (ahora w).
  rewrite correr_bind.
  destruct (iso_valida _ (ahora_valida w)) as [Hi _]. rewrite Hi. reducir.
  rewrite correr_bind. rewrite (serializar_todas ps _ H).
  rewrite correr_bind.
  rewrite (obtenerCategorias_convertibles ps _ (guardables_convertibles ps H)).
  cbv zeta.
  change (JSON_stringify _) with (texto_guardado w ps).
  generalize (texto_guardado w ps). intros s. unfold guardado.
  destruct (Persistence._verificarTamañoStorage s).
  - rewrite correr_bind.
    match goal with |- context [Persistence._crearBackup ?w0] =>
      destruct (crearBackup_almacen w0) as (w1 & Hb & Hk)
    end.
    rewrite Hb. simpl in Hk. rewrite correr_bind.
    unfold localStorage_setItem at 1.
    rewrite correr_bind. unfold leer at 1. reducir. rewrite Hk.
    destruct (admite (respaldado (localStorage w)) Persistence.STORAGE_KEY s).
    + unfold modificar at 1. reducir.
      rewrite correr_bind. unfold console at 1, modificar at 1. reducir.
      rewrite correr_bind.
      match goal with
      | |- context [Persistence._mostrarNotificacionPersistencia ?m ?tp ?w0] =>
          destruct (mostrarNotificacion_efecto m tp w0) as (w2 & Hn & Hl)
      end.
      rewrite Hn. reducir. eexists. split; [reflexivity|].
      rewrite Hl. simpl. rewrite Hk. reflexivity.
    + reducir. rewrite correr_bind. unfold console at 1, modificar at 1. reducir.
      rewrite correr_bind.
      match goal with
      | |- context [Persistence._mostrarNotificacionPersistencia ?m ?tp ?w0] =>
          destruct (mostrarNotificacion_efecto m tp w0) as (w2 & Hn & Hl)
      end.
      rewrite Hn. reducir. eexists. split; [reflexivity|].
      rewrite Hl. simpl. exact Hk.
  - reducir. rewrite correr_bind. unfold console at 1, modificar at 1. reducir.
    rewrite correr_bind.
    match goal with
    | |- context [Persistence._mostrarNotificacionPersistencia ?m ?tp ?w0] =>
        destruct (mostrarNotificacion_efecto m tp w0) as (w2 & Hn & Hl)
    end.
    rewrite Hn. reducir. eexists. split; [reflexivity|].
    rewrite Hl. reflexivity.
Qed.

Lemma cargar_envelope w1 (s : string) (v : jsval) :
  localStorage w1 !! Persistence.STORAGE_KEY = Some s ->
  envelope_de s = Some v ->
  exists ps' w2,
    Persistence.cargarPlantillas w1 = (Normal ps', w2) /\ plantillas_de v ps'.
Proof.
  intros Hs He.
  destruct (hoare_corre _ _ _ w1 (hoare_cargarPlantillas w1) eq_refl)
    as (ps' & w2 & Hc & _ & Hps & _).
  exists ps', w2. split; [exact Hc|].
  assert (Hne : String.eqb s "" = false).
  { apply String.eqb_neq. intros E. rewrite E in He. discriminate He. }
  unfold cargadas in Hps. rewrite Hs in Hps.
  cbn [con_texto] in Hps. rewrite Hne, He in Hps. exact Hps.
Qed.

Lemma guardar_y_cargar w (ps : list Template) :
  forallb guardable ps = true ->
  fst (guardado (localStorage w) (texto_guardado w ps)) = true ->
  exists w1 ps' w2,
    Persistence.guardarPlantillas ps w = (Normal true, w1)
    /\ localStorage w1 !! Persistence.STORAGE_KEY = Some (texto_guardado w ps)
    /\ Persistence.cargarPlantillas w1 = (Normal ps', w2)
    /\ map campos_de ps' = map campos_de ps.
Proof.
  intros H Ht.
  destruct (guardarPlantillas_efecto w ps H) as (w1 & Hg & Hs).
  pose proof (envelope_de_texto_guardado w ps H) as He.
  revert Ht Hg Hs He. generalize (texto_guardado w ps). intros s Ht Hg Hs He.
  rewrite Ht in Hg.
  assert (Hk : localStorage w1 !! Persistence.STORAGE_KEY = Some s).
  { rewrite Hs. unfold guardado in *.
    destruct (Persistence._verificarTamañoStorage s); [|discriminate Ht].
    destruct (admite _ _ _); [|discriminate Ht].
    simpl. apply lookup_insert_eq. }
  destruct (cargar_envelope w1 s _ Hk He) as (ps' & w2 & Hc & Hps).
  exists w1, ps', w2. split; [exact Hg|]. split; [exact Hk|].
  split; [exact Hc|].
  exact (plantillas_del_sobre w ps ps' H Hps).
Qed.

End HechosGuardar.
(** ** What every state a page can reach satisfies *)

Section HechosSesion.
Context {Pl : Plataforma} {Σ : Type}.
Implicit Types (w : Mundo Σ) (t : Template).

#[local] Arguments estricto_igual : simpl never.

(** Everything but the storage, the console, the notifications shown and
    the readings of the clock and of [Math.random]: saving, loading and
    resetting the storage touch none of it. *)
Definition nucleo w :=
  (arreglos w, entregados w, st_plantillas w, st_ultimaActualizacion w,
   st_persistenciaHabilitada w, _suscriptores w, llamadas w, exterior w).

Definition Nucleo c : Mundo Σ -> Prop := fun w => nucleo w = c.

Lemma conserva_primitiva {A : Type} c (m : M Σ A) :
  (forall w, nucleo (snd (m w)) = nucleo w) -> conserva (Nucleo c) m.
Proof.
  intros H w Hw. specialize (H w). unfold Nucleo in *.
  destruct (m w) as [[a|e] w']; simpl in H; congruence.
Qed.

Lemma conserva_mostrarNotificacion c m tp :
  conserva (Nucleo c) (Persistence._mostrarNotificacionPersistencia m tp).
Proof.
  intros w Hw. unfold Persistence._mostrarNotificacionPersistencia.
  unfold mbind, M_bind, leer. simpl.
  destruct (hay_mostrarNotificacion w); exact Hw.
Qed.

Lemma conserva_setItem c k v : conserva (Nucleo c) (localStorage_setItem k v).
Proof.
  unfold localStorage_setItem.
  apply conserva_bind; [apply conserva_leer|]. intros m.
  destruct (admite m k v); [|apply conserva_lanzar].
  apply conserva_primitiva. reflexivity.
Qed.

Lemma conserva_crearBackup c : conserva (Nucleo c) Persistence._crearBackup.
Proof.
  unfold Persistence._crearBackup. apply conserva_try_catch.
  - apply conserva_bind; [apply conserva_primitiva; reflexivity|].
    intros [d|]; [|apply conserva_ret].
    destruct (negb (String.eqb d "")); [|apply conserva_ret].
    apply conserva_bind; [apply conserva_setItem|]. intros _.
    apply conserva_primitiva. reflexivity.
  - intros e. apply conserva_primitiva. reflexivity.
Qed.

Lemma conserva_serializarPlantilla c p :
  conserva (Nucleo c) (Persistence._serializarPlantilla p).
Proof.
  apply conserva_primitiva. intros w. unfold Persistence._serializarPlantilla.
  destruct (Date_toISOString (fechaCreacion p)); reflexivity.
Qed.

Lemma conserva_contar_categorias c (l : list Template) acc :
  conserva (Nucleo c) (Persistence.contar_categorias l acc).
Proof.
  apply conserva_primitiva. intros w. rewrite contar_categorias_puro.
  reflexivity.
Qed.

Lemma conserva_guardarPlantillas c ps :
  conserva (Nucleo c) (Persistence.guardarPlantillas ps).
Proof.
  unfold Persistence.guardarPlantillas.
  apply conserva_try_catch.
  - apply conserva_bind; [apply conserva_primitiva; reflexivity|]. intros ahora.
    apply conserva_bind.
    { destruct (Date_toISOString ahora);
        [apply conserva_ret|apply conserva_lanzar]. }
    intros ts. apply conserva_bind.
    { apply conserva_mapM. apply conserva_serializarPlantilla. }
    intros ss. apply conserva_bind; [apply conserva_contar_categorias|].
    intros cs. cbv zeta.
    match goal with |- context [if ?b then _ else _] => destruct b end;
      [|apply conserva_lanzar].
    apply conserva_bind; [apply conserva_crearBackup|]. intros _.
    apply conserva_bind; [apply conserva_setItem|]. intros _.
    apply conserva_bind; [apply conserva_primitiva; reflexivity|]. intros _.
    apply conserva_bind; [apply conserva_mostrarNotificacion|]. intros _.
    apply conserva_ret.
  - intros e.
    apply conserva_bind; [apply conserva_primitiva; reflexivity|]. intros _.
    apply conserva_bind; [apply conserva_mostrarNotificacion|]. intros _.
    apply conserva_ret.
Qed.

Lemma conserva_resetearPlantillas c :
  conserva (Nucleo c) Persistence.resetearPlantillas.
Proof.
  unfold Persistence.resetearPlantillas.
  apply conserva_try_catch.
  - apply conserva_bind; [apply conserva_crearBackup|]. intros _.
    apply conserva_bind; [apply conserva_primitiva; reflexivity|]. intros _.
    apply conserva_bind; [apply conserva_primitiva; reflexivity|]. intros _.
    apply conserva_bind; [apply conserva_primitiva; reflexivity|]. intros _.
    apply conserva_bind; [apply conserva_mostrarNotificacion|]. intros _.
    apply conserva_ret.
  - intros e.
    apply conserva_bind; [apply conserva_primitiva; reflexivity|]. intros _.
    apply conserva_bind; [apply conserva_mostrarNotificacion|]. intros _.
    apply conserva_ret.
Qed.

Lemma Est_Nucleo w w' : Est (estable w) w' -> Nucleo (nucleo w) w'.
Proof. unfold Est, estable, Nucleo, nucleo. intros E. inversion E. reflexivity. Qed.

(** What holds of every state: the collection is an array of the heap,
    none of the arrays handed to the page is that array, and the templates
    of the collection are valid. *)
Definition mundo_ok w : Prop :=
  st_plantillas w < length (arreglos w)
  /\ Forall (fun l => l < length (arreglos w) /\ l <> st_plantillas w)
       (entregados w)
  /\ Forall plantilla_valida (Store.plantillas w).

Lemma ok_nucleo w w' : mundo_ok w -> Nucleo (nucleo w) w' -> mundo_ok w'.
Proof.
  unfold Nucleo, nucleo, mundo_ok, Store.plantillas, Store.arreglo_en.
  intros Hw E. inversion E as [[E1 E2 E3 E4 E5 E6 E7 E8]].
  rewrite E1, E2, E3. exact Hw.
Qed.

Lemma conserva_ok_nucleo {A : Type} (m : M Σ A) :
  (forall c, conserva (Nucleo c) m) -> conserva mundo_ok m.
Proof.
  intros Hm w Hw. specialize (Hm _ w eq_refl).
  destruct (m w) as [[a|e] w']; exact (ok_nucleo w w' Hw Hm).
Qed.

Lemma ok_al_notificar w (nuevas : list Template) :
  mundo_ok w -> Forall plantilla_valida nuevas ->
  mundo_ok (al_notificar w nuevas).
Proof.
  intros (Hst & Hdev & Hval) Hn. unfold mundo_ok.
  rewrite plantillas_al_notificar. simpl. rewrite length_app. simpl.
  split; [lia|]. split; [|exact Hn].
  eapply Forall_impl; [exact Hdev|]. simpl. intros l [H1 H2]. lia.
Qed.

Lemma conserva_ok_cargarPlantillas :
  conserva mundo_ok (Persistence.cargarPlantillas (Σ := Σ)).
Proof.
  intros w Hw.
  destruct (hoare_corre _ _ _ w (hoare_cargarPlantillas w) eq_refl)
    as (ps & w1 & Hc & Hw1 & _).
  rewrite Hc. exact (ok_nucleo w w1 Hw (Est_Nucleo w w1 Hw1)).
Qed.

Lemma conserva_ok_getEstadisticas {I : Invocador Σ} :
  conserva mundo_ok Store.getEstadisticas.
Proof.
  intros w Hw. pose proof (getEstadisticas_estado w) as E.
  destruct (Store.getEstadisticas w) as [[e|e] w']; simpl in E; subst w';
    exact Hw.
Qed.

Lemma plantillas_cambiar_arreglo w l f :
  l <> st_plantillas w ->
  Store.plantillas (cambiar_arreglo l f w) = Store.plantillas w.
Proof.
  intros Hl. unfold Store.plantillas, Store.arreglo_en, cambiar_arreglo. simpl.
  rewrite list_lookup_alter_ne by done. reflexivity.
Qed.

(** *** The calls of the Store keep it, when the callbacks do *)

Section Llamadas.
Context {I : Invocador Σ}.
Hypothesis invocar_ok : forall cb ev, conserva mundo_ok (invocar cb ev).

Lemma conserva_ok_console n x : conserva mundo_ok (@console Σ n x).
Proof. apply conserva_ok_nucleo. intros c. apply conserva_primitiva. reflexivity. Qed.

Lemma conserva_ok_notificarCambios tp dt :
  conserva mundo_ok (Store._notificarCambios tp dt).
Proof.
  unfold Store._notificarCambios.
  apply conserva_bind; [apply conserva_ok_getEstadisticas|]. intros est.
  apply conserva_bind.
  { apply conserva_ok_nucleo. intros c. apply conserva_primitiva. reflexivity. }
  intros fecha. cbv zeta.
  apply conserva_bind; [apply conserva_leer|]. intros cbs.
  generalize (length cbs) 0. intros n.
  induction n as [|n IH]; intros k; cbn [Store.recorrer_suscriptores].
  - apply conserva_ret.
  - apply conserva_bind; [apply conserva_leer|]. intros cbs'.
    apply conserva_bind; [|intros _; apply IH].
    destruct (cbs' !! k) as [cb|]; [|apply conserva_ret].
    apply conserva_try_catch.
    + unfold Store.llamar. apply conserva_bind; [|intros _; apply invocar_ok].
      apply conserva_modificar. intros w Hw. exact Hw.
    + intros e. apply conserva_ok_console.
Qed.

(** Making valid templates the collection and going on. *)
Lemma conserva_ok_reemplazo {A : Type} (nuevas : list Template) (resto : M Σ A) w :
  mundo_ok w -> Forall plantilla_valida nuevas -> conserva mundo_ok resto ->
  match (l ← Store.nuevo_arreglo nuevas;
         modificar (con_st_plantillas l);;
         ahora ← Date_nueva;
         modificar (con_st_ultimaActualizacion ahora);;
         resto) w with
  | (Normal _, w') => mundo_ok w'
  | (Lanza _, w') => mundo_ok w'
  end.
Proof.
  intros Hw Hn Hr. rewrite correr_reemplazo.
  exact (Hr _ (ok_al_notificar w nuevas Hw Hn)).
Qed.

Lemma conserva_ok_agregarPlantilla a :
  conserva mundo_ok (Store.agregarPlantilla a).
Proof.
  unfold Store.agregarPlantilla. apply conserva_try_catch.
  2:{ intros e. apply conserva_bind; [apply conserva_ok_console|].
      intros _. apply conserva_ret. }
  apply conserva_bind.
  { destruct a; [apply conserva_ret|apply conserva_lanzar]. }
  intros t. destruct (truthy (esValida t)) eqn:Hv; [|apply conserva_lanzar].
  cbn [negb]. intros w Hw.
  rewrite correr_bind. unfold leer at 1. reducir.
  apply conserva_ok_reemplazo; [exact Hw| |].
  - apply Forall_app. split; [apply Hw|]. repeat constructor. exact Hv.
  - apply conserva_bind; [apply conserva_leer|]. intros nuevas.
    apply conserva_bind; [apply conserva_ok_notificarCambios|]. intros _.
    destruct (getEstadoLocal t); [|apply conserva_lanzar].
    apply conserva_bind; [apply conserva_ok_console|]. intros _.
    apply conserva_ret.
Qed.

Lemma filter_validas (f : Template -> bool) (l : list Template) :
  Forall plantilla_valida l -> Forall plantilla_valida (List.filter f l).
Proof.
  induction 1 as [|x r Hx _ IH]; simpl; [constructor|].
  destruct (f x); [constructor|]; assumption.
Qed.

Lemma conserva_ok_eliminarPlantilla ident :
  conserva mundo_ok (Store.eliminarPlantilla ident).
Proof.
  unfold Store.eliminarPlantilla. apply conserva_try_catch.
  2:{ intros e. apply conserva_bind; [apply conserva_ok_console|].
      intros _. apply conserva_ret. }
  apply conserva_bind; [apply conserva_leer|].
  intros [eliminada|]; [|apply conserva_lanzar].
  intros w Hw.
  rewrite correr_bind. unfold leer at 1. reducir.
  apply conserva_ok_reemplazo; [exact Hw| |].
  - apply filter_validas, Hw.
  - apply conserva_bind; [apply conserva_leer|]. intros nuevas.
    apply conserva_bind; [apply conserva_ok_notificarCambios|]. intros _.
    destruct (getEstadoLocal eliminada); [|apply conserva_lanzar].
    apply conserva_bind; [apply conserva_ok_console|]. intros _.
    apply conserva_ret.
Qed.

Lemma conserva_ok_limpiarTodas : conserva mundo_ok Store.limpiarTodas.
Proof.
  unfold Store.limpiarTodas. apply conserva_try_catch.
  2:{ intros e. apply conserva_bind; [apply conserva_ok_console|].
      intros _. apply conserva_ret. }
  intros w Hw.
  rewrite correr_bind. unfold leer at 1. reducir.
  apply conserva_ok_reemplazo; [exact Hw|constructor|].
  apply conserva_bind; [apply conserva_ok_notificarCambios|]. intros _.
  apply conserva_bind; [apply conserva_ok_console|]. intros _.
  apply conserva_ret.
Qed.

Lemma conserva_ok_reset : conserva mundo_ok (Store.reset (Σ := Σ)).
Proof.
  unfold Store.reset. intros w Hw.
  apply conserva_ok_reemplazo; [exact Hw|constructor|].
  apply conserva_ok_console.
Qed.

Lemma conserva_ok_recargarDesdePersistencia :
  conserva mundo_ok Store.recargarDesdePersistencia.
Proof.
  unfold Store.recargarDesdePersistencia. apply conserva_try_catch.
  2:{ intros e. apply conserva_bind; [apply conserva_ok_console|].
      intros _. apply conserva_ret. }
  intros w Hw. rewrite correr_bind.
  destruct (hoare_corre _ _ _ w (hoare_cargarPlantillas w) eq_refl)
    as (ps & w1 & Hc & Hw1 & _ & Hval).
  rewrite Hc.
  apply conserva_ok_reemplazo;
    [exact (ok_nucleo w w1 Hw (Est_Nucleo w w1 Hw1))|exact Hval|].
  apply conserva_bind; [apply conserva_ok_notificarCambios|]. intros _.
  apply conserva_bind; [apply conserva_ok_console|]. intros _.
  apply conserva_ret.
Qed.

Lemma conserva_ok_cargarPlantillasDefault :
  conserva mundo_ok (Store._cargarPlantillasDefault (Σ := Σ)).
Proof.
  unfold Store._cargarPlantillasDefault. intros w Hw.
  rewrite correr_bind.
  match goal with |- context [Template_new ?a ?b ?d ?e None w] =>
    destruct (hoare_corre _ _ _ w
                (hoare_Template_new (estable w) a b d e None) eq_refl)
      as (t1 & w1 & E1 & Hw1 & A1 & A2 & A3 & A4 & _)
  end.
  rewrite E1. rewrite correr_bind.
  match goal with |- context [Template_new ?a ?b ?d ?e None w1] =>
    destruct (hoare_corre _ _ _ w1
                (hoare_Template_new (estable w) a b d e None) Hw1)
      as (t2 & w2 & E2 & Hw2 & B1 & B2 & B3 & B4 & _)
  end.
  rewrite E2.
  apply conserva_ok_reemplazo;
    [exact (ok_nucleo w w2 Hw (Est_Nucleo w w2 Hw2))| |].
  - repeat constructor; unfold plantilla_valida; rewrite truthy_esValida.
    + rewrite A1, A2, A3, A4. reflexivity.
    + rewrite B1, B2, B3, B4. reflexivity.
  - apply conserva_ok_console.
Qed.

Lemma conserva_ok_tieneDatosGuardados :
  conserva mundo_ok (Persistence.tieneDatosGuardados (Σ := Σ)).
Proof.
  apply conserva_ok_nucleo. intros c. apply conserva_primitiva. reflexivity.
Qed.

Lemma conserva_ok_inicializar : conserva mundo_ok Store.inicializar.
Proof.
  unfold Store.inicializar. apply conserva_try_catch.
  2:{ intros e. apply conserva_bind; [apply conserva_ok_console|].
      intros _. apply conserva_ok_cargarPlantillasDefault. }
  intros w Hw. rewrite correr_bind.
  unfold console at 1, modificar at 1. reducir. rewrite correr_bind.
  match goal with |- context [Persistence.cargarPlantillas ?w0] =>
    destruct (hoare_corre _ _ _ w0 (hoare_cargarPlantillas w) eq_refl)
      as (ps & w1 & Hc & Hw1 & _ & Hval)
  end.
  rewrite Hc.
  apply conserva_ok_reemplazo;
    [exact (ok_nucleo w w1 Hw (Est_Nucleo w w1 Hw1))|exact Hval|].
  apply conserva_bind; [apply conserva_ok_tieneDatosGuardados|]. intros _.
  apply conserva_bind; [apply conserva_ok_console|]. intros _.
  apply conserva_bind; [apply conserva_ok_tieneDatosGuardados|]. intros tiene.
  apply conserva_ok_notificarCambios.
Qed.

Lemma conserva_ok_getPlantillas : conserva mundo_ok (Store.getPlantillas (Σ := Σ)).
Proof.
  intros w (Hst & Hdev & Hval). unfold Store.getPlantillas.
  rewrite correr_bind. unfold leer at 1. reducir.
  unfold mundo_ok, Store.plantillas, Store.arreglo_en in *. simpl.
  rewrite length_app. simpl. split; [lia|]. split.
  - apply Forall_app. split.
    + eapply Forall_impl; [exact Hdev|]. simpl. intros l [H1 H2]. lia.
    + repeat constructor; lia.
  - rewrite lookup_app_l by lia. exact Hval.
Qed.

Lemma conserva_ok_operacion (o : operacion Σ) :
  conserva mundo_ok (ejecutar_operacion o).
Proof.
  assert (Hn : forall (A : Type) (m : M Σ A),
             (forall c, conserva (Nucleo c) m) -> conserva mundo_ok m)
    by (intros A m; apply conserva_ok_nucleo).
  destruct o; cbn [ejecutar_operacion].
  - apply conserva_bind; [apply conserva_ok_inicializar|].
    intros ?. apply conserva_ret.
  - apply conserva_bind; [apply conserva_ok_agregarPlantilla|].
    intros b. apply conserva_ret.
  - apply conserva_bind; [apply conserva_ok_eliminarPlantilla|].
    intros b. apply conserva_ret.
  - apply conserva_bind; [apply conserva_ok_limpiarTodas|].
    intros b. apply conserva_ret.
  - apply conserva_bind; [apply conserva_ok_reset|].
    intros ?. apply conserva_ret.
  - apply conserva_bind; [apply conserva_ok_recargarDesdePersistencia|].
    intros b. apply conserva_ret.
  - apply conserva_bind; [apply conserva_leer|]. intros k.
    apply conserva_bind; [apply conserva_ok_getPlantillas|]. intros l.
    apply conserva_bind; [apply conserva_leer|]. intros es.
    apply conserva_ret.
  - apply conserva_bind; [|intros ?; apply conserva_ret].
    destruct callback as [f|v]; simpl.
    + apply conserva_bind; [|intros ?; apply conserva_ret].
      apply conserva_modificar. intros w Hw. exact Hw.
    + apply conserva_lanzar.
  - apply conserva_bind; [|intros ?; apply conserva_ret].
    apply conserva_modificar. intros w Hw. exact Hw.
  - apply conserva_bind; [|intros ?; apply conserva_ret].
    apply conserva_modificar. intros w Hw.
    destruct (entregados w !! k) as [l|] eqn:Hk; [|exact Hw].
    destruct Hw as (Hst & Hdev & Hval).
    pose proof (proj1 (Forall_lookup _ _) Hdev k l Hk) as [Hl1 Hl2].
    unfold mundo_ok. rewrite plantillas_cambiar_arreglo by done.
    simpl. rewrite length_alter. auto.
  - apply conserva_leer.
  - apply conserva_bind; [|intros b; apply conserva_ret].
    apply Hn. intros c. apply conserva_guardarPlantillas.
  - apply conserva_bind; [apply conserva_ok_cargarPlantillas|].
    intros ps. apply conserva_ret.
  - apply conserva_bind; [|intros b; apply conserva_ret].
    apply Hn. intros c. apply conserva_resetearPlantillas.
  - apply conserva_bind; [|intros ?; apply conserva_ret].
    apply Hn. intros c. apply conserva_setItem.
  - apply conserva_bind; [|intros ?; apply conserva_ret].
    apply Hn. intros c. apply conserva_primitiva. reflexivity.
  - apply conserva_bind; [|intros ?; apply conserva_ret].
    apply Hn. intros c. apply conserva_primitiva. reflexivity.
  - apply conserva_bind; [apply conserva_ok_console|].
    intros ?. apply conserva_ret.
  - apply conserva_bind; [|intros ?; apply conserva_bind;
                            [apply conserva_leer|intros ?; apply conserva_ret]].
    apply conserva_modificar. intros w Hw. exact Hw.
Qed.

Lemma conserva_ok_correr (p : programa Σ) : conserva mundo_ok (correr p).
Proof.
  induction p as [f|o k IH]; intros w Hw; cbn [correr].
  - destruct (f (exterior w)) as [[[]|e] σ]; exact Hw.
  - pose proof (conserva_ok_operacion o w Hw) as Ho.
    destruct (ejecutar_operacion o w) as [r w1].
    apply IH. destruct r; exact Ho.
Qed.

End Llamadas.

(** *** The callbacks keep it, and so does every call of the page *)

Lemma invocar_programa_ok (n : nat) :
  forall cb ev, conserva mundo_ok (invocar_programa n cb ev).
Proof.
  induction n as [|n IH]; intros cb ev.
  - apply conserva_lanzar.
  - apply (conserva_ok_correr (I := invocar_programa n) IH).
Qed.

Implicit Types (s : Sesion Σ).

Definition sesion_ok s : Prop := mundo_ok (mundo s).

Lemma paso_ok s o : sesion_ok s -> sesion_ok (paso s o).
Proof.
  intros Hs. unfold paso, sesion_ok. simpl.
  pose proof (conserva_ok_operacion (I := de_la_pagina)
                (invocar_programa_ok (S pila)) o (mundo s) Hs) as Ho.
  destruct (ejecutar_operacion o (mundo s)) as [[r|e] w']; exact Ho.
Qed.

Lemma ejecutar_ok ops s : sesion_ok s -> sesion_ok (ejecutar ops s).
Proof.
  revert s. induction ops as [|o r IH]; intros s Hs; simpl; [exact Hs|].
  apply IH. apply paso_ok. exact Hs.
Qed.

Lemma sesion_inicial_ok reloj aleatorio almacen sink (σ : Σ) :
  sesion_ok (sesion_inicial reloj aleatorio almacen sink σ).
Proof. unfold sesion_ok, mundo_ok. simpl. repeat split; try constructor. Qed.

End HechosSesion.

(** ** Callbacks that call nothing, as the page calls them *)

Section HechosCallados.
Context {Pl : Plataforma} {Σ : Type}.

Lemma callado_sosegado (cb : Suscriptor Σ) : callado cb -> sosegado cb.
Proof.
  intros H ev w. destruct (H ev) as [f Hf].
  unfold invocar, de_la_pagina. cbn [invocar_programa].
  unfold efecto. rewrite Hf. reflexivity.
Qed.

Lemma callados_sosegados (l : list (Suscriptor Σ)) :
  Forall callado l -> Forall sosegado l.
Proof. intros H. eapply Forall_impl; [exact H|]. exact callado_sosegado. Qed.

End HechosCallados.

(** ** Callbacks that leave the Store as it is *)

Section HechosDiscretos.
Context {Pl : Plataforma} {Σ : Type}.
Implicit Types (w : Mundo Σ) (t : Template).

#[local] Arguments estricto_igual : simpl never.

(** The calls that change neither the collection nor the subscribers and
    notify nobody: reading the collection, reading and changing the arrays
    the page holds, Persistence, the storage, the console and what the
    page keeps for itself. *)
Definition operacion_discreta (o : operacion Σ) : bool :=
  match o with
  | OpGetPlantillas | OpCambiarArreglo _ _ | OpLeerArreglo _
  | OpGuardarPlantillas _ | OpCargarPlantillas | OpResetearPlantillas
  | OpSetItem _ _ | OpRemoveItem _ | OpGetItem _ | OpConsole _ _
  | OpPropio _ => true
  | _ => false
  end.

(** A program that makes such calls only, whatever their outcomes. *)
Fixpoint discreto (p : programa Σ) : Prop :=
  match p with
  | Termina _ => True
  | Ejecuta o k => operacion_discreta o = true /\ forall r, discreto (k r)
  end.

(** A callback that, whatever the event, neither changes the Store, nor
    subscribes, nor cancels a subscription.  The callbacks of the page are
    such: the auto-save of [conectarPersistenciaConStore] is. *)
Definition suscriptor_discreto (cb : Suscriptor Σ) : Prop :=
  forall ev, discreto (sus_cuerpo cb ev).

(** What such calls keep: the state of the Store with its collection and
    its subscribers, and the calls of callbacks made so far. *)
Definition almacenado w :=
  (st_plantillas w, Store.plantillas w, st_ultimaActualizacion w,
   st_persistenciaHabilitada w, _suscriptores w).

Definition Reservado c (l : list (nat * Evento)) : Mundo Σ -> Prop :=
  fun w => mundo_ok w /\ almacenado w = c /\ llamadas w = l.

Lemma reservado_nucleo c l w w' :
  Reservado c l w -> Nucleo (nucleo w) w' -> Reservado c l w'.
Proof.
  intros (Hok & Ha & Hl) E. split; [exact (ok_nucleo w w' Hok E)|].
  unfold Nucleo, nucleo in E. inversion E as [[E1 E2 E3 E4 E5 E6 E7 E8]].
  unfold almacenado, Store.plantillas, Store.arreglo_en in *.
  rewrite E1, E3, E4, E5, E6, E7. auto.
Qed.

Lemma conserva_reservado_nucleo {A : Type} c l (m : M Σ A) :
  (forall c', conserva (Nucleo c') m) -> conserva (Reservado c l) m.
Proof.
  intros Hm w Hw. specialize (Hm _ w eq_refl).
  destruct (m w) as [[a|e] w']; exact (reservado_nucleo c l w w' Hw Hm).
Qed.

Lemma conserva_nucleo_cargarPlantillas c :
  conserva (Nucleo c) (Persistence.cargarPlantillas (Σ := Σ)).
Proof.
  intros w Hw.
  destruct (hoare_corre _ _ _ w (hoare_cargarPlantillas w) eq_refl)
    as (ps & w1 & Hc & Hw1 & _).
  rewrite Hc. pose proof (Est_Nucleo w w1 Hw1) as E.
  unfold Nucleo in *. congruence.
Qed.

Section Llamadas.
Context {I : Invocador Σ}.

Lemma conserva_reservado_getPlantillas c l :
  conserva (Reservado c l) (Store.getPlantillas (Σ := Σ)).
Proof.
  intros w (Hok & Ha & Hl).
  pose proof (conserva_ok_getPlantillas w Hok) as Hok'.
  unfold Store.getPlantillas in *.
  rewrite correr_bind in *. unfold leer at 1 in Hok'. unfold leer at 1.
  reducir. reducir_en Hok'.
  split; [exact Hok'|]. split; [|exact Hl].
  destruct Hok as (Hst & _).
  unfold almacenado, Store.plantillas, Store.arreglo_en in *. simpl.
  rewrite lookup_app_l by lia. exact Ha.
Qed.

Lemma operacion_discreta_conserva (o : operacion Σ) c l :
  operacion_discreta o = true -> conserva (Reservado c l) (ejecutar_operacion o).
Proof.
  assert (Hn : forall (A : Type) (m : M Σ A),
             (forall c', conserva (Nucleo c') m) -> conserva (Reservado c l) m)
    by (intros A m; apply conserva_reservado_nucleo).
  destruct o; intros Ho; try discriminate Ho; cbn [ejecutar_operacion].
  - apply conserva_bind; [apply conserva_leer|]. intros k.
    apply conserva_bind; [apply conserva_reservado_getPlantillas|]. intros l0.
    apply conserva_bind; [apply conserva_leer|]. intros es.
    apply conserva_ret.
  - apply conserva_bind; [|intros ?; apply conserva_ret].
    apply conserva_modificar. intros w Hw.
    destruct (entregados w !! k) as [l0|] eqn:Hk; [|exact Hw].
    destruct Hw as (Hok & Ha & Hl).
    pose proof Hok as (Hst & Hdev & Hval).
    pose proof (proj1 (Forall_lookup _ _) Hdev k l0 Hk) as [Hl1 Hl2].
    pose proof (plantillas_cambiar_arreglo w l0 f Hl2) as Hp.
    split; [|split; [|exact Hl]].
    + unfold mundo_ok. rewrite Hp. simpl. rewrite length_alter. auto.
    + unfold almacenado in *. rewrite Hp. exact Ha.
  - apply conserva_leer.
  - apply conserva_bind; [|intros b; apply conserva_ret].
    apply Hn. intros c'. apply conserva_guardarPlantillas.
  - apply conserva_bind; [|intros b; apply conserva_ret].
    apply Hn. intros c'. apply conserva_nucleo_cargarPlantillas.
  - apply conserva_bind; [|intros b; apply conserva_ret].
    apply Hn. intros c'. apply conserva_resetearPlantillas.
  - apply conserva_bind; [|intros ?; apply conserva_ret].
    apply Hn. intros c'. apply conserva_setItem.
  - apply conserva_bind; [|intros ?; apply conserva_ret].
    apply Hn. intros c'. apply conserva_primitiva. reflexivity.
  - apply conserva_bind; [|intros ?; apply conserva_ret].
    apply Hn. intros c'. apply conserva_primitiva. reflexivity.
  - apply conserva_bind; [|intros ?; apply conserva_ret].
    apply Hn. intros c'. apply conserva_primitiva. reflexivity.
  - apply conserva_bind; [|intros ?; apply conserva_bind;
                            [apply conserva_leer|intros ?; apply conserva_ret]].
    apply conserva_modificar. intros w Hw. exact Hw.
Qed.

Lemma discreto_correr (p : programa Σ) c l :
  discreto p -> conserva (Reservado c l) (correr p).
Proof.
  induction p as [f|o k IH]; intros Hp w Hw; cbn [correr].
  - destruct (f (exterior w)) as [[[]|e] σ]; exact Hw.
  - destruct Hp as [Ho Hk].
    pose proof (operacion_discreta_conserva o c l Ho w Hw) as H1.
    destruct (ejecutar_operacion o w) as [r w1].
    apply IH; [apply Hk|]. destruct r; exact H1.
Qed.

(** *** Notification, for callbacks that keep it *)

(** A callback whose call keeps the Store, as the page calls it. *)
Definition comedido (cb : Suscriptor Σ) : Prop :=
  forall c l ev, conserva (Reservado c l) (invocar cb ev).

Lemma notificar_a_comedido ev cb w :
  comedido cb -> mundo_ok w ->
  exists w',
    notificar_a ev cb w = (Normal tt, w')
    /\ mundo_ok w' /\ almacenado w' = almacenado w
    /\ llamadas w' = (llamadas w ++ [(sus_id cb, ev)])%list.
Proof.
  intros Hc Hok. unfold notificar_a, Store.llamar.
  rewrite correr_try_catch, correr_bind. unfold modificar at 1. reducir.
  match goal with |- context [invocar cb ev ?w0] =>
    pose proof (Hc (almacenado w) (llamadas w ++ [(sus_id cb, ev)])%list ev w0
                  (conj Hok (conj eq_refl eq_refl))) as H1;
    destruct (invocar cb ev w0) as [[[]|e] w1]
  end.
  - exists w1. destruct H1 as (H1 & H2 & H3). auto.
  - eexists. split; [reflexivity|]. destruct H1 as (H1 & H2 & H3). auto.
Qed.

Lemma recorrer_comedidos ev (n : nat) :
  forall k w,
    mundo_ok w -> Forall comedido (_suscriptores w) ->
    k + n = length (_suscriptores w) ->
    exists w',
      Store.recorrer_suscriptores n k (notificar_a ev) w = (Normal tt, w')
      /\ mundo_ok w' /\ almacenado w' = almacenado w
      /\ llamadas w'
         = (llamadas w ++ llamadas_de ev (drop k (_suscriptores w)))%list.
Proof.
  induction n as [|n IH]; intros k w Hok Hq Hk.
  - exists w. rewrite drop_ge by lia. simpl. rewrite app_nil_r. auto.
  - cbn [Store.recorrer_suscriptores].
    rewrite correr_bind. unfold leer at 1. reducir.
    destruct (lookup_lt_is_Some_2 (_suscriptores w) k ltac:(lia)) as [cb Hcb].
    rewrite Hcb. rewrite correr_bind.
    pose proof (proj1 (Forall_lookup _ _) Hq k cb Hcb) as Hs.
    destruct (notificar_a_comedido ev cb w Hs Hok)
      as (w1 & H1 & Hok1 & Ha1 & Hl1).
    rewrite H1.
    assert (Hsus : _suscriptores w1 = _suscriptores w).
    { unfold almacenado in Ha1. congruence. }
    destruct (IH (S k) w1 Hok1) as (w2 & H2 & Hok2 & Ha2 & Hl2).
    { rewrite Hsus. exact Hq. }
    { rewrite Hsus. lia. }
    exists w2. split; [exact H2|]. split; [exact Hok2|].
    split; [congruence|].
    rewrite Hsus in Hl2. rewrite (drop_S _ _ _ Hcb). simpl.
    rewrite Hl2, Hl1, <- app_assoc. reflexivity.
Qed.

Lemma _notificarCambios_comedidos (tp : string) (dt : DatosEvento) w :
  mundo_ok w -> Forall comedido (_suscriptores w) ->
  forallb categoria_convertible (Store.plantillas w) = true ->
  exists ev w',
    Store._notificarCambios tp dt w = (Normal tt, w')
    /\ tipo ev = tp /\ datos ev = dt
    /\ total (estadisticas ev) = length (Store.plantillas w)
    /\ mundo_ok w' /\ almacenado w' = almacenado w
    /\ llamadas w' = (llamadas w ++ llamadas_de ev (_suscriptores w))%list.
Proof.
  intros Hok Hq Hc. unfold Store._notificarCambios.
  rewrite correr_bind.
  destruct (getEstadisticas_convertibles w Hc) as (e & He & Htot & _).
  rewrite He. rewrite correr_bind.
  unfold Date_nueva at 1. rewrite correr_bind. unfold Date_now at 1. reducir.
  rewrite correr_bind. unfold leer at 1. reducir.
  match goal with
  | |- context [Store.recorrer_suscriptores _ _ ?F ?w1] =>
      match F with
      | context [mkEvento tp dt e ?f] =>
          change F with (notificar_a (mkEvento tp dt e f));
          destruct (recorrer_comedidos (mkEvento tp dt e f)
                      (length (_suscriptores w)) 0 w1 Hok Hq eq_refl)
            as (w' & Hw' & Hok' & Ha & Hl);
          exists (mkEvento tp dt e f), w'
      end
  end.
  split; [exact Hw'|]. split; [reflexivity|]. split; [reflexivity|].
  split; [exact Htot|]. split; [exact Hok'|]. split; [exact Ha|exact Hl].
Qed.

(** [w'] is [w] after a mutation that made [nuevas] the collection and
    notified the event of type [tp] with data [dt] to callbacks that keep
    the Store. *)
Definition tras_mutacion_discreta w w' (nuevas : list Template) (tp : string)
    (dt : DatosEvento) : Prop :=
  mundo_ok w'
  /\ Store.plantillas w' = nuevas
  /\ _suscriptores w' = _suscriptores w
  /\ st_persistenciaHabilitada w' = st_persistenciaHabilitada w
  /\ exists ev,
       tipo ev = tp /\ datos ev = dt
       /\ total (estadisticas ev) = length nuevas
       /\ llamadas w' = (llamadas w ++ llamadas_de ev (_suscriptores w))%list.

Lemma notificar_tras_reemplazo_comedidos w (nuevas : list Template) tp dt :
  mundo_ok w -> Forall plantilla_valida nuevas ->
  Forall comedido (_suscriptores w) ->
  forallb categoria_convertible nuevas = true ->
  exists w',
    Store._notificarCambios tp dt (al_notificar w nuevas) = (Normal tt, w')
    /\ tras_mutacion_discreta w w' nuevas tp dt.
Proof.
  intros Hok Hn Hq Hc.
  destruct (_notificarCambios_comedidos tp dt (al_notificar w nuevas))
    as (ev & w' & Hnot & Htp & Hdt & Htot & Hok' & Ha & Hl).
  { apply ok_al_notificar; assumption. }
  { exact Hq. }
  { rewrite plantillas_al_notificar. exact Hc. }
  exists w'. split; [exact Hnot|].
  rewrite plantillas_al_notificar in Htot.
  unfold almacenado in Ha. rewrite plantillas_al_notificar in Ha.
  simpl in Ha, Hl. injection Ha as E1 E2 E3 E4 E5.
  unfold tras_mutacion_discreta.
  split; [exact Hok'|]. split; [exact E2|]. split; [exact E5|].
  split; [exact E4|].
  exists ev. repeat split; assumption.
Qed.

(** *** The mutations, given what their notification does *)

Lemma agregarPlantilla_tras_notificar w t w' :
  truthy (esValida t) = true ->
  Store._notificarCambios "PLANTILLA_AGREGADA"
    (DatosAgregada t (length (Store.plantillas w ++ [t])%list))
    (al_notificar w (Store.plantillas w ++ [t])%list) = (Normal tt, w') ->
  Store.agregarPlantilla (Store.EsTemplate t) w
  = (Normal true,
     con_consola
       (consola w' ++ [("log", "🟢 Store: Plantilla agregada exitosamente")])
       w').
Proof.
  intros Hv Hn.
  destruct (getEstadoLocal_valida t Hv) as [el Hel].
  unfold Store.agregarPlantilla.
  rewrite correr_try_catch, correr_bind. reducir. rewrite Hv. reducir.
  rewrite correr_bind. unfold leer at 1. reducir.
  rewrite correr_reemplazo.
  rewrite correr_bind. unfold leer at 1. reducir.
  rewrite plantillas_al_notificar. rewrite correr_bind.
  rewrite Hn. rewrite Hel. reflexivity.
Qed.

Lemma eliminarPlantilla_tras_notificar w ident eliminada w' :
  find (tiene_id ident) (Store.plantillas w) = Some eliminada ->
  is_Some (getEstadoLocal eliminada) ->
  let restantes :=
    List.filter (fun plantilla => negb (tiene_id ident plantilla))
      (Store.plantillas w) in
  Store._notificarCambios "PLANTILLA_ELIMINADA"
    (DatosEliminada eliminada (length restantes))
    (al_notificar w restantes) = (Normal tt, w') ->
  Store.eliminarPlantilla ident w
  = (Normal true,
     con_consola
       (consola w' ++ [("log", "🔴 Store: Plantilla eliminada exitosamente")])
       w').
Proof.
  intros H0 [el Hel] restantes Hn. unfold Store.eliminarPlantilla.
  rewrite correr_try_catch, correr_bind.
  unfold Store.getPlantillaPorId, leer at 1. reducir.
  unfold tiene_id in H0. rewrite H0.
  rewrite correr_bind. unfold leer at 1. reducir.
  change (List.filter _ (Store.plantillas w)) with restantes.
  rewrite correr_reemplazo.
  rewrite correr_bind. unfold leer at 1. reducir.
  rewrite plantillas_al_notificar. rewrite correr_bind.
  rewrite Hn. rewrite Hel. reflexivity.
Qed.

Lemma limpiarTodas_tras_notificar w w' :
  Store._notificarCambios "TODAS_ELIMINADAS"
    (DatosTodasEliminadas (length (Store.plantillas w)))
    (al_notificar w []) = (Normal tt, w') ->
  Store.limpiarTodas w
  = (Normal true,
     con_consola
       (consola w' ++ [("log", "🧹 Store: Todas las plantillas eliminadas")])
       w').
Proof.
  intros Hn. unfold Store.limpiarTodas.
  rewrite correr_try_catch, correr_bind. unfold leer at 1. reducir.
  rewrite correr_reemplazo. rewrite correr_bind.
  rewrite Hn. reflexivity.
Qed.

End Llamadas.

(** *** As the page calls them *)

Lemma discreto_comedido (cb : Suscriptor Σ) :
  suscriptor_discreto cb -> comedido cb.
Proof.
  intros H c l ev. unfold invocar, de_la_pagina. cbn [invocar_programa].
  apply discreto_correr. apply H.
Qed.

Lemma discretos_comedidos (l : list (Suscriptor Σ)) :
  Forall suscriptor_discreto l -> Forall comedido l.
Proof. intros H. eapply Forall_impl; [exact H|]. exact discreto_comedido. Qed.

Lemma callado_discreto (cb : Suscriptor Σ) :
  callado cb -> suscriptor_discreto cb.
Proof. intros H ev. destruct (H ev) as [f Hf]. rewrite Hf. exact Logic.I. Qed.

Lemma autoguardado_discreto (i : nat) : suscriptor_discreto (autoguardado i).
Proof.
  intros ev. simpl. split; [reflexivity|]. intros r1.
  split; [reflexivity|]. intros [[| | | | |]|e]; simpl; auto.
Qed.

End HechosDiscretos.
(** ** Worked examples *)

Module Ejemplos.

(** An engine for the examples.  The numerals of the examples are numbers
    already; a text that is not of the format of [toISOString] is no date;
    the storage takes what the examples store. *)
Definition motor : Plataforma := {|
  redondear := Some;
  Date_parse_otro := fun _ => None;
  Object_prototype := fun k =>
    if String.eqb k "constructor" then Some "function Object() { [native code] }"
    else if String.eqb k "toString" then Some "function toString() { [native code] }"
    else if String.eqb k "valueOf" then Some "function valueOf() { [native code] }"
    else None;
  admite := fun _ _ _ => true;
  mensaje_del_motor := fun e => e;
  pila := 100
|}.

#[local] Existing Instance motor.

(** A clock that advances one millisecond per reading, and a constant
    [Math.random]. *)
Definition reloj (k : nat) : N := (1730000000000 + N.of_nat k)%N.
Definition aleatorio (_ : nat) : uint := D5 Nil.

(** A page whose state is the list of the names of the callbacks that ran. *)
Definition mundo0 : Mundo (list string) :=
  Store.mundo_inicial reloj aleatorio ∅ false [].

Definition sesion0 : Sesion (list string) :=
  sesion_inicial reloj aleatorio ∅ false [].

(** A callback that writes its name down and returns. *)
Definition anota (i : nat) (nombre : string) : Suscriptor (list string) :=
  mkSuscriptor i (fun _ => Termina (fun σ => (Normal tt, σ ++ [nombre])%list)).

(** A first subscriber that always throws and a second one that returns. *)
Definition primero : Suscriptor (list string) :=
  mkSuscriptor 1
    (fun _ => Termina (fun σ => (Lanza "fallo", σ ++ ["primero"])%list)).
Definition segundo : Suscriptor (list string) := anota 2 "segundo".
Definition tercero : Suscriptor (list string) := anota 3 "tercero".

Definition mundo_suscrito : Mundo (list string) :=
  snd (Store.suscribirse (Store.EsFuncion segundo)
         (snd (Store.suscribirse (Store.EsFuncion primero) mundo0))).

(** A subscriber for one notification: called, it calls the function
    [suscribirse] returned for it, which removes the function of identity 4,
    itself, from the subscribers; then it writes its name down. *)
Definition de_una_vez : Suscriptor (list string) :=
  mkSuscriptor 4
    (fun _ =>
       Ejecuta (OpCancelar (anota 4 "de_una_vez"))
         (fun _ => Termina (fun σ => (Normal tt, σ ++ ["de_una_vez"])%list))).

Definition sesion_de_una_vez : Sesion (list string) :=
  ejecutar [OpSuscribirse (Store.EsFuncion de_una_vez);
            OpSuscribirse (Store.EsFuncion segundo)] sesion0.

Definition bienvenida : Template :=
  mkTemplate (JStr "Welcome") (JStr "Hi there") (JStr "#hi") (JStr "support")
    (Some 1700000000000%Z)
    {| num_neg := false; num_ent := 1700000000000; num_frac := D5 Nil;
       num_exp := None |}.

Definition sin_titulo : Template :=
  mkTemplate (JStr "") (JStr "Hi there") (JStr "#hi") (JStr "support")
    (Some 1700000000000%Z)
    {| num_neg := false; num_ent := 1700000000001; num_frac := D5 Nil;
       num_exp := None |}.

Definition despedida : Template :=
  mkTemplate (JStr "Goodbye") (JStr "See you") (JStr "#bye") (JStr "support")
    (Some 1700000000000%Z)
    {| num_neg := false; num_ent := 1700000000004; num_frac := D5 Nil;
       num_exp := None |}.

(** A template whose category is the object [{toString: 1}]: it is truthy,
    so the template is valid, and it cannot be made the name of a
    property. *)
Definition rara : Template :=
  mkTemplate (JStr "Odd") (JStr "Hi there") (JStr "#odd")
    (JObj [("toString", JNum (num_de_N 1))])
    (Some 1700000000000%Z)
    {| num_neg := false; num_ent := 1700000000003; num_frac := D5 Nil;
       num_exp := None |}.

(** The page added [rara] and then [bienvenida]. *)
Definition sesion_rara : Sesion (list string) :=
  ejecutar [OpSuscribirse (Store.EsFuncion segundo);
            OpAgregarPlantilla (Store.EsTemplate rara);
            OpAgregarPlantilla (Store.EsTemplate bienvenida)] sesion0.

(** Stored records: a well-formed one, and one whose title is empty. *)
Definition registro_bueno : jsval :=
  JObj [("id", JNum (id bienvenida)); ("titulo", JStr "Welcome");
        ("mensaje", JStr "Hi there"); ("hashtag", JStr "#hi");
        ("categoria", JStr "support");
        ("fechaCreacion", JStr "2023-11-14T22:13:20.000Z")].

Definition registro_sin_titulo : jsval :=
  JObj [("id", JNum (id sin_titulo)); ("titulo", JStr "");
        ("mensaje", JStr "Hi there"); ("hashtag", JStr "#hi");
        ("categoria", JStr "support");
        ("fechaCreacion", JStr "2023-11-14T22:13:20.000Z")].

Definition envelope_mixto : jsval :=
  JObj [("version", JStr "1.0");
        ("timestamp", JStr "2024-10-27T03:33:20.000Z");
        ("plantillas", JArr [registro_bueno; registro_sin_titulo]);
        ("metadata",
         JObj [("total", JNum (num_de_N 2));
               ("categorias", JObj [("support", JNum (num_de_N 2))])])].

(** The primary slot holds the envelope with the two records; there is no
    backup. *)
Definition mundo_mixto : Mundo (list string) :=
  snd (localStorage_setItem Persistence.STORAGE_KEY
         (JSON_stringify envelope_mixto) mundo0).

(** The page saved a template twice, so that primary and backup both hold
    its envelope, and then the primary slot was overwritten with the empty
    text. *)
Definition sesion_primario_vacio : Sesion (list string) :=
  ejecutar [OpGuardarPlantillas [bienvenida];
            OpGuardarPlantillas [bienvenida];
            OpSetItem Persistence.STORAGE_KEY ""] sesion0.

(** The same, the primary slot overwritten with a text that is not JSON. *)
Definition sesion_primario_corrupto : Sesion (list string) :=
  ejecutar [OpGuardarPlantillas [bienvenida];
            OpGuardarPlantillas [bienvenida];
            OpSetItem Persistence.STORAGE_KEY "{no es json"] sesion0.

(** A page with the two subscribers and two templates. *)
Definition mundo_dos : Mundo (list string) :=
  mundo (ejecutar [OpSuscribirse (Store.EsFuncion primero);
                   OpSuscribirse (Store.EsFuncion segundo);
                   OpAgregarPlantilla (Store.EsTemplate bienvenida);
                   OpAgregarPlantilla (Store.EsTemplate despedida)] sesion0).

(** A page with a subscriber whose storage holds the envelope of a
    template saved before. *)
Definition mundo_guardado : Mundo (list string) :=
  mundo (ejecutar [OpSuscribirse (Store.EsFuncion segundo);
                   OpGuardarPlantillas [despedida]] sesion0).

(** The page once [bienvenida] was added. *)
Definition mundo_con_bienvenida : Mundo (list string) :=
  snd (Store.agregarPlantilla (Store.EsTemplate bienvenida) mundo0).

(** An envelope of an older version. *)
Definition envelope_antiguo : jsval :=
  JObj [("version", JStr "0.9");
        ("timestamp", JStr "2024-10-27T03:33:20.000Z");
        ("plantillas", JArr [registro_bueno])].

(** A template whose message is a text of 5 MiB. *)
Definition relleno : string :=
  N.iter (5 * 1024 * 1024) (String "a"%char) EmptyString.

Definition gigante : Template :=
  mkTemplate (JStr "Aviso") (JStr relleno) (JStr "#aviso") (JStr "soporte")
    (Some 1700000000000%Z)
    {| num_neg := false; num_ent := 1700000000002; num_frac := D5 Nil;
       num_exp := None |}.

End Ejemplos.

(** * The claims *)

Section Claims.
Context {Pl : Plataforma} {Σ : Type}.
Implicit Types (w : Mundo Σ) (t : Template).

#[local] Arguments estricto_igual : simpl never.

(** [x] is the only template of [l] with its identifier. *)
Definition unico_en (x : Template) (l : list Template) : Prop :=
  length (List.filter (fun p => bool_decide (id p = id x)) l) = 1.

Lemma unico_en_final x l :
  unico_en x (l ++ [x]) <-> forall p, In p l -> id p <> id x.
Proof.
  unfold unico_en. rewrite List.filter_app, length_app. simpl.
  rewrite bool_decide_eq_true_2 by done. simpl.
  split.
  - intros H p Hp Heq.
    assert (In p (List.filter (fun p => bool_decide (id p = id x)) l)) as Hin.
    { apply filter_In. split; [exact Hp|]. by apply bool_decide_eq_true_2. }
    destruct (List.filter (fun p => bool_decide (id p = id x)) l);
      [destruct Hin|simpl in H; lia].
  - intros H.
    assert (List.filter (fun p => bool_decide (id p = id x)) l = []) as ->.
    { induction l as [|p r IH]; simpl; [done|].
      rewrite bool_decide_eq_false_2 by (apply H; left; done).
      apply IH. intros q Hq. apply H. right. exact Hq. }
    reflexivity.
Qed.

(** What [getPlantillas] does in a state the page can reach. *)
Lemma getPlantillas_copia w :
  mundo_ok w ->
  exists l w1,
    Store.getPlantillas w = (Normal l, w1)
    /\ Store.arreglo_en l w1 = Store.plantillas w
    /\ l <> st_plantillas w1
    /\ entregados w1 = (entregados w ++ [l])%list
    /\ Store.plantillas w1 = Store.plantillas w.
Proof.
  intros (Hst & _). unfold Store.getPlantillas.
  rewrite correr_bind. unfold leer at 1. reducir.
  eexists _, _. split; [reflexivity|].
  unfold Store.plantillas, Store.arreglo_en. simpl.
  rewrite arreglo_en_nuevo. split; [reflexivity|]. split; [lia|].
  split; [reflexivity|]. rewrite lookup_app_l by lia. reflexivity.
Qed.

Lemma alcanzable_ok reloj aleatorio almacen sink (σ : Σ)
    (ops : list (operacion Σ)) :
  mundo_ok (mundo (ejecutar ops (sesion_inicial reloj aleatorio almacen sink σ))).
Proof. apply (ejecutar_ok ops), sesion_inicial_ok. Qed.

(** C2 (as amended).  The mutation operations of the Store, [agregarPlantilla],
    [eliminarPlantilla], [limpiarTodas] and [recargarDesdePersistencia],
    return a boolean for every input and state and never throw.
    [suscribirse] is the exception: it throws when its argument is not a
    function, and returns otherwise. *)
Theorem store_mutaciones_devuelven_booleano w :
  (forall a, exists b : bool, fst (Store.agregarPlantilla a w) = Normal b)
  /\ (forall ident, exists b : bool,
        fst (Store.eliminarPlantilla ident w) = Normal b)
  /\ (exists b : bool, fst (Store.limpiarTodas w) = Normal b)
  /\ (exists b : bool, fst (Store.recargarDesdePersistencia w) = Normal b)
  /\ (forall v, fst (Store.suscribirse (Store.NoFuncion v) w)
                = Lanza "El callback debe ser una función")
  /\ (forall f, fst (Store.suscribirse (Store.EsFuncion f) w) = Normal f).
Proof.
  assert (Hr : forall (m : M Σ bool) (h : string -> M Σ bool),
             (forall e w', exists b : bool, fst (h e w') = Normal b) ->
             exists b : bool, fst (try_catch m h w) = Normal b).
  { intros m h Hh. unfold try_catch.
    destruct (m w) as [[b|e] w']; simpl; [eauto|apply Hh]. }
  repeat split.
  - intros a. apply Hr. intros e w'. simpl. eauto.
  - intros ident. apply Hr. intros e w'. simpl. eauto.
  - apply Hr. intros e w'. simpl. eauto.
  - apply Hr. intros e w'. simpl. eauto.
Qed.


(** C4.  For every template with one of title, message, hashtag or category
    missing (empty, absent, or falsy in any other way), [agregarPlantilla]
    returns [false], and the collection, the whole state of the Store and
    its subscribers are as before: only the console has one more line. *)
Theorem agregarPlantilla_incompleta_rechazada w t :
  truthy (titulo t) = false \/ truthy (mensaje t) = false
  \/ truthy (hashtag t) = false \/ truthy (categoria t) = false ->
  let r := Store.agregarPlantilla (Store.EsTemplate t) w in
  fst r = Normal false
  /\ Store.plantillas (snd r) = Store.plantillas w
  /\ fijo (snd r) = fijo w
  /\ llamadas (snd r) = llamadas w
  /\ exterior (snd r) = exterior w.
Proof.
  intros H.
  assert (Hv : truthy (esValida t) = false).
  { rewrite truthy_esValida.
    destruct H as [H|[H|[H|H]]]; rewrite H;
      rewrite ?andb_false_r; reflexivity. }
  destruct (agregarPlantilla_rechazada w (Store.EsTemplate t) Hv) as (msg & He).
  simpl. rewrite He. simpl. repeat split; reflexivity.
Qed.



(** C9.  After every sequence of operations of the page, [getPlantillas]
    returns a new array, not the one the Store keeps, with the templates of
    the collection; and whatever the page then does to an array
    [getPlantillas] returned to it (appending, removing, any change of the
    array), the collection that a later [getPlantillas] returns and the
    statistics of [getEstadisticas] are as before the change. *)
Theorem getPlantillas_copia_defensiva reloj aleatorio almacen sink (σ : Σ)
    (ops : list (operacion Σ)) :
  let s := ejecutar ops (sesion_inicial reloj aleatorio almacen sink σ) in
  (exists l w1,
      Store.getPlantillas (mundo s) = (Normal l, w1)
      /\ Store.arreglo_en l w1 = Store.plantillas (mundo s)
      /\ l <> st_plantillas w1
      /\ devueltos (paso s OpGetPlantillas) = (devueltos s ++ [l])%list)
  /\ (forall k f,
       let s' := paso s (OpCambiarArreglo k f) in
       Store.plantillas (mundo s') = Store.plantillas (mundo s)
       /\ (exists l w1,
             Store.getPlantillas (mundo s') = (Normal l, w1)
             /\ Store.arreglo_en l w1 = Store.plantillas (mundo s))
       /\ fst (Store.getEstadisticas (mundo s'))
          = fst (Store.getEstadisticas (mundo s))).
Proof.
  intros s.
  assert (Hok : sesion_ok s).
  { apply ejecutar_ok, sesion_inicial_ok. }
  split.
  - destruct (getPlantillas_copia (mundo s) Hok)
      as (l & w1 & Hg & Ha & Hne & He & _).
    exists l, w1. split; [exact Hg|]. split; [exact Ha|]. split; [exact Hne|].
    unfold devueltos, paso. cbn [ejecutar_operacion mundo].
    rewrite correr_bind. unfold leer at 1. reducir.
    rewrite correr_bind, Hg. reducir. exact He.
  - intros k f s'.
    assert (Hok' : sesion_ok s') by (apply paso_ok; exact Hok).
    assert (Hps : Store.plantillas (mundo s') = Store.plantillas (mundo s)).
    { subst s'. unfold paso. cbn [ejecutar_operacion mundo].
      rewrite correr_bind. unfold modificar at 1. reducir.
      destruct (entregados (mundo s) !! k) as [l|] eqn:Hk; [|reflexivity].
      destruct Hok as (_ & Hdev & _).
      destruct (proj1 (Forall_lookup _ _) Hdev k l Hk) as [Hl1 Hl2].
      apply plantillas_cambiar_arreglo. exact Hl2. }
    split; [exact Hps|]. split.
    + destruct (getPlantillas_copia (mundo s') Hok')
        as (l & w1 & Hg & Ha & _).
      exists l, w1. split; [exact Hg|]. rewrite Ha. exact Hps.
    + apply getEstadisticas_igual; [exact Hps| | |];
        subst s'; unfold paso; cbn [ejecutar_operacion mundo];
        rewrite correr_bind; unfold modificar at 1; reducir;
        destruct (entregados (mundo s) !! k); reflexivity.
Qed.

Lemma envelope_de_vacio : envelope_de "" = None.
Proof. reflexivity. Qed.

Lemma con_texto_envelope (o : option string) :
  con_texto o ≫= envelope_de = o ≫= envelope_de.
Proof.
  destruct o as [s0|]; simpl; [|reflexivity].
  destruct (String.eqb s0 "") eqn:E; [|reflexivity].
  apply String.eqb_eq in E. subst s0. reflexivity.
Qed.

(** What [cargarPlantillas] falls back on: the templates of the backup slot
    when it holds a valid envelope, the default pair otherwise. *)
Definition del_respaldo_o_predeterminadas (m : gmap string string)
    (ps : list Template) : Prop :=
  match m !! Persistence.BACKUP_KEY ≫= envelope_de with
  | Some v => plantillas_de v ps
  | None => son_predeterminadas ps
  end.

Lemma cargadas_texto (m : gmap string string) (s0 : string)
    (ps : list Template) :
  m !! Persistence.STORAGE_KEY = Some s0 -> s0 <> "" ->
  cargadas m ps ->
  match envelope_de s0 with
  | Some v => plantillas_de v ps
  | None => del_respaldo_o_predeterminadas m ps
  end.
Proof.
  intros Hs Hne Hps. unfold cargadas in Hps. rewrite Hs in Hps.
  unfold con_texto in Hps. apply String.eqb_neq in Hne. rewrite Hne in Hps.
  destruct (envelope_de s0); [exact Hps|].
  unfold recuperadas in Hps. rewrite con_texto_envelope in Hps. exact Hps.
Qed.

Lemma cargarPlantillas_recupera w s0 :
  localStorage w !! Persistence.STORAGE_KEY = Some s0 ->
  s0 <> "" -> envelope_de s0 = None ->
  exists ps w',
    Persistence.cargarPlantillas w = (Normal ps, w')
    /\ del_respaldo_o_predeterminadas (localStorage w) ps
    /\ estable w' = estable w.
Proof.
  intros Hs Hne Henv.
  destruct (hoare_corre _ _ _ w (hoare_cargarPlantillas w) eq_refl)
    as (ps & w' & Hc & Hw' & Hps & _).
  exists ps, w'. split; [exact Hc|]. split; [|exact Hw'].
  pose proof (cargadas_texto _ _ _ Hs Hne Hps) as H.
  rewrite Henv in H. exact H.
Qed.


(** C7 (as amended).  For every non-empty text in the primary slot that is
    not JSON or does not pass the validation of the envelope,
    [cargarPlantillas] does not throw: it returns the templates
    deserialized from the backup slot when the backup slot holds a valid
    envelope, and the fixed pair of default templates otherwise.  (An empty
    text in the primary slot counts as no data, and gives the default pair
    whatever the backup holds.) *)
Theorem cargarPlantillas_primario_corrupto w s0 :
  localStorage w !! Persistence.STORAGE_KEY = Some s0 ->
  s0 <> "" ->
  JSON_parse s0 = None
  \/ (exists v, JSON_parse s0 = Some v /\ estructura_valida v = false) ->
  exists ps w',
    Persistence.cargarPlantillas w = (Normal ps, w')
    /\ del_respaldo_o_predeterminadas (localStorage w) ps
    /\ estable w' = estable w.
Proof.
  intros Hs Hne Hbad.
  apply (cargarPlantillas_recupera w s0 Hs Hne).
  unfold envelope_de.
  destruct Hbad as [H|(v & H & Hv)]; rewrite H; [reflexivity|].
  rewrite Hv. reflexivity.
Qed.


Lemma buscar_poner_otro k k' x (cs : list (string * jsval)) :
  k <> k' -> buscar_campo k (poner_campo k' x cs) = buscar_campo k cs.
Proof.
  intros Hk. apply String.eqb_neq in Hk.
  induction cs as [|[k0 v0] r IH]; simpl.
  - rewrite Hk. reflexivity.
  - destruct (String.eqb k' k0) eqn:E; simpl.
    + apply String.eqb_eq in E. subst k0. rewrite Hk. reflexivity.
    + rewrite IH. reflexivity.
Qed.


End Claims.

(** * Further properties *)

(** ** The Store *)

Section MasStore.
Context {Pl : Plataforma} {Σ : Type}.
Implicit Types (w : Mundo Σ) (t : Template).
#[local] Arguments estricto_igual : simpl never.

(** X1.  When the subscribers call neither the Store nor the storage,
    [limpiarTodas] returns [true] and leaves the collection empty; the
    subscribers and the storage stay as they were, and every subscriber is
    called once, in order, with an event [TODAS_ELIMINADAS] that carries
    the number of templates there were.  Called again, it returns [true]
    again and reports 0. *)
Theorem limpiarTodas_deja_vacio w :
  Forall callado (_suscriptores w) ->
  exists ev w',
    Store.limpiarTodas w = (Normal true, w')
    /\ Store.plantillas w' = []
    /\ _suscriptores w' = _suscriptores w
    /\ localStorage w' = localStorage w
    /\ tipo ev = "TODAS_ELIMINADAS"
    /\ datos ev = DatosTodasEliminadas (length (Store.plantillas w))
    /\ llamadas w' = (llamadas w ++ llamadas_de ev (_suscriptores w))%list
    /\ exterior w' = exterior_tras ev (_suscriptores w) (exterior w)
    /\ exists ev' w'',
         Store.limpiarTodas w' = (Normal true, w'')
         /\ Store.plantillas w'' = []
         /\ datos ev' = DatosTodasEliminadas 0
         /\ llamadas w''
            = (llamadas w' ++ llamadas_de ev' (_suscriptores w))%list.
Proof.
  intros Hq0. pose proof (callados_sosegados _ Hq0) as Hq.
  destruct (limpiarTodas_efecto w Hq) as (w' & Hl & Hm).
  pose proof (plantillas_tras_mutacion _ _ _ _ _ Hm) as Hp.
  destruct Hm as (_ & _ & _ & Hs & Hls & _ & ev & Htp & Hdt & _ & Hll & Hx).
  exists ev, w'. repeat (split; [assumption|]).
  rewrite <- Hs in Hq.
  destruct (limpiarTodas_efecto w' Hq) as (w'' & Hl' & Hm').
  pose proof (plantillas_tras_mutacion _ _ _ _ _ Hm') as Hp'.
  destruct Hm' as (_ & _ & _ & _ & _ & _ & ev' & _ & Hdt' & _ & Hll' & _).
  exists ev', w''. rewrite Hp in Hdt'. rewrite Hs in Hll'.
  repeat (split; [assumption|]). exact Hll'.
Qed.

(** X2.  [reset] empties the collection and, unlike [limpiarTodas], calls
    no subscriber: the subscribers stay subscribed, nothing is notified and
    the storage is not touched. *)
Theorem reset_no_notifica w :
  exists w',
    Store.reset w = (Normal tt, w')
    /\ Store.plantillas w' = []
    /\ _suscriptores w' = _suscriptores w
    /\ llamadas w' = llamadas w
    /\ exterior w' = exterior w
    /\ localStorage w' = localStorage w.
Proof.
  eexists. split; [reflexivity|]. simpl.
  split; [|repeat split].
  unfold Store.plantillas, Store.arreglo_en. simpl.
  apply arreglo_en_nuevo.
Qed.

Lemma quitar_primero_ausente (k : nat) (l : list (Suscriptor Σ)) :
  Forall (fun g => sus_id g <> k) l -> Store.quitar_primero k l = l.
Proof.
  induction 1 as [|g l Hg _ IH]; simpl; [reflexivity|].
  apply Nat.eqb_neq in Hg. rewrite Hg, IH. reflexivity.
Qed.

Lemma quitar_primero_final (f : Suscriptor Σ) (l : list (Suscriptor Σ)) :
  Forall (fun g => sus_id g <> sus_id f) l ->
  Store.quitar_primero (sus_id f) (l ++ [f]) = l.
Proof.
  induction 1 as [|g l Hg _ IH]; simpl.
  - rewrite Nat.eqb_refl. reflexivity.
  - apply Nat.eqb_neq in Hg. rewrite Hg, IH. reflexivity.
Qed.

(** X3.  Subscribing a callback that was not subscribed and then calling
    the function [suscribirse] returned gives back the list of subscribers
    there was; calling that function a second time changes nothing. *)
Theorem suscribirse_y_cancelar w (f : Suscriptor Σ) :
  Forall (fun g => sus_id g <> sus_id f) (_suscriptores w) ->
  exists g w1,
    Store.suscribirse (Store.EsFuncion f) w = (Normal g, w1)
    /\ _suscriptores w1 = (_suscriptores w ++ [f])%list
    /\ _suscriptores (snd (Store.cancelar g w1)) = _suscriptores w
    /\ _suscriptores (snd (Store.cancelar g (snd (Store.cancelar g w1))))
       = _suscriptores w.
Proof.
  intros H. exists f. eexists. split; [reflexivity|]. simpl.
  split; [reflexivity|].
  rewrite (quitar_primero_final f _ H).
  split; [reflexivity|]. apply quitar_primero_ausente. exact H.
Qed.

(** X4.  A callback subscribed twice is in the list twice and, when the
    callbacks call neither the Store nor the storage and the categories
    can be made names of properties, is called twice for every
    notification, after the subscribers there were; one call of the
    function [suscribirse] returned removes one of the two. *)
Theorem suscriptor_repetido w (f : Suscriptor Σ) (tp : string)
    (dt : DatosEvento) :
  Forall callado (_suscriptores w) -> callado f ->
  forallb categoria_convertible (Store.plantillas w) = true ->
  let w2 := snd (Store.suscribirse (Store.EsFuncion f)
                   (snd (Store.suscribirse (Store.EsFuncion f) w))) in
  _suscriptores w2 = (_suscriptores w ++ [f; f])%list
  /\ (exists ev w',
        Store._notificarCambios tp dt w2 = (Normal tt, w')
        /\ tipo ev = tp /\ datos ev = dt
        /\ llamadas w'
           = (llamadas w ++ llamadas_de ev (_suscriptores w)
              ++ [(sus_id f, ev); (sus_id f, ev)])%list)
  /\ (Forall (fun g => sus_id g <> sus_id f) (_suscriptores w) ->
      _suscriptores (snd (Store.cancelar f w2)) = (_suscriptores w ++ [f])%list).
Proof.
  intros Hq Hf Hc w2.
  assert (Hs : _suscriptores w2 = (_suscriptores w ++ [f; f])%list).
  { subst w2. simpl. rewrite <- app_assoc. reflexivity. }
  split; [exact Hs|]. split.
  - destruct (_notificarCambios_efecto tp dt w2)
      as (ev & w' & Hn & Htp & Hdt & _ & _ & Hll & _).
    { rewrite Hs. apply callados_sosegados.
      apply Forall_app. split; [exact Hq|]. repeat constructor; exact Hf. }
    { exact Hc. }
    exists ev, w'. split; [exact Hn|]. split; [exact Htp|].
    split; [exact Hdt|].
    rewrite Hll, Hs. unfold llamadas_de. rewrite map_app. reflexivity.
  - intros H. simpl. clear Hs w2 Hq.
    induction H as [|g l Hg _ IH]; simpl.
    + rewrite Nat.eqb_refl. reflexivity.
    + apply Nat.eqb_neq in Hg. rewrite Hg. f_equal. exact IH.
Qed.

Lemma find_no_numero (v : jsval) (ps : list Template) :
  (forall n, v <> JNum n) -> find (tiene_id v) ps = None.
Proof.
  intros Hv. induction ps as [|p r IH]; simpl; [reflexivity|].
  unfold tiene_id at 1, estricto_igual.
  destruct v; try exact IH. destruct (Hv n eq_refl).
Qed.

(** X5.  The identifiers of the templates are numbers and are compared
    with [===]: for an argument that is not a number (a string with the
    digits of the identifier, as a handler written into HTML passes it)
    [getPlantillaPorId] finds nothing, and [eliminarPlantilla] returns
    [false], removes nothing and notifies nobody. *)
Theorem identificador_que_no_es_numero w (v : jsval) :
  (forall n, v <> JNum n) ->
  fst (Store.getPlantillaPorId v w) = Normal None
  /\ fst (Store.eliminarPlantilla v w) = Normal false
  /\ Store.plantillas (snd (Store.eliminarPlantilla v w)) = Store.plantillas w
  /\ llamadas (snd (Store.eliminarPlantilla v w)) = llamadas w.
Proof.
  intros Hv.
  pose proof (find_no_numero v (Store.plantillas w) Hv) as Hf.
  split.
  - unfold Store.getPlantillaPorId, leer. simpl.
    change (find _ (Store.plantillas w)) with
      (find (tiene_id v) (Store.plantillas w)).
    rewrite Hf. reflexivity.
  - rewrite (eliminarPlantilla_ausente w v Hf). simpl. auto.
Qed.

End MasStore.

Section MasStore2.
Context {Pl : Plataforma} {Σ : Type}.
Implicit Types (w : Mundo Σ) (t : Template).
#[local] Arguments estricto_igual : simpl never.

(** The number a histogram holds for a name (0 when it holds none), and
    the sum of its numbers. *)
Definition veces (x : conteo) : N :=
  match x with Veces n => n | Texto _ => 0%N end.

Fixpoint cuenta (k : string) (h : list (string * conteo)) : N :=
  match h with
  | [] => 0
  | (k', x) :: r => if String.eqb k k' then veces x else cuenta k r
  end.

Fixpoint suma (h : list (string * conteo)) : N :=
  match h with
  | [] => 0
  | (_, x) :: r => veces x + suma r
  end.

(** A name that [Object.prototype] holds nothing under. *)
Definition nombre_llano (k : string) : bool :=
  negb (String.eqb k "__proto__")
  && match Object_prototype k with Some _ => false | None => true end.

(** A template whose category is made the name of a property, one that
    [Object.prototype] holds nothing under: a category such as
    [constructor] or [__proto__] is not counted as a number. *)
Definition categoria_llana t : bool :=
  match a_cadena (categoria t) with
  | Some k => nombre_llano k
  | None => false
  end.

(** The templates filed under a name. *)
Definition de_categoria (k : string) (ps : list Template) : list Template :=
  List.filter (fun t => bool_decide (a_cadena (categoria t) = Some k)) ps.

Definition todas_veces (h : list (string * conteo)) : Prop :=
  Forall (fun kx => exists n, snd kx = Veces n) h.

Lemma cuenta_sin_clave k (h : list (string * conteo)) :
  Persistence.tiene_clave k h = false -> cuenta k h = 0%N.
Proof.
  induction h as [|[k0 x] r IH]; simpl; [reflexivity|].
  destruct (String.eqb k k0); simpl; [discriminate|exact IH].
Qed.

Lemma cuenta_final k k' x (h : list (string * conteo)) :
  cuenta k (h ++ [(k', x)])
  = if Persistence.tiene_clave k h then cuenta k h
    else if String.eqb k k' then veces x else 0%N.
Proof.
  induction h as [|[k0 y] r IH]; simpl; [reflexivity|].
  destruct (String.eqb k k0); simpl; [reflexivity|exact IH].
Qed.

Lemma suma_final k x (h : list (string * conteo)) :
  suma (h ++ [(k, x)]) = (suma h + veces x)%N.
Proof.
  induction h as [|[k0 y] r IH]; simpl; [lia|]. rewrite IH. lia.
Qed.

Lemma cuenta_cambiar_propia k k' (h : list (string * conteo)) :
  todas_veces h -> Persistence.tiene_clave k' h = true ->
  cuenta k (Persistence.cambiar_propia k' h)
  = (cuenta k h + if String.eqb k k' then 1 else 0)%N
  /\ suma (Persistence.cambiar_propia k' h) = (suma h + 1)%N
  /\ todas_veces (Persistence.cambiar_propia k' h).
Proof.
  induction 1 as [|[k0 x] r [n Hx] Hr IH]; simpl; [discriminate|].
  simpl in Hx. subst x. intros Ht.
  destruct (String.eqb k' k0) eqn:E0; simpl.
  - apply String.eqb_eq in E0. subst k0.
    split; [|split].
    + destruct (String.eqb k k'); [reflexivity|]. lia.
    + lia.
    + constructor; [simpl; eauto|exact Hr].
  - simpl in Ht. destruct (IH Ht) as (I1 & I2 & I3).
    split; [|split].
    + destruct (String.eqb k k0) eqn:E1; [|exact I1].
      apply String.eqb_eq in E1. subst k0.
      rewrite String.eqb_sym in E0. rewrite E0. lia.
    + rewrite I2. lia.
    + constructor; [simpl; eauto|exact I3].
Qed.

Lemma cuenta_incrementar k k' (h : list (string * conteo)) :
  todas_veces h -> nombre_llano k' = true ->
  cuenta k (Persistence.incrementar k' h)
  = (cuenta k h + if String.eqb k k' then 1 else 0)%N
  /\ suma (Persistence.incrementar k' h) = (suma h + 1)%N
  /\ todas_veces (Persistence.incrementar k' h).
Proof.
  intros Hh Hk. unfold Persistence.incrementar.
  destruct (Persistence.tiene_clave k' h) eqn:Ht.
  - apply cuenta_cambiar_propia; assumption.
  - unfold nombre_llano in Hk. apply andb_prop in Hk. destruct Hk as [H1 H2].
    apply negb_true_iff in H1. rewrite H1.
    destruct (Object_prototype k'); [discriminate H2|].
    split; [|split].
    + rewrite cuenta_final.
      destruct (String.eqb k k') eqn:E.
      * apply String.eqb_eq in E. subst k'. rewrite Ht.
        rewrite (cuenta_sin_clave _ _ Ht). reflexivity.
      * destruct (Persistence.tiene_clave k h) eqn:Ht'; [lia|].
        rewrite (cuenta_sin_clave _ _ Ht'). reflexivity.
    + rewrite suma_final. reflexivity.
    + apply Forall_app. split; [exact Hh|]. repeat constructor. simpl. eauto.
Qed.

Lemma contar_puro_cuenta (ps : list Template) :
  forallb categoria_llana ps = true ->
  forall h, todas_veces h ->
    exists h',
      contar_puro ps h = Some h'
      /\ (forall k, cuenta k h'
                    = (cuenta k h + N.of_nat (length (de_categoria k ps)))%N)
      /\ suma h' = (suma h + N.of_nat (length ps))%N.
Proof.
  induction ps as [|t r IH]; intros Hl h Hh.
  - exists h. split; [reflexivity|]. split; [intros k|]; simpl; lia.
  - simpl in Hl. apply andb_prop in Hl. destruct Hl as [Ht Hr].
    unfold categoria_llana in Ht. cbn [contar_puro].
    destruct (a_cadena (categoria t)) as [k'|] eqn:Ek; [|discriminate Ht].
    destruct (cuenta_incrementar k' k' h Hh Ht) as (_ & _ & Hh').
    destruct (IH Hr _ Hh') as (h' & E & Hc & Hs).
    exists h'. split; [exact E|]. split.
    + intros k. rewrite Hc.
      destruct (cuenta_incrementar k k' h Hh Ht) as (-> & _ & _).
      unfold de_categoria. cbn [List.filter]. rewrite Ek.
      destruct (String.eqb k k') eqn:E1.
      * apply String.eqb_eq in E1. subst k'.
        rewrite bool_decide_eq_true_2 by reflexivity. simpl length. lia.
      * rewrite bool_decide_eq_false_2; [lia|].
        intros Heq. injection Heq as ->. rewrite String.eqb_refl in E1.
        discriminate E1.
    + rewrite Hs.
      destruct (cuenta_incrementar k' k' h Hh Ht) as (_ & -> & _).
      simpl length. lia.
Qed.

(** X6.  When the category of every template is made a name that
    [Object.prototype] holds nothing under, [getEstadisticas] returns, and
    changes nothing: [total] is the number of templates, [estaVacio] says
    whether there is none, the count of every category is the number of
    templates of that category, the counts add up to [total], and no
    category is listed twice.  When some category cannot be made the name
    of a property, [getEstadisticas] throws. *)
Theorem getEstadisticas_cuenta w :
  (forallb categoria_llana (Store.plantillas w) = true ->
   exists e,
     Store.getEstadisticas w = (Normal e, w)
     /\ total e = length (Store.plantillas w)
     /\ (estaVacio e = true <-> Store.plantillas w = [])
     /\ (forall k,
           cuenta k (categorias e)
           = N.of_nat (length (de_categoria k (Store.plantillas w))))
     /\ suma (categorias e) = N.of_nat (total e)
     /\ NoDup (map fst (categorias e)))
  /\ (forallb categoria_convertible (Store.plantillas w) = false ->
      Store.getEstadisticas w
      = (Lanza "Cannot convert object to primitive value", w)).
Proof.
  split; [|apply getEstadisticas_inconvertible].
  intros Hl.
  destruct (contar_puro_cuenta _ Hl [] ltac:(constructor))
    as (h & Eh & Hc & Hs).
  assert (Hconv : forallb categoria_convertible (Store.plantillas w) = true).
  { apply forallb_forall. intros t Ht.
    rewrite forallb_forall in Hl. specialize (Hl t Ht).
    unfold categoria_llana in Hl. unfold categoria_convertible.
    destruct (a_cadena (categoria t)); [reflexivity|discriminate Hl]. }
  destruct (getEstadisticas_convertibles w Hconv) as (e & He & Ht & Hv & Hcat).
  rewrite Eh in Hcat. injection Hcat as Hcat.
  exists e. split; [exact He|]. split; [exact Ht|]. split.
  { rewrite Hv. destruct (Store.plantillas w); simpl; split; congruence. }
  rewrite <- Hcat, Ht. split; [exact Hc|]. split; [exact Hs|].
  apply (contar_puro_NoDup (Store.plantillas w) [] h); [constructor|exact Eh].
Qed.

(** X8.  In every state the page can reach by the calls of [operacion]
    (the mutations of the Store, [getPlantillas], subscriptions, changes of
    the arrays handed out, the save, load and reset of Persistence and
    writes to the storage), whatever the callbacks do, every template of
    the collection has its four required fields truthy, so that
    [getEstadoLocal] does not fail on it, and no array handed out by
    [getPlantillas] is the array of the Store. *)
Theorem plantillas_siempre_validas reloj aleatorio almacen sink (σ : Σ)
    (ops : list (operacion Σ)) :
  let s := ejecutar ops (sesion_inicial reloj aleatorio almacen sink σ) in
  Forall (fun t => truthy (titulo t) = true /\ truthy (mensaje t) = true
                   /\ truthy (hashtag t) = true /\ truthy (categoria t) = true
                   /\ is_Some (getEstadoLocal t))
    (Store.plantillas (mundo s))
  /\ Forall (fun l => l <> st_plantillas (mundo s)) (devueltos s).
Proof.
  intros s.
  destruct (ejecutar_ok ops _ (sesion_inicial_ok reloj aleatorio almacen sink σ))
    as (_ & Hd & Hv).
  fold s in Hd, Hv. split.
  - eapply Forall_impl; [exact Hv|]. intros t Ht.
    pose proof (getEstadoLocal_valida t Ht) as Hl.
    unfold plantilla_valida in Ht. rewrite truthy_esValida in Ht.
    repeat (apply andb_prop in Ht; destruct Ht as [Ht ?]). auto.
  - eapply Forall_impl; [exact Hd|]. intros l [_ Hl]. exact Hl.
Qed.

Lemma find_final (x : jsval) (ps : list Template) t :
  Forall (fun p => tiene_id x p = false) ps -> tiene_id x t = true ->
  find (tiene_id x) (ps ++ [t]) = Some t
  /\ List.filter (fun p => negb (tiene_id x p)) (ps ++ [t]) = ps.
Proof.
  intros H Ht. induction H as [|p r Hp _ [IH1 IH2]]; simpl.
  - rewrite Ht. auto.
  - rewrite Hp. simpl. rewrite IH2. auto.
Qed.

(** X9.  When the subscribers call neither the Store nor the storage and
    the categories can be made names of properties: adding a valid template
    whose identifier no template of the collection has, and removing it by
    its identifier, gives back the collection there was;
    [agregarPlantilla] and [eliminarPlantilla] both return [true],
    [getPlantillaPorId] finds the template in between and nothing
    afterwards. *)
Theorem agregar_y_eliminar w t :
  truthy (esValida t) = true ->
  Forall (fun p => id p <> id t) (Store.plantillas w) ->
  Forall callado (_suscriptores w) ->
  forallb categoria_convertible (Store.plantillas w ++ [t]) = true ->
  exists w1 w2,
    Store.agregarPlantilla (Store.EsTemplate t) w = (Normal true, w1)
    /\ Store.plantillas w1 = (Store.plantillas w ++ [t])%list
    /\ fst (Store.getPlantillaPorId (JNum (id t)) w1) = Normal (Some t)
    /\ Store.eliminarPlantilla (JNum (id t)) w1 = (Normal true, w2)
    /\ Store.plantillas w2 = Store.plantillas w
    /\ fst (Store.getPlantillaPorId (JNum (id t)) w2) = Normal None.
Proof.
  intros Hv Hid Hq0 Hc. pose proof (callados_sosegados _ Hq0) as Hq.
  destruct (agregarPlantilla_valida w t Hv Hq Hc) as (w1 & Ha & Hm).
  pose proof (plantillas_tras_mutacion _ _ _ _ _ Hm) as Hp1.
  assert (Hs1 : _suscriptores w1 = _suscriptores w) by apply Hm.
  assert (Hno : Forall (fun p => tiene_id (JNum (id t)) p = false)
                  (Store.plantillas w)).
  { eapply Forall_impl; [exact Hid|]. intros p Hp.
    unfold tiene_id, estricto_igual. apply bool_decide_eq_false. exact Hp. }
  assert (Hsi : tiene_id (JNum (id t)) t = true).
  { unfold tiene_id, estricto_igual. apply bool_decide_eq_true. reflexivity. }
  destruct (find_final _ _ _ Hno Hsi) as [Hf Hfil].
  rewrite <- Hp1 in Hf, Hfil.
  destruct (eliminarPlantilla_presente w1 _ t Hf) as (w2 & He & Hm2).
  { rewrite Hs1. exact Hq. }
  { rewrite Hfil. rewrite forallb_app in Hc. apply andb_prop in Hc. apply Hc. }
  cbv zeta in Hm2. rewrite Hfil in Hm2.
  pose proof (plantillas_tras_mutacion _ _ _ _ _ Hm2) as Hp2.
  destruct (getEstadoLocal_valida t Hv) as [el Hel]. rewrite Hel in He.
  exists w1, w2. split; [exact Ha|]. split; [exact Hp1|]. split.
  { unfold Store.getPlantillaPorId, leer. simpl.
    change (find _ (Store.plantillas w1)) with
      (find (tiene_id (JNum (id t))) (Store.plantillas w1)).
    rewrite Hf. reflexivity. }
  split; [exact He|]. split; [exact Hp2|].
  unfold Store.getPlantillaPorId, leer. simpl. rewrite Hp2.
  change (find _ (Store.plantillas w)) with
    (find (tiene_id (JNum (id t))) (Store.plantillas w)).
  clear -Hno. induction Hno as [|p r Hp _ IH]; simpl; [reflexivity|].
  rewrite Hp. exact IH.
Qed.

End MasStore2.

(** ** The helper functions of the Store *)

Section MasAyudantes.
Context {Pl : Plataforma} {Σ : Type}.
Implicit Types (w : Mundo Σ) (t : Template).
#[local] Arguments estricto_igual : simpl never.

(** X10.  [crearYAgregarPlantilla] does not throw.  With an argument that
    is falsy it returns [false], the collection is unchanged and nobody is
    notified.  With four truthy arguments it appends one template to the
    collection: the four arguments, the date of the clock and the
    identifier made of the next reading of the clock and of [Math.random];
    it then returns [true] when the subscribers call neither the Store nor
    the storage and the categories of the new collection can be made names
    of properties. *)
Theorem crearYAgregarPlantilla_efecto w (a b c d : jsval) :
  let completos := truthy a && truthy b && truthy c && truthy d in
  let nueva :=
    mkTemplate a b c d
      (Some (Z.of_N (N.min (instante w (lecturas_reloj w))
                       (Z.to_N tiempo_maximo))))
      (num_ahora_mas_azar
         (N.min (instante w (S (lecturas_reloj w))) (Z.to_N tiempo_maximo))
         (azar w (lecturas_azar w))) in
  (exists bo : bool, fst (crearYAgregarPlantilla a b c d w) = Normal bo)
  /\ (completos = false ->
      fst (crearYAgregarPlantilla a b c d w) = Normal false
      /\ Store.plantillas (snd (crearYAgregarPlantilla a b c d w))
         = Store.plantillas w
      /\ llamadas (snd (crearYAgregarPlantilla a b c d w)) = llamadas w)
  /\ (completos = true ->
      Forall callado (_suscriptores w) ->
      forallb categoria_convertible (Store.plantillas w ++ [nueva]) = true ->
      fst (crearYAgregarPlantilla a b c d w) = Normal true
      /\ Store.plantillas (snd (crearYAgregarPlantilla a b c d w))
         = (Store.plantillas w ++ [nueva])%list).
Proof.
  intros completos nueva.
  split.
  { unfold crearYAgregarPlantilla. apply retorna_try_catch.
    intros e w0. simpl. eauto. }
  unfold crearYAgregarPlantilla.
  rewrite correr_try_catch, correr_bind.
  set (w0 := con_lecturas_azar (S (lecturas_azar w))
               (con_lecturas_reloj (S (S (lecturas_reloj w))) w)).
  assert (Hn : Template_new a b c d None w = (Normal nueva, w0)) by reflexivity.
  rewrite Hn.
  assert (Hv : truthy (esValida nueva) = completos).
  { rewrite truthy_esValida. reflexivity. }
  split.
  - intros Hc. rewrite Hc in Hv.
    destruct (agregarPlantilla_rechazada w0 (Store.EsTemplate nueva) Hv)
      as (msg & Ha).
    rewrite Ha. simpl. auto.
  - intros Hc Hq0 Hconv. rewrite Hc in Hv.
    destruct (agregarPlantilla_valida w0 nueva Hv) as (w' & Ha & Hm).
    { apply callados_sosegados. exact Hq0. }
    { exact Hconv. }
    rewrite Ha. simpl. split; [reflexivity|].
    exact (plantillas_tras_mutacion _ _ _ _ _ Hm).
Qed.

(** X11.  [storeEstaVacio] changes nothing.  When the categories can be
    made names of properties it returns, whatever the storage holds,
    whether the collection is empty; when some category cannot, it
    throws. *)
Theorem storeEstaVacio_efecto w :
  (forallb categoria_convertible (Store.plantillas w) = true ->
   exists b,
     storeEstaVacio w = (Normal b, w)
     /\ (b = true <-> Store.plantillas w = []))
  /\ (forallb categoria_convertible (Store.plantillas w) = false ->
      storeEstaVacio w
      = (Lanza "Cannot convert object to primitive value", w)).
Proof.
  unfold storeEstaVacio. split.
  - intros Hc.
    destruct (getEstadisticas_convertibles w Hc) as (e & He & _ & Hv & _).
    rewrite correr_bind, He. reducir.
    eexists. split; [reflexivity|]. rewrite Hv.
    destruct (Store.plantillas w); simpl; split; congruence.
  - intros Hc. rewrite correr_bind, (getEstadisticas_inconvertible w Hc).
    reflexivity.
Qed.

End MasAyudantes.

Section MasBuscar.
Context {Pl : Plataforma} {Σ : Type}.
Context (toLowerCase : string -> string).
Implicit Types (w : Mundo Σ) (t : Template).
#[local] Arguments estricto_igual : simpl never.

(** Whether a template is found under [criterio] for the text [v]. *)
Definition coincide (criterio v : string) t : bool :=
  match Store.campo_texto criterio t with
  | Some valorCampo => incluye (toLowerCase valorCampo) (toLowerCase v)
  | None => false
  end.

Lemma filterM_puro {A : Type} (f : A -> M Σ bool) (g : A -> bool)
    (l : list A) :
  (forall x w, f x w = (Normal (g x), w)) ->
  forall w, filterM f l w = (Normal (List.filter g l), w).
Proof.
  intros H. induction l as [|x r IH]; intros w; [reflexivity|].
  cbn [filterM List.filter]. rewrite correr_bind, H, correr_bind, IH.
  destruct (g x); reflexivity.
Qed.

(** X12.  [buscarPlantillas] with a falsy [valor] or [criterio] is
    [getPlantillas].  With a non-empty string [valor] and a truthy
    [criterio] that can be made the name of a property, it returns a new
    array, the templates of the collection, in their order, whose field
    [criterio] is a string that includes [valor], both in lower case; the
    collection is not changed and nobody is notified.  The identifier and
    the creation date are not strings: under [id] or [fechaCreacion]
    nothing is found. *)
Theorem buscarPlantillas_filtra w (criterio valor : jsval) :
  (truthy valor = false \/ truthy criterio = false ->
   Store.buscarPlantillas toLowerCase criterio valor w = Store.getPlantillas w)
  /\ (forall v nombre,
      valor = JStr v -> v <> "" -> truthy criterio = true ->
      a_cadena criterio = Some nombre ->
      exists w',
        Store.buscarPlantillas toLowerCase criterio valor w
        = (Normal (length (arreglos w)), w')
        /\ arreglos w'
           = (arreglos w
              ++ [List.filter (coincide nombre v) (Store.plantillas w)])%list
        /\ st_plantillas w' = st_plantillas w
        /\ llamadas w' = llamadas w
        /\ (nombre = "id" \/ nombre = "fechaCreacion" ->
            List.filter (coincide nombre v) (Store.plantillas w) = [])).
Proof.
  split.
  - intros H. unfold Store.buscarPlantillas.
    destruct H as [H|H]; rewrite H; [reflexivity|].
    rewrite orb_true_r. reflexivity.
  - intros v nombre -> Hv Hc Hn. unfold Store.buscarPlantillas.
    replace (truthy (JStr v)) with true
      by (symmetry; simpl; apply negb_true_iff, String.eqb_neq; exact Hv).
    rewrite Hc. cbn [negb orb].
    rewrite correr_bind. unfold leer at 1. reducir. rewrite correr_bind.
    rewrite (filterM_puro _ (coincide nombre v)).
    2:{ intros t w0. unfold coincide, Persistence.a_clave.
        rewrite correr_bind, Hn. reducir.
        destruct (Store.campo_texto nombre t); reflexivity. }
    eexists. split; [reflexivity|]. simpl.
    repeat (split; [reflexivity|]).
    intros Hid.
    assert (Hno : forall t, coincide nombre v t = false).
    { intros t. unfold coincide.
      destruct Hid as [->| ->]; reflexivity. }
    induction (Store.plantillas w) as [|t r IH]; simpl; [reflexivity|].
    rewrite Hno. exact IH.
Qed.

Lemma filterM_lanza (criterio valor : jsval) (ps : list Template) w :
  (forall v, valor <> JStr v) ->
  Exists (fun t => is_Some (a_cadena criterio
                              ≫= fun nombre => Store.campo_texto nombre t)) ps ->
  filterM (fun plantilla =>
             nombre ← Persistence.a_clave criterio;
             match Store.campo_texto nombre plantilla with
             | Some valorCampo =>
                 match valor with
                 | JStr v =>
                     mret (incluye (toLowerCase valorCampo) (toLowerCase v))
                 | _ => lanzar "valor.toLowerCase is not a function"
                 end
             | None => mret false
             end) ps w
  = (Lanza "valor.toLowerCase is not a function", w).
Proof.
  intros Hv H.
  match goal with |- filterM ?f _ _ = _ => set (F := f) end.
  destruct (a_cadena criterio) as [nombre|] eqn:Hn.
  2:{ inversion H as [? ? [? Ht]|? ? Hr]; subst.
      - discriminate Ht.
      - exfalso. clear -Hr. induction Hr as [? ? [? Ht]|? ? _ IH];
          [discriminate Ht|exact IH]. }
  simpl in H.
  induction ps as [|t r IH]; [inversion H|].
  cbn [filterM]. rewrite correr_bind.
  destruct (Store.campo_texto nombre t) as [s|] eqn:Hc.
  - assert (E : F t w = (Lanza "valor.toLowerCase is not a function", w)).
    { unfold F, Persistence.a_clave. rewrite correr_bind, Hn. reducir.
      rewrite Hc. destruct valor; try reflexivity.
      destruct (Hv s0 eq_refl). }
    rewrite E. reflexivity.
  - assert (E : F t w = (Normal false, w)).
    { unfold F, Persistence.a_clave. rewrite correr_bind, Hn. reducir.
      rewrite Hc. reflexivity. }
    rewrite E, correr_bind, IH; [reflexivity|].
    inversion H as [? ? Ht|? ? Hr]; subst; [|exact Hr].
    rewrite Hc in Ht. destruct Ht as [? Ht]. discriminate Ht.
Qed.

(** X13.  [buscarPlantillas] throws to its caller, a TypeError, when
    [valor] is truthy and not a string and some template of the collection
    holds a string under [criterio]; the Store is left as it was. *)
Theorem buscarPlantillas_lanza w (criterio valor : jsval) :
  truthy valor = true -> (forall v, valor <> JStr v) ->
  truthy criterio = true ->
  Exists (fun t => is_Some (a_cadena criterio
                              ≫= fun nombre => Store.campo_texto nombre t))
    (Store.plantillas w) ->
  Store.buscarPlantillas toLowerCase criterio valor w
  = (Lanza "valor.toLowerCase is not a function", w).
Proof.
  intros Ht Hv Hc Hex. unfold Store.buscarPlantillas.
  rewrite Ht, Hc. cbn [negb orb].
  rewrite correr_bind. unfold leer at 1. reducir. rewrite correr_bind.
  rewrite (filterM_lanza _ _ _ _ Hv Hex). reflexivity.
Qed.

End MasBuscar.

(** ** Persistence *)

Section MasPersistence.
Context {Pl : Plataforma} {Σ : Type}.
Implicit Types (w : Mundo Σ) (t : Template).
#[local] Arguments estricto_igual : simpl never.

Lemma incrementar_claves k k' (acc : list (string * conteo)) :
  In k (map fst (Persistence.incrementar k' acc)) ->
  k = k' \/ In k (map fst acc).
Proof.
  unfold Persistence.incrementar.
  destruct (Persistence.tiene_clave k' acc).
  - rewrite cambiar_propia_claves. auto.
  - destruct (String.eqb k' "__proto__"); [auto|].
    destruct (Object_prototype k'); rewrite map_app, in_app_iff; simpl;
      intros [H|[H|[]]]; auto.
Qed.

Lemma contar_puro_claves (ps : list Template) k :
  forall acc h,
    contar_puro ps acc = Some h -> In k (map fst h) ->
    In k (map fst acc) \/ de_categoria k ps <> [].
Proof.
  induction ps as [|t r IH]; intros acc h E Hin.
  - injection E as <-. auto.
  - cbn [contar_puro] in E.
    destruct (a_cadena (categoria t)) as [k'|] eqn:Ek; [|discriminate E].
    unfold de_categoria. cbn [List.filter]. rewrite Ek.
    destruct (IH _ _ E Hin) as [H|H].
    + apply incrementar_claves in H. destruct H as [->|H]; [|auto].
      right. rewrite bool_decide_eq_true_2 by reflexivity. discriminate.
    + right. destruct (bool_decide (Some k' = Some k)); [discriminate|exact H].
Qed.

(** X7.  The histogram [_obtenerCategorias] computes for the envelope,
    when the category of every template is made a name that
    [Object.prototype] holds nothing under: the count of a category is the
    number of templates of that category, the counts add up to the number
    of templates, no category is listed twice and every category listed
    has a template. *)
Theorem obtenerCategorias_cuenta (ps : list Template) w :
  forallb categoria_llana ps = true ->
  exists h,
    Persistence._obtenerCategorias ps w = (Normal h, w)
    /\ (forall k, cuenta k h = N.of_nat (length (de_categoria k ps)))
    /\ suma h = N.of_nat (length ps)
    /\ NoDup (map fst h)
    /\ (forall k, In k (map fst h) -> de_categoria k ps <> []).
Proof.
  intros Hl.
  destruct (contar_puro_cuenta _ Hl [] ltac:(constructor))
    as (h & Eh & Hc & Hs).
  exists h. split.
  { unfold Persistence._obtenerCategorias.
    rewrite contar_categorias_puro, Eh. reflexivity. }
  split; [exact Hc|]. split; [exact Hs|]. split.
  - apply (contar_puro_NoDup ps [] h); [constructor|exact Eh].
  - intros k Hin. destruct (contar_puro_claves ps k [] h Eh Hin) as [[]|H].
    exact H.
Qed.

(** X14.  [cargarPlantillas] always returns a collection, whatever the
    storage holds: it does not throw, writes nothing to the storage, leaves
    the Store as it is, calls no subscriber, and every template it returns
    is valid.  With no text, or the empty text, in the primary slot it
    returns the default pair. *)
Theorem cargarPlantillas_siempre_devuelve w :
  exists ps w',
    Persistence.cargarPlantillas w = (Normal ps, w')
    /\ localStorage w' = localStorage w
    /\ Store.plantillas w' = Store.plantillas w
    /\ llamadas w' = llamadas w
    /\ Forall (fun t => truthy (esValida t) = true) ps
    /\ (con_texto (localStorage w !! Persistence.STORAGE_KEY) = None ->
        map cuatro ps = predeterminadas).
Proof.
  destruct (hoare_corre _ _ _ w (hoare_cargarPlantillas w) eq_refl)
    as (ps & w' & Hc & Hw' & Hps & Hv).
  exists ps, w'. split; [exact Hc|].
  split; [exact (Est_localStorage w w' Hw')|].
  pose proof (Est_Nucleo w w' Hw') as E. unfold Nucleo, nucleo in E.
  injection E as E1 E2 E3 E4 E5 E6 E7 E8.
  split.
  { unfold Store.plantillas, Store.arreglo_en. rewrite E1, E3. reflexivity. }
  split; [exact E7|]. split; [exact Hv|].
  intros Hn. unfold cargadas in Hps. rewrite Hn in Hps. exact Hps.
Qed.

(** *** Saving *)

Lemma serializar_estado (ps : list Template) w :
  snd (mapM Persistence._serializarPlantilla ps w) = w.
Proof.
  induction ps as [|t r IH]; [reflexivity|].
  cbn [mapM]. rewrite correr_bind.
  unfold Persistence._serializarPlantilla at 1.
  destruct (Date_toISOString (fechaCreacion t)); [|reflexivity].
  reducir. rewrite correr_bind.
  destruct (mapM Persistence._serializarPlantilla r w) as [[ss|e] w1] eqn:E;
    simpl in IH; subst w1; reflexivity.
Qed.

Lemma serializar_fecha_invalida (ps : list Template) w :
  Exists (fun t => fechaCreacion t = None) ps ->
  fst (mapM Persistence._serializarPlantilla ps w) = Lanza "Invalid time value".
Proof.
  induction 1 as [t r Ht|t r _ IH].
  - cbn [mapM]. rewrite correr_bind.
    unfold Persistence._serializarPlantilla at 1. rewrite Ht. reflexivity.
  - cbn [mapM]. rewrite correr_bind.
    unfold Persistence._serializarPlantilla at 1.
    destruct (Date_toISOString (fechaCreacion t)); [|reflexivity].
    reducir. rewrite correr_bind.
    destruct (mapM Persistence._serializarPlantilla r w) as [[ss|e] w1];
      simpl in IH; [discriminate IH|]. injection IH as ->. reflexivity.
Qed.

(** X15.  [guardarPlantillas] always returns a boolean, for every
    collection, and never changes the Store nor calls a subscriber.  When
    it returns [true] the primary slot holds a text.  When it returns
    [false] the storage is as it was, but for the backup slot, which may
    hold the text of the primary slot: the backup is made before the
    envelope is written, and stays when the storage refuses the envelope.
    A collection with a template whose creation date is the invalid date
    is not saved: it returns [false] and the storage is as it was. *)
Theorem guardarPlantillas_siempre_devuelve w (ps : list Template) :
  exists (b : bool) w',
    Persistence.guardarPlantillas ps w = (Normal b, w')
    /\ Store.plantillas w' = Store.plantillas w
    /\ _suscriptores w' = _suscriptores w
    /\ llamadas w' = llamadas w
    /\ (b = true -> is_Some (localStorage w' !! Persistence.STORAGE_KEY))
    /\ (b = false ->
        localStorage w' = localStorage w
        \/ localStorage w' = respaldado (localStorage w))
    /\ (Exists (fun t => fechaCreacion t = None) ps ->
        b = false /\ localStorage w' = localStorage w).
Proof.
  assert (Hnuc : nucleo (snd (Persistence.guardarPlantillas ps w)) = nucleo w).
  { pose proof (conserva_guardarPlantillas (nucleo w) ps w eq_refl) as H.
    destruct (Persistence.guardarPlantillas ps w) as [[b|e] w']; exact H. }
  cut (exists (b : bool) w',
         Persistence.guardarPlantillas ps w = (Normal b, w')
         /\ (b = true -> is_Some (localStorage w' !! Persistence.STORAGE_KEY))
         /\ (b = false ->
             localStorage w' = localStorage w
             \/ localStorage w' = respaldado (localStorage w))
         /\ (Exists (fun t => fechaCreacion t = None) ps ->
             b = false /\ localStorage w' = localStorage w)).
  { intros (b & w' & Hg & H). rewrite Hg in Hnuc. simpl in Hnuc.
    unfold nucleo in Hnuc. injection Hnuc as E1 E2 E3 E4 E5 E6 E7 E8.
    exists b, w'. split; [exact Hg|]. split.
    { unfold Store.plantillas, Store.arreglo_en. rewrite E1, E3. reflexivity. }
    split; [exact E6|]. split; [exact E7|exact H]. }
  clear Hnuc. unfold Persistence.guardarPlantillas.
  rewrite correr_try_catch, correr_bind.
  unfold Date_nueva at 1. rewrite correr_bind.
  unfold Date_now at 1. reducir.
  change (Some (Z.of_N (N.min (instante w (lecturas_reloj w))
                          (Z.to_N tiempo_maximo)))) with (ahora w).
  rewrite correr_bind.
  destruct (iso_valida _ (ahora_valida w)) as [Hi _]. rewrite Hi. reducir.
  rewrite correr_bind.
  set (w0 := con_lecturas_reloj (S (lecturas_reloj w)) w).
  pose proof (serializar_estado ps w0) as Hest.
  pose proof (serializar_fecha_invalida ps w0) as Hinv.
  assert (Hfalla : forall msg,
            exists w2,
              (console "error" ("❌ Error al guardar plantillas: " ++ msg);;
               Persistence._mostrarNotificacionPersistencia
                 "Error al guardar plantillas" "error";;
               mret false) w0 = (Normal false, w2)
              /\ localStorage w2 = localStorage w).
  { intros msg. rewrite correr_bind. unfold console at 1, modificar at 1.
    reducir. rewrite correr_bind.
    match goal with
    | |- context [Persistence._mostrarNotificacionPersistencia ?m ?tp ?wx] =>
        destruct (mostrarNotificacion_efecto m tp wx) as (w2 & Hn & Hl)
    end.
    rewrite Hn. reducir. exists w2. split; [reflexivity|exact Hl]. }
  destruct (mapM Persistence._serializarPlantilla ps w0) as [[ss|e] w1].
  2:{ simpl in Hest. subst w1. reducir.
      destruct (Hfalla e) as (w2 & E & Hl). reducir_en E. rewrite E.
      exists false, w2. split; [reflexivity|].
      split; [discriminate|]. split; [auto|]. auto. }
  simpl in Hest. subst w1. rewrite correr_bind.
  unfold Persistence._obtenerCategorias. rewrite contar_categorias_puro.
  destruct (contar_puro ps []) as [h|].
  2:{ reducir. destruct (Hfalla "Cannot convert object to primitive value")
        as (w2 & E & Hl). reducir_en E. rewrite E.
      exists false, w2. split; [reflexivity|].
      split; [discriminate|]. split; [auto|].
      intros Hex. specialize (Hinv Hex). discriminate Hinv. }
  cbv zeta.
  match goal with |- context [Persistence._verificarTamañoStorage ?x] =>
    generalize x; intros texto
  end.
  destruct (Persistence._verificarTamañoStorage texto).
  2:{ reducir. destruct (Hfalla "Datos demasiado grandes para LocalStorage")
        as (w2 & E & Hl). reducir_en E. rewrite E.
      exists false, w2. split; [reflexivity|].
      split; [discriminate|]. split; [auto|].
      intros Hex. specialize (Hinv Hex). discriminate Hinv. }
  rewrite correr_bind.
  destruct (crearBackup_almacen w0) as (w1 & Hb & Hk). rewrite Hb.
  simpl in Hk. rewrite correr_bind.
  unfold localStorage_setItem at 1.
  rewrite correr_bind. unfold leer at 1. reducir. rewrite Hk.
  destruct (admite (respaldado (localStorage w)) Persistence.STORAGE_KEY texto).
  - unfold modificar at 1. reducir.
    rewrite correr_bind. unfold console at 1, modificar at 1. reducir.
    rewrite correr_bind.
    match goal with
    | |- context [Persistence._mostrarNotificacionPersistencia ?m ?tp ?wx] =>
        destruct (mostrarNotificacion_efecto m tp wx) as (w2 & Hn & Hl)
    end.
    rewrite Hn. reducir.
    exists true, w2. split; [reflexivity|]. split.
    + intros _. rewrite Hl. simpl. rewrite lookup_insert_eq. eauto.
    + split; [discriminate|].
      intros Hex. specialize (Hinv Hex). discriminate Hinv.
  - reducir. rewrite correr_bind. unfold console at 1, modificar at 1. reducir.
    rewrite correr_bind.
    match goal with
    | |- context [Persistence._mostrarNotificacionPersistencia ?m ?tp ?wx] =>
        destruct (mostrarNotificacion_efecto m tp wx) as (w2 & Hn & Hl)
    end.
    rewrite Hn. reducir.
    exists false, w2. split; [reflexivity|].
    split; [discriminate|]. split.
    + intros _. right. rewrite Hl. simpl. exact Hk.
    + intros Hex. specialize (Hinv Hex). discriminate Hinv.
Qed.


(** X17.  [resetearPlantillas] returns [true] and leaves both the primary
    and the backup slot absent (the backup it makes first is removed with
    them); the other keys of the storage stay.  Afterwards
    [tieneDatosGuardados] is [false] and [cargarPlantillas] returns the
    default pair. *)
Theorem resetearPlantillas_vacia w :
  exists w',
    Persistence.resetearPlantillas w = (Normal true, w')
    /\ localStorage w' !! Persistence.STORAGE_KEY = None
    /\ localStorage w' !! Persistence.BACKUP_KEY = None
    /\ (forall k, k <> Persistence.STORAGE_KEY -> k <> Persistence.BACKUP_KEY ->
                  localStorage w' !! k = localStorage w !! k)
    /\ fst (Persistence.tieneDatosGuardados w') = Normal false
    /\ exists ps w'',
         Persistence.cargarPlantillas w' = (Normal ps, w'')
         /\ map cuatro ps = predeterminadas.
Proof.
  unfold Persistence.resetearPlantillas.
  rewrite correr_try_catch, correr_bind.
  destruct (crearBackup_almacen w) as (w1 & Hb & Hk). rewrite Hb.
  rewrite correr_bind.
  unfold localStorage_removeItem at 1, modificar at 1. reducir.
  rewrite correr_bind.
  unfold localStorage_removeItem at 1, modificar at 1. reducir.
  rewrite correr_bind. unfold console at 1, modificar at 1. reducir.
  rewrite correr_bind.
  match goal with
  | |- context [Persistence._mostrarNotificacionPersistencia ?m ?tp ?wx] =>
      destruct (mostrarNotificacion_efecto m tp wx) as (w2 & Hn & Hl)
  end.
  rewrite Hn. reducir. simpl in Hl. rewrite Hk in Hl.
  assert (H1 : localStorage w2 !! Persistence.STORAGE_KEY = None).
  { rewrite Hl, lookup_delete_ne by discriminate. apply lookup_delete_eq. }
  exists w2. split; [reflexivity|]. split; [exact H1|].
  split; [rewrite Hl; apply lookup_delete_eq|]. split.
  { intros k Hk1 Hk2. rewrite Hl, !lookup_delete_ne by congruence.
    unfold respaldado.
    destruct (con_texto (localStorage w !! Persistence.STORAGE_KEY)) as [d|];
      [|reflexivity].
    destruct (admite (localStorage w) Persistence.BACKUP_KEY d);
      [rewrite lookup_insert_ne by congruence|]; reflexivity. }
  split.
  { unfold Persistence.tieneDatosGuardados, localStorage_getItem, leer.
    rewrite correr_bind. reducir. rewrite H1. reflexivity. }
  destruct (hoare_corre _ _ _ w2 (hoare_cargarPlantillas w2) eq_refl)
    as (ps & w3 & Hc & _ & Hps & _).
  exists ps, w3. split; [exact Hc|].
  unfold cargadas in Hps. rewrite H1 in Hps. exact Hps.
Qed.

Lemma sobre_leido_campos w (ps : list Template) :
  campo (sobre_leido w ps) "timestamp" = JStr (iso (ahora w))
  /\ is_Some (prop (sobre_leido w ps) "metadata").
Proof.
  unfold sobre_leido, sobre.
  cbn [enumerado map fst snd].
  rewrite (ordenar_sin_indices
             [("version", _); ("timestamp", _); ("plantillas", _);
              ("metadata", _)]) by (repeat constructor).
  cbn [redondeado map fst snd]. split; [reflexivity|].
  cbn [prop]. eauto.
Qed.


(** X19.  [_deserializarPlantilla] undoes [_serializarPlantilla] but for
    the identifier: for a template of four non-empty strings and a valid
    date, the record keeps the identifier and the template read back has
    the same title, message, hashtag, category and creation date, with an
    identifier made anew from the clock and [Math.random]. *)
Theorem serializar_y_deserializar w t :
  guardable t = true ->
  exists d t' w',
    Persistence._serializarPlantilla t w = (Normal d, w)
    /\ campo d "id" = JNum (id t)
    /\ Persistence._deserializarPlantilla d w = (Normal t', w')
    /\ titulo t' = titulo t /\ mensaje t' = mensaje t
    /\ hashtag t' = hashtag t /\ categoria t' = categoria t
    /\ fechaCreacion t' = fechaCreacion t
    /\ id t' = num_ahora_mas_azar
                 (N.min (instante w (lecturas_reloj w)) (Z.to_N tiempo_maximo))
                 (azar w (lecturas_azar w)).
Proof.
  intros H.
  destruct (iso_valida _ (guardable_fecha t H)) as [Hi Hp].
  exists (registro t).
  exists (mkTemplate (titulo t) (mensaje t) (hashtag t) (categoria t)
            (fechaCreacion t)
            (num_ahora_mas_azar
               (N.min (instante w (lecturas_reloj w)) (Z.to_N tiempo_maximo))
               (azar w (lecturas_azar w)))).
  eexists.
  split.
  { unfold Persistence._serializarPlantilla. rewrite Hi. reflexivity. }
  split; [reflexivity|].
  split; [|simpl; repeat split; reflexivity].
  unfold Persistence._deserializarPlantilla, registro.
  destruct (campos_de_un_registro (JNum (id t)) (titulo t) (mensaje t)
              (hashtag t) (categoria t) (JStr (iso (fechaCreacion t))))
    as (G1 & G2 & G3 & G4 & G5).
  cbv zeta in G1, G2, G3, G4, G5. rewrite G1, G2, G3, G4, G5.
  cbn [Date_de_valor]. rewrite Hp. reflexivity.
Qed.

(** X20.  The version of an envelope does not decide whether it is
    accepted: [_validarEstructuraDatos] returns [true] for every envelope
    of the right shape, and writes one warning to the console when the
    version is not 1.0 (none when it is); it does not touch the storage. *)
Theorem validarEstructuraDatos_version w (datos : jsval) :
  estructura_valida datos = true ->
  exists w',
    Persistence._validarEstructuraDatos datos w = (Normal true, w')
    /\ consola w'
       = (consola w
          ++ if estricto_igual (campo datos "version") (JStr "1.0") then []
             else [("warn",
                    "⚠️ Versión de datos diferente, intentando migración automática")])%list
    /\ localStorage w' = localStorage w.
Proof.
  intros H. unfold estructura_valida in H.
  repeat (apply andb_prop in H; destruct H as [H ?]).
  unfold Persistence._validarEstructuraDatos.
  repeat match goal with Hx : _ = true |- _ => rewrite Hx; clear Hx end.
  cbn [negb orb]. rewrite correr_bind.
  change Persistence.VERSION with "1.0".
  destruct (estricto_igual (campo datos "version") (JStr "1.0")); cbn [negb].
  - eexists. split; [reflexivity|]. simpl. rewrite app_nil_r. auto.
  - eexists. split; [reflexivity|]. simpl. auto.
Qed.

End MasPersistence.

(** ** Persistence and the Store together *)

Section MasConexion.
Context {Pl : Plataforma} {Σ : Type}.
Implicit Types (w : Mundo Σ) (t : Template).
#[local] Arguments estricto_igual : simpl never.

Lemma arreglo_en_copia (h : list (list Template)) (l : nat) :
  default [] ((h ++ [default [] (h !! l)])%list !! l) = default [] (h !! l).
Proof.
  destruct (Nat.lt_trichotomy l (length h)) as [Hl|[->|Hl]].
  - rewrite lookup_app_l by exact Hl. reflexivity.
  - rewrite arreglo_en_nuevo. reflexivity.
  - rewrite !lookup_ge_None_2; [reflexivity|lia|rewrite length_app; simpl; lia].
Qed.

(** What reading the collection leaves alone. *)
Definition estable_sin_arreglos w :=
  (instante w, lecturas_reloj w, localStorage w, _suscriptores w, llamadas w,
   exterior w).

Lemma con_exterior_exterior w : con_exterior (exterior w) w = w.
Proof. destruct w. reflexivity. Qed.

Lemma texto_guardado_reloj w w' (ps : list Template) :
  instante w' = instante w -> lecturas_reloj w' = lecturas_reloj w ->
  texto_guardado w' ps = texto_guardado w ps.
Proof.
  intros Hi Hl. unfold texto_guardado, sobre, ahora. rewrite Hi, Hl.
  reflexivity.
Qed.

Lemma correr_ejecuta {I : Invocador Σ} (o : operacion Σ) k w :
  correr (Ejecuta o k) w
  = match ejecutar_operacion o w with
    | (r, w') => correr (k r) w'
    end.
Proof. reflexivity. Qed.

Lemma ejecutar_getPlantillas {I : Invocador Σ} w :
  exists w1,
    ejecutar_operacion OpGetPlantillas w
    = (Normal (RArreglo (length (entregados w)) (Store.plantillas w)), w1)
    /\ Store.plantillas w1 = Store.plantillas w
    /\ estable_sin_arreglos w1 = estable_sin_arreglos w.
Proof.
  cbn [ejecutar_operacion].
  rewrite correr_bind. unfold leer at 1. reducir.
  rewrite correr_bind. unfold Store.getPlantillas at 1.
  rewrite correr_bind. unfold leer at 1. reducir.
  rewrite correr_bind. unfold Store.nuevo_arreglo at 1. reducir.
  rewrite correr_bind. unfold modificar at 1. reducir.
  rewrite correr_bind. unfold leer at 1. reducir.
  eexists. split.
  - f_equal. f_equal. f_equal.
    unfold Store.arreglo_en. simpl. apply arreglo_en_nuevo.
  - split; [|reflexivity].
    unfold Store.plantillas, Store.arreglo_en. simpl. apply arreglo_en_copia.
Qed.


Lemma agregar_todas (ps : list Template) :
  Forall plantilla_valida ps ->
  forall w,
    Forall sosegado (_suscriptores w) ->
    forallb categoria_convertible (Store.plantillas w ++ ps) = true ->
    exists evs w',
      Store.forEach
        (fun plantilla =>
           _ ← Store.agregarPlantilla (Store.EsTemplate plantilla);
           mret tt) ps w = (Normal tt, w')
      /\ Store.plantillas w' = (Store.plantillas w ++ ps)%list
      /\ localStorage w' = localStorage w
      /\ _suscriptores w' = _suscriptores w
      /\ map tipo evs = map (fun _ => "PLANTILLA_AGREGADA") ps
      /\ llamadas w'
         = (llamadas w
            ++ concat (map (fun ev => llamadas_de ev (_suscriptores w)) evs))%list.
Proof.
  induction 1 as [|t r Ht _ IH]; intros w Hq Hc.
  - exists [], w. rewrite !app_nil_r. simpl. repeat split; reflexivity.
  - cbn [Store.forEach]. rewrite correr_bind, correr_bind.
    assert (Hc1 : forallb categoria_convertible (Store.plantillas w ++ [t])
                  = true).
    { rewrite forallb_app in Hc |- *. apply andb_prop in Hc.
      destruct Hc as [Hc1 Hc2]. simpl in Hc2. apply andb_prop in Hc2.
      rewrite Hc1. simpl. rewrite (proj1 Hc2). reflexivity. }
    destruct (agregarPlantilla_valida w t Ht Hq Hc1) as (w1 & Ha & Hm).
    rewrite Ha. reducir.
    pose proof (plantillas_tras_mutacion _ _ _ _ _ Hm) as Hp.
    destruct Hm as (_ & _ & _ & Hs & Hl & _ & ev & Htp & _ & _ & Hll & _).
    destruct (IH w1) as (evs & w' & Hf & Hp' & Hl' & Hs' & Ht' & Hn').
    { rewrite Hs. exact Hq. }
    { rewrite Hp, <- app_assoc. exact Hc. }
    exists (ev :: evs), w'. split; [exact Hf|].
    rewrite Hp', Hp, <- app_assoc. split; [reflexivity|].
    split; [congruence|]. split; [congruence|].
    split; [simpl; rewrite Htp, Ht'; reflexivity|].
    rewrite Hn', Hll, Hs. simpl. rewrite <- app_assoc. reflexivity.
Qed.

(** X23.  [inicializarStoreConPersistencia], when the subscribers call
    neither the Store nor the storage and the categories of the templates
    loaded can be made names of properties: it returns what
    [cargarPlantillas] gives for the storage, and leaves exactly these
    templates, in their order, as the collection of the Store.  The storage
    is not written, and for each template, in order, every subscriber is
    called once, in the order of subscription. *)
Theorem inicializarStoreConPersistencia_efecto w :
  Forall callado (_suscriptores w) ->
  (forall ps w1, Persistence.cargarPlantillas w = (Normal ps, w1) ->
                 forallb categoria_convertible ps = true) ->
  exists ps evs w',
    inicializarStoreConPersistencia w = (Normal ps, w')
    /\ Store.plantillas w' = ps
    /\ cargadas (localStorage w) ps
    /\ Forall (fun t => truthy (esValida t) = true) ps
    /\ localStorage w' = localStorage w
    /\ map tipo evs = map (fun _ => "PLANTILLA_AGREGADA") ps
    /\ llamadas w'
       = (llamadas w
          ++ concat (map (fun ev => llamadas_de ev (_suscriptores w)) evs))%list.
Proof.
  intros Hq0 Hconv. pose proof (callados_sosegados _ Hq0) as Hq.
  unfold inicializarStoreConPersistencia.
  rewrite correr_try_catch, correr_bind.
  destruct (hoare_corre _ _ _ w (hoare_cargarPlantillas w) eq_refl)
    as (ps & w1 & Hc & Hw1 & Hps & Hval).
  specialize (Hconv ps w1 Hc).
  rewrite Hc. rewrite correr_bind.
  pose proof (Est_localStorage w w1 Hw1) as Hl1.
  pose proof (Est_Nucleo w w1 Hw1) as E. unfold Nucleo, nucleo in E.
  injection E as E1 E2 E3 E4 E5 E6 E7 E8.
  assert (Hr : exists w2, Store.reset w1 = (Normal tt, w2)
                 /\ Store.plantillas w2 = []
                 /\ localStorage w2 = localStorage w1
                 /\ _suscriptores w2 = _suscriptores w1
                 /\ llamadas w2 = llamadas w1).
  { eexists. split; [reflexivity|]. simpl. split; [|auto].
    unfold Store.plantillas, Store.arreglo_en. simpl. apply arreglo_en_nuevo. }
  destruct Hr as (w2 & Hr & Hp2 & Hl2 & Hs2 & Hll2). rewrite Hr.
  rewrite correr_bind.
  destruct (agregar_todas ps Hval w2)
    as (evs & w3 & Hf & Hp3 & Hl3 & Hs3 & Ht3 & Hn3).
  { rewrite Hs2, E6. exact Hq. }
  { rewrite Hp2. exact Hconv. }
  rewrite Hf. rewrite correr_bind.
  unfold Persistence.tieneDatosGuardados at 1. rewrite correr_bind.
  unfold localStorage_getItem at 1, leer at 1. reducir.
  rewrite correr_bind. unfold console at 1, modificar at 1. reducir.
  exists ps, evs. eexists. split; [reflexivity|].
  split.
  { transitivity (Store.plantillas w3); [reflexivity|].
    rewrite Hp3, Hp2. reflexivity. }
  split; [exact Hps|]. split; [exact Hval|].
  split.
  { transitivity (localStorage w3); [reflexivity|]. congruence. }
  split; [exact Ht3|].
  transitivity (llamadas w3); [reflexivity|].
  rewrite Hn3, Hll2, Hs2, E6, E7. reflexivity.
Qed.

(** The defaults of the Store itself, which differ from those of
    Persistence. *)
Definition predeterminadas_del_store : list (jsval * jsval * jsval * jsval) :=
  [(JStr "Bienvenida por Defecto",
    JStr "¡Hola! 👋 Bienvenido/a. Estamos aquí para ayudarte. ¿En qué podemos asistirte?",
    JStr "#bienvenida", JStr "soporte");
   (JStr "Confirmación Estándar",
    JStr "Tu solicitud ha sido recibida ✅. Te contactaremos pronto. ¡Gracias!",
    JStr "#confirmacion", JStr "soporte")].

(** What loading gives, as [inicializar] and [recargarDesdePersistencia]
    begin with it. *)
Lemma cargar_y_reemplazar {A : Type} (resto : list Template -> M Σ A) w :
  exists ps w2,
    (plantillasGuardadas ← Persistence.cargarPlantillas;
     l ← Store.nuevo_arreglo plantillasGuardadas;
     modificar (con_st_plantillas l);;
     ahora ← Date_nueva;
     modificar (con_st_ultimaActualizacion ahora);;
     resto plantillasGuardadas) w
    = resto ps (al_notificar w2 ps)
    /\ Persistence.cargarPlantillas w = (Normal ps, w2)
    /\ cargadas (localStorage w) ps
    /\ Forall plantilla_valida ps
    /\ localStorage w2 = localStorage w
    /\ _suscriptores w2 = _suscriptores w
    /\ llamadas w2 = llamadas w.
Proof.
  destruct (hoare_corre _ _ _ w (hoare_cargarPlantillas w) eq_refl)
    as (ps & w2 & Hc & Hw2 & Hps & Hval).
  exists ps, w2. rewrite correr_bind, Hc.
  split; [apply correr_reemplazo|]. split; [reflexivity|].
  split; [exact Hps|]. split; [exact Hval|].
  pose proof (Est_Nucleo w w2 Hw2) as E. unfold Nucleo, nucleo in E.
  injection E as E1 E2 E3 E4 E5 E6 E7 E8.
  split; [exact (Est_localStorage w w2 Hw2)|]. auto.
Qed.

(** X25.  [recargarDesdePersistencia] replaces the collection by what
    [cargarPlantillas] gives for the storage, all valid templates.  When
    the subscribers call neither the Store nor the storage and the
    categories of the templates loaded can be made names of properties, it
    returns [true], the storage is not written and every subscriber is
    called once, with [RECARGADO_DESDE_PERSISTENCIA] and the number of
    templates loaded.  When some category cannot, it returns [false] with
    the templates loaded as the collection, and nobody is called. *)
Theorem recargarDesdePersistencia_carga w :
  exists ps w0,
    Persistence.cargarPlantillas w = (Normal ps, w0)
    /\ cargadas (localStorage w) ps
    /\ Forall (fun t => truthy (esValida t) = true) ps
    /\ (Forall callado (_suscriptores w) ->
        forallb categoria_convertible ps = true ->
        exists ev w',
          Store.recargarDesdePersistencia w = (Normal true, w')
          /\ Store.plantillas w' = ps
          /\ localStorage w' = localStorage w
          /\ tipo ev = "RECARGADO_DESDE_PERSISTENCIA"
          /\ datos ev = DatosRecargado (length ps)
          /\ llamadas w' = (llamadas w ++ llamadas_de ev (_suscriptores w))%list)
    /\ (forallb categoria_convertible ps = false ->
        exists w',
          Store.recargarDesdePersistencia w = (Normal false, w')
          /\ Store.plantillas w' = ps
          /\ llamadas w' = llamadas w).
Proof.
  unfold Store.recargarDesdePersistencia.
  match goal with
  | |- context [try_catch (_ ≫= fun pg => _ ≫= fun l => _ ≫= fun _ =>
                             _ ≫= fun ahora => _ ≫= fun _ => @?R pg) _] =>
      destruct (cargar_y_reemplazar R w)
        as (ps & w2 & Hrun & Hc & Hps & Hval & Hl2 & Hs2 & Hll2)
  end.
  cbv beta in Hrun.
  exists ps, w2. split; [exact Hc|]. split; [exact Hps|]. split; [exact Hval|].
  split.
  - intros Hq0 Hconv.
    destruct (notificar_tras_reemplazo w2 ps "RECARGADO_DESDE_PERSISTENCIA"
                (DatosRecargado (length ps)))
      as (w' & Hn & Hm).
    { rewrite Hs2. apply callados_sosegados, Hq0. }
    { exact Hconv. }
    pose proof (plantillas_tras_mutacion _ _ _ _ _ Hm) as Hp.
    destruct Hm as (_ & _ & _ & Hs & Hl & _ & ev & Htp & Hdt & _ & Hll & _).
    rewrite correr_try_catch, Hrun, correr_bind, Hn.
    exists ev. eexists. split; [reflexivity|].
    split; [exact Hp|]. split; [simpl; congruence|].
    split; [exact Htp|]. split; [exact Hdt|].
    simpl. rewrite Hll, Hll2, Hs2. reflexivity.
  - intros Hconv.
    rewrite correr_try_catch, Hrun, correr_bind.
    rewrite _notificarCambios_lanza
      by (rewrite plantillas_al_notificar; exact Hconv).
    eexists. split; [reflexivity|]. split.
    + apply (plantillas_al_notificar w2).
    + simpl. exact Hll2.
Qed.

(** X24.  [Store.inicializar] loads templates as [cargarPlantillas] does
    for the storage (the stored envelope, else the backup, else the default
    pair of Persistence), all valid.  When the subscribers call neither the
    Store nor the storage and the categories of the templates loaded can be
    made names of properties, it returns with these templates as the
    collection; the storage is not written and every subscriber is called
    once, with [STORE_INICIALIZADO].  When some category cannot, the
    notification throws and [inicializar] returns with the default pair of
    the Store itself as the collection; nobody is called. *)
Theorem inicializar_carga w :
  exists ps,
    cargadas (localStorage w) ps
    /\ Forall (fun t => truthy (esValida t) = true) ps
    /\ (Forall callado (_suscriptores w) ->
        forallb categoria_convertible ps = true ->
        exists ev w',
          Store.inicializar w = (Normal tt, w')
          /\ Store.plantillas w' = ps
          /\ localStorage w' = localStorage w
          /\ tipo ev = "STORE_INICIALIZADO"
          /\ llamadas w' = (llamadas w ++ llamadas_de ev (_suscriptores w))%list)
    /\ (forallb categoria_convertible ps = false ->
        exists w',
          Store.inicializar w = (Normal tt, w')
          /\ map cuatro (Store.plantillas w') = predeterminadas_del_store
          /\ llamadas w' = llamadas w).
Proof.
  unfold Store.inicializar.
  set (w00 := con_consola
                (consola w ++ [("log", "🔗 Store: Inicializando con persistencia...")])
                w).
  match goal with
  | |- context [try_catch (_ ≫= fun _ =>
                             _ ≫= fun pg => _ ≫= fun l => _ ≫= fun _ =>
                             _ ≫= fun ahora => _ ≫= fun _ => @?R pg) _] =>
      destruct (cargar_y_reemplazar R w00)
        as (ps & w2 & Hrun & Hc & Hps & Hval & Hl2 & Hs2 & Hll2)
  end.
  cbv beta in Hrun.
  change (localStorage w00) with (localStorage w) in Hps, Hl2.
  change (_suscriptores w00) with (_suscriptores w) in Hs2.
  change (llamadas w00) with (llamadas w) in Hll2.
  exists ps. split; [exact Hps|]. split; [exact Hval|].
  assert (Hresto : forall w3,
    (_ ← Persistence.tieneDatosGuardados;
     console "log" "✅ Store inicializado con persistencia:";;
     tiene ← Persistence.tieneDatosGuardados;
     Store._notificarCambios "STORE_INICIALIZADO"
       (DatosInicializado (length ps)
          (if (tiene : bool) then "localStorage" else "default"))) w3
    = Store._notificarCambios "STORE_INICIALIZADO"
        (DatosInicializado (length ps)
           (if (match localStorage w3 !! Persistence.STORAGE_KEY with
                | Some _ => true | None => false end : bool)
            then "localStorage" else "default"))
        (con_consola
           (consola w3 ++ [("log", "✅ Store inicializado con persistencia:")])
           w3)).
  { intros w3. reflexivity. }
  split.
  - intros Hq0 Hconv.
    rewrite correr_try_catch, correr_bind.
    unfold console at 1, modificar at 1. reducir. fold w00.
    rewrite Hrun, Hresto.
    match goal with |- context [Store._notificarCambios ?tp ?dt ?w3] =>
      destruct (_notificarCambios_efecto tp dt w3)
        as (ev & w' & Hn & Htp & Hdt & _ & Hf & Hll & _)
    end.
    { simpl. rewrite Hs2. apply callados_sosegados, Hq0. }
    { change (forallb categoria_convertible
                (Store.plantillas (al_notificar w2 ps)) = true).
      rewrite plantillas_al_notificar. exact Hconv. }
    rewrite Hn. exists ev, w'. split; [reflexivity|].
    unfold fijo in Hf. simpl in Hf.
    injection Hf as F1 F2 F3 F4 F5 F6 F7.
    split.
    { unfold Store.plantillas, Store.arreglo_en. rewrite F1, F3.
      apply arreglo_en_nuevo. }
    split; [congruence|]. split; [exact Htp|].
    simpl in Hll. rewrite Hll, Hll2, Hs2. reflexivity.
  - intros Hconv.
    rewrite correr_try_catch, correr_bind.
    unfold console at 1, modificar at 1. reducir. fold w00.
    rewrite Hrun, Hresto.
    rewrite _notificarCambios_lanza.
    2:{ change (forallb categoria_convertible
                  (Store.plantillas (al_notificar w2 ps)) = false).
        rewrite plantillas_al_notificar. exact Hconv. }
    rewrite correr_bind. unfold console at 1, modificar at 1. reducir.
    unfold Store._cargarPlantillasDefault.
    rewrite correr_bind. unfold Template_new at 1.
    eexists. split; [reflexivity|]. split.
    + unfold Store.plantillas, Store.arreglo_en. simpl.
      rewrite arreglo_en_nuevo. reflexivity.
    + simpl. exact Hll2.
Qed.

End MasConexion.

(** * Runs of the claims *)

Section Corridas.

#[local] Existing Instance Ejemplos.motor.

(** C2, the claim as stated fails: [suscribirse] is a Store operation, and
    called with [null] it throws instead of returning a flag. *)
Lemma suscribirse_lanza :
  fst (Store.suscribirse (Store.NoFuncion JNull) Ejemplos.mundo0)
  = Lanza "El callback debe ser una función".
Proof. reflexivity. Qed.



Lemma agregarPlantilla_incompleta_rechazada_witness :
  truthy (titulo Ejemplos.sin_titulo) = false
  /\ fst (Store.agregarPlantilla (Store.EsTemplate Ejemplos.sin_titulo)
            Ejemplos.mundo_suscrito) = Normal false
  /\ Store.plantillas
       (snd (Store.agregarPlantilla (Store.EsTemplate Ejemplos.sin_titulo)
               Ejemplos.mundo_suscrito))
     = Store.plantillas Ejemplos.mundo_suscrito.
Proof.
  split; [reflexivity|].
  destruct (agregarPlantilla_incompleta_rechazada Ejemplos.mundo_suscrito
              Ejemplos.sin_titulo (or_introl eq_refl)) as (H1 & H2 & _).
  split; [exact H1|exact H2].
Defined.





(** C9, a run: the page takes the collection, empties the array it got and
    pushes a template of its own onto it. *)
Lemma getPlantillas_copia_defensiva_witness :
  let s0 := ejecutar [OpAgregarPlantilla (Store.EsTemplate Ejemplos.bienvenida);
                      OpGetPlantillas] Ejemplos.sesion0 in
  let s1 := paso s0 (OpCambiarArreglo 0 (fun _ => [Ejemplos.sin_titulo])) in
  devueltos s0 = [2]
  /\ Store.arreglo_en 2 (mundo s1) = [Ejemplos.sin_titulo]
  /\ Store.plantillas (mundo s1) = [Ejemplos.bienvenida].
Proof.
  split; [reflexivity|]. split; [reflexivity|].
  exact (proj1 (proj2 (getPlantillas_copia_defensiva Ejemplos.reloj
                         Ejemplos.aleatorio ∅ false ([] : list string)
                         [OpAgregarPlantilla (Store.EsTemplate Ejemplos.bienvenida);
                          OpGetPlantillas])
                  0 (fun _ => [Ejemplos.sin_titulo]))).
Defined.



(** C7, the claim as stated fails: the empty text is not JSON, the backup
    holds a valid envelope with the template saved, and [cargarPlantillas]
    returns the default pair. *)
Lemma cargarPlantillas_primario_vacio :
  let w := mundo Ejemplos.sesion_primario_vacio in
  localStorage w !! Persistence.STORAGE_KEY = Some ""
  /\ JSON_parse "" = None
  /\ match localStorage w !! Persistence.BACKUP_KEY ≫= envelope_de with
     | Some v =>
         map campos_guardados (Persistence.elementos (campo v "plantillas"))
         = [Some (campos_de Ejemplos.bienvenida)]
     | None => False
     end
  /\ match fst (Persistence.cargarPlantillas w) with
     | Normal ps => map cuatro ps = predeterminadas
     | Lanza _ => False
     end.
Proof. vm_compute. repeat split. Qed.

Lemma cargarPlantillas_primario_corrupto_witness :
  let w := mundo Ejemplos.sesion_primario_corrupto in
  localStorage w !! Persistence.STORAGE_KEY = Some "{no es json"
  /\ JSON_parse "{no es json" = None
  /\ exists ps w',
       Persistence.cargarPlantillas w = (Normal ps, w')
       /\ map campos_de ps = [campos_de Ejemplos.bienvenida].
Proof.
  assert (H1 : localStorage (mundo Ejemplos.sesion_primario_corrupto)
               !! Persistence.STORAGE_KEY = Some "{no es json")
    by (vm_compute; reflexivity).
  assert (H2 : JSON_parse "{no es json" = None) by (vm_compute; reflexivity).
  split; [exact H1|]. split; [exact H2|].
  destruct (cargarPlantillas_primario_corrupto
              (mundo Ejemplos.sesion_primario_corrupto) "{no es json" H1
              ltac:(discriminate) (or_introl H2))
    as (ps & w' & Hc & Hps & _).
  exists ps, w'. split; [exact Hc|].
  revert Hps. unfold del_respaldo_o_predeterminadas, plantillas_de.
  vm_compute. exact (fun H => H).
Defined.




End Corridas.

(** * Runs of the further properties *)

Section CorridasExtras.

#[local] Existing Instance Ejemplos.motor.

Lemma callados_dos : Forall callado [Ejemplos.primero; Ejemplos.segundo].
Proof.
  constructor; [intros ev; eexists; reflexivity|].
  constructor; [intros ev; eexists; reflexivity|constructor].
Qed.

Lemma limpiarTodas_deja_vacio_witness :
  Store.plantillas Ejemplos.mundo_dos
  = [Ejemplos.bienvenida; Ejemplos.despedida]
  /\ exists ev w',
       Store.limpiarTodas Ejemplos.mundo_dos = (Normal true, w')
       /\ Store.plantillas w' = []
       /\ datos ev = DatosTodasEliminadas 2
       /\ llamadas w' = (llamadas Ejemplos.mundo_dos ++ [(1, ev); (2, ev)])%list.
Proof.
  split; [reflexivity|].
  destruct (limpiarTodas_deja_vacio Ejemplos.mundo_dos callados_dos)
    as (ev & w' & Hl & Hp & _ & _ & _ & Hd & Hll & _).
  exists ev, w'. split; [exact Hl|]. split; [exact Hp|].
  split; [exact Hd|exact Hll].
Defined.

Lemma suscribirse_y_cancelar_witness :
  Forall (fun g => sus_id g <> sus_id Ejemplos.tercero)
    (_suscriptores Ejemplos.mundo_suscrito)
  /\ exists g w1,
       Store.suscribirse (Store.EsFuncion Ejemplos.tercero) Ejemplos.mundo_suscrito
       = (Normal g, w1)
       /\ _suscriptores (snd (Store.cancelar g w1))
          = _suscriptores Ejemplos.mundo_suscrito.
Proof.
  assert (H : Forall (fun g => sus_id g <> sus_id Ejemplos.tercero)
                (_suscriptores Ejemplos.mundo_suscrito)).
  { simpl. repeat constructor; simpl; discriminate. }
  split; [exact H|].
  destruct (suscribirse_y_cancelar Ejemplos.mundo_suscrito Ejemplos.tercero H)
    as (g & w1 & H1 & _ & H3 & _).
  exists g, w1. split; [exact H1|exact H3].
Defined.

Lemma suscriptor_repetido_witness :
  let w2 := snd (Store.suscribirse (Store.EsFuncion Ejemplos.tercero)
                   (snd (Store.suscribirse (Store.EsFuncion Ejemplos.tercero)
                           Ejemplos.mundo_dos))) in
  map sus_id (_suscriptores w2) = [1; 2; 3; 3]
  /\ exists ev w',
       Store._notificarCambios "TODAS_ELIMINADAS" (DatosTodasEliminadas 0) w2
       = (Normal tt, w')
       /\ llamadas w'
          = (llamadas Ejemplos.mundo_dos
             ++ [(1, ev); (2, ev); (3, ev); (3, ev)])%list.
Proof.
  intros w2. split; [reflexivity|].
  destruct (suscriptor_repetido Ejemplos.mundo_dos Ejemplos.tercero
              "TODAS_ELIMINADAS"
              (DatosTodasEliminadas 0) callados_dos
              (fun ev => ex_intro _ _ eq_refl) eq_refl)
    as (_ & (ev & w' & Hn & _ & _ & Hll) & _).
  exists ev, w'. split; [exact Hn|exact Hll].
Defined.

Lemma identificador_que_no_es_numero_witness :
  (forall n, JStr "1700000000000.5" <> JNum n)
  /\ fst (Store.eliminarPlantilla (JStr "1700000000000.5") Ejemplos.mundo_con_bienvenida)
     = Normal false
  /\ Store.plantillas
       (snd (Store.eliminarPlantilla (JStr "1700000000000.5")
               Ejemplos.mundo_con_bienvenida))
     = Store.plantillas Ejemplos.mundo_con_bienvenida.
Proof.
  assert (H : forall n, JStr "1700000000000.5" <> JNum n)
    by (intros n; discriminate).
  split; [exact H|].
  destruct (identificador_que_no_es_numero Ejemplos.mundo_con_bienvenida _ H)
    as (_ & H2 & H3 & _).
  split; [exact H2|exact H3].
Defined.

Lemma getEstadisticas_cuenta_witness :
  forallb categoria_llana (Store.plantillas Ejemplos.mundo_dos) = true
  /\ exists e,
       Store.getEstadisticas Ejemplos.mundo_dos = (Normal e, Ejemplos.mundo_dos)
       /\ total e = 2
       /\ cuenta "support" (categorias e) = 2%N
       /\ cuenta "sales" (categorias e) = 0%N.
Proof.
  assert (H : forallb categoria_llana (Store.plantillas Ejemplos.mundo_dos)
              = true) by reflexivity.
  split; [exact H|].
  destruct (proj1 (getEstadisticas_cuenta Ejemplos.mundo_dos) H)
    as (e & He & Ht & _ & Hc & _).
  exists e. split; [exact He|]. split; [exact Ht|].
  split; [exact (Hc "support")|exact (Hc "sales")].
Defined.

Lemma obtenerCategorias_cuenta_witness :
  forallb categoria_llana [Ejemplos.bienvenida; Ejemplos.gigante;
                           Ejemplos.despedida] = true
  /\ exists h,
       Persistence._obtenerCategorias
         [Ejemplos.bienvenida; Ejemplos.gigante; Ejemplos.despedida]
         Ejemplos.mundo0 = (Normal h, Ejemplos.mundo0)
       /\ cuenta "support" h = 2%N /\ cuenta "soporte" h = 1%N
       /\ suma h = 3%N.
Proof.
  assert (H : forallb categoria_llana [Ejemplos.bienvenida; Ejemplos.gigante;
                                       Ejemplos.despedida] = true)
    by reflexivity.
  split; [exact H|].
  destruct (obtenerCategorias_cuenta
              [Ejemplos.bienvenida; Ejemplos.gigante; Ejemplos.despedida]
              Ejemplos.mundo0 H) as (h & Hh & Hc & Hs & _).
  exists h. split; [exact Hh|].
  split; [exact (Hc "support")|]. split; [exact (Hc "soporte")|exact Hs].
Defined.

Lemma agregar_y_eliminar_witness :
  truthy (esValida Ejemplos.gigante) = true
  /\ Store.plantillas Ejemplos.mundo_dos
     = [Ejemplos.bienvenida; Ejemplos.despedida]
  /\ exists w1 w2,
       Store.agregarPlantilla (Store.EsTemplate Ejemplos.gigante)
         Ejemplos.mundo_dos = (Normal true, w1)
       /\ Store.plantillas w1
          = [Ejemplos.bienvenida; Ejemplos.despedida; Ejemplos.gigante]
       /\ Store.eliminarPlantilla (JNum (id Ejemplos.gigante)) w1
          = (Normal true, w2)
       /\ Store.plantillas w2 = [Ejemplos.bienvenida; Ejemplos.despedida].
Proof.
  assert (H1 : truthy (esValida Ejemplos.gigante) = true) by reflexivity.
  assert (Hp : Store.plantillas Ejemplos.mundo_dos
               = [Ejemplos.bienvenida; Ejemplos.despedida]) by reflexivity.
  assert (H2 : Forall (fun p => id p <> id Ejemplos.gigante)
                 (Store.plantillas Ejemplos.mundo_dos)).
  { rewrite Hp. repeat constructor; discriminate. }
  assert (H3 : forallb categoria_convertible
                 (Store.plantillas Ejemplos.mundo_dos ++ [Ejemplos.gigante])
               = true) by (rewrite Hp; reflexivity).
  split; [exact H1|]. split; [exact Hp|].
  destruct (agregar_y_eliminar Ejemplos.mundo_dos Ejemplos.gigante H1 H2
              callados_dos H3)
    as (w1 & w2 & Ha & Hp1 & _ & He & Hp2 & _).
  exists w1, w2. split; [exact Ha|].
  split; [rewrite Hp1, Hp; reflexivity|]. split; [exact He|].
  rewrite Hp2. exact Hp.
Defined.

Lemma crearYAgregarPlantilla_efecto_witness :
  fst (crearYAgregarPlantilla (JStr "Aviso") (JStr "Hola") (JStr "#aviso")
         (JStr "ventas") Ejemplos.mundo_dos) = Normal true
  /\ map cuatro
       (Store.plantillas
          (snd (crearYAgregarPlantilla (JStr "Aviso") (JStr "Hola")
                  (JStr "#aviso") (JStr "ventas") Ejemplos.mundo_dos)))
     = (map cuatro [Ejemplos.bienvenida; Ejemplos.despedida]
        ++ [(JStr "Aviso", JStr "Hola", JStr "#aviso", JStr "ventas")])%list.
Proof.
  destruct (proj2 (proj2 (crearYAgregarPlantilla_efecto Ejemplos.mundo_dos
                            (JStr "Aviso") (JStr "Hola") (JStr "#aviso")
                            (JStr "ventas")))
              eq_refl callados_dos eq_refl) as [H1 H2].
  split; [exact H1|]. rewrite H2. reflexivity.
Defined.

Lemma storeEstaVacio_efecto_witness :
  forallb categoria_convertible (Store.plantillas Ejemplos.mundo_dos) = true
  /\ storeEstaVacio Ejemplos.mundo_dos = (Normal false, Ejemplos.mundo_dos)
  /\ storeEstaVacio Ejemplos.mundo_suscrito
     = (Normal true, Ejemplos.mundo_suscrito).
Proof.
  split; [reflexivity|]. split.
  - destruct (proj1 (storeEstaVacio_efecto Ejemplos.mundo_dos) eq_refl)
      as (b & Hb & Hv).
    rewrite Hb. destruct b; [|reflexivity].
    discriminate (proj1 Hv eq_refl).
  - destruct (proj1 (storeEstaVacio_efecto Ejemplos.mundo_suscrito) eq_refl)
      as (b & Hb & Hv).
    rewrite Hb. rewrite (proj2 Hv eq_refl). reflexivity.
Defined.

Lemma buscarPlantillas_filtra_witness :
  exists w',
    Store.buscarPlantillas (fun s => s) (JStr "titulo") (JStr "elc")
      Ejemplos.mundo_dos
    = (Normal (length (arreglos Ejemplos.mundo_dos)), w')
    /\ arreglos w'
       = (arreglos Ejemplos.mundo_dos ++ [[Ejemplos.bienvenida]])%list.
Proof.
  destruct (proj2 (buscarPlantillas_filtra (fun s => s) Ejemplos.mundo_dos
                     (JStr "titulo") (JStr "elc"))
              "elc" "titulo" eq_refl ltac:(discriminate) eq_refl eq_refl)
    as (w' & Hb & Ha & _).
  exists w'. split; [exact Hb|]. rewrite Ha. reflexivity.
Defined.

Lemma buscarPlantillas_lanza_witness :
  truthy (JNum (num_de_N 5)) = true
  /\ Store.plantillas Ejemplos.mundo_con_bienvenida = [Ejemplos.bienvenida]
  /\ Store.buscarPlantillas (fun s => s) (JStr "titulo") (JNum (num_de_N 5))
       Ejemplos.mundo_con_bienvenida
     = (Lanza "valor.toLowerCase is not a function", Ejemplos.mundo_con_bienvenida).
Proof.
  assert (H1 : truthy (JNum (num_de_N 5)) = true) by reflexivity.
  assert (Hp : Store.plantillas Ejemplos.mundo_con_bienvenida = [Ejemplos.bienvenida])
    by (vm_compute; reflexivity).
  split; [exact H1|]. split; [exact Hp|].
  apply (buscarPlantillas_lanza (fun s => s) Ejemplos.mundo_con_bienvenida
           (JStr "titulo") (JNum (num_de_N 5)) H1).
  - intros v. discriminate.
  - reflexivity.
  - rewrite Hp. constructor. simpl. eauto.
Defined.



Lemma serializar_y_deserializar_witness :
  guardable Ejemplos.bienvenida = true
  /\ exists d t' w',
       Persistence._serializarPlantilla Ejemplos.bienvenida Ejemplos.mundo0
       = (Normal d, Ejemplos.mundo0)
       /\ Persistence._deserializarPlantilla d Ejemplos.mundo0 = (Normal t', w')
       /\ fechaCreacion t' = Some 1700000000000%Z
       /\ id t' = num_ahora_mas_azar 1730000000001 (D5 Nil).
Proof.
  assert (H1 : guardable Ejemplos.bienvenida = true) by (vm_compute; reflexivity).
  split; [exact H1|].
  destruct (serializar_y_deserializar Ejemplos.mundo0 Ejemplos.bienvenida H1)
    as (d & t' & w' & Hs & _ & Hd & _ & _ & _ & _ & Hf & Hi).
  exists d, t', w'. split; [exact Hs|]. split; [exact Hd|].
  split; [exact Hf|exact Hi].
Defined.

Lemma validarEstructuraDatos_version_witness :
  estructura_valida Ejemplos.envelope_antiguo = true
  /\ exists w',
       Persistence._validarEstructuraDatos Ejemplos.envelope_antiguo Ejemplos.mundo0
       = (Normal true, w')
       /\ consola w'
          = [("warn",
              "⚠️ Versión de datos diferente, intentando migración automática")].
Proof.
  assert (H1 : estructura_valida Ejemplos.envelope_antiguo = true) by reflexivity.
  split; [exact H1|].
  destruct (validarEstructuraDatos_version Ejemplos.mundo0 Ejemplos.envelope_antiguo H1)
    as (w' & Hv & Hc & _).
  exists w'. split; [exact Hv|exact Hc].
Defined.


Lemma cargado_guardado ps w1 :
  Persistence.cargarPlantillas Ejemplos.mundo_guardado = (Normal ps, w1) ->
  map cuatro ps = [cuatro Ejemplos.despedida].
Proof.
  intros H. apply (f_equal fst) in H. vm_compute in H.
  injection H as <-. reflexivity.
Qed.

Lemma convertibles_guardado (ps : list Template) :
  map cuatro ps = [cuatro Ejemplos.despedida] ->
  forallb categoria_convertible ps = true.
Proof.
  destruct ps as [|t [|t' r]]; try discriminate.
  intros H. assert (Hc : categoria t = JStr "support").
  { apply (f_equal (fun l => match l with
                             | x :: _ => snd x
                             | [] => JNull
                             end)) in H.
    exact H. }
  simpl. unfold categoria_convertible. rewrite Hc. reflexivity.
Qed.

Lemma cargadas_guardado (ps : list Template) :
  cargadas (localStorage Ejemplos.mundo_guardado) ps ->
  map cuatro ps = [cuatro Ejemplos.despedida].
Proof.
  intros H.
  assert (E : map campos_de ps = [campos_de Ejemplos.despedida]).
  { revert H. unfold cargadas, plantillas_de. vm_compute. exact (fun H => H). }
  apply (f_equal (map fst)) in E. rewrite map_map in E. exact E.
Qed.

Lemma inicializarStoreConPersistencia_efecto_witness :
  exists ps evs w',
    inicializarStoreConPersistencia Ejemplos.mundo_guardado = (Normal ps, w')
    /\ Store.plantillas w' = ps
    /\ map cuatro ps = [cuatro Ejemplos.despedida]
    /\ map tipo evs = ["PLANTILLA_AGREGADA"]
    /\ map fst (llamadas w') = [2].
Proof.
  assert (Hq : Forall callado (_suscriptores Ejemplos.mundo_guardado)).
  { change (Forall callado [Ejemplos.segundo]).
    constructor; [intros ev; eexists; reflexivity|constructor]. }
  destruct (inicializarStoreConPersistencia_efecto Ejemplos.mundo_guardado Hq
              (fun ps w1 H => convertibles_guardado ps (cargado_guardado ps w1 H)))
    as (ps & evs & w' & Hi & Hp & Hc & _ & _ & Ht & Hll).
  pose proof (cargadas_guardado ps Hc) as Hps.
  exists ps, evs, w'. split; [exact Hi|]. split; [exact Hp|].
  split; [exact Hps|].
  destruct ps as [|t [|t' r]]; try discriminate Hps.
  split; [exact Ht|].
  destruct evs as [|ev [|ev' evs]]; try discriminate Ht.
  rewrite Hll. reflexivity.
Defined.

Lemma inicializar_carga_witness :
  exists ev w',
    Store.inicializar Ejemplos.mundo_guardado = (Normal tt, w')
    /\ map cuatro (Store.plantillas w') = [cuatro Ejemplos.despedida]
    /\ tipo ev = "STORE_INICIALIZADO"
    /\ llamadas w' = [(2, ev)].
Proof.
  assert (Hq : Forall callado (_suscriptores Ejemplos.mundo_guardado)).
  { change (Forall callado [Ejemplos.segundo]).
    constructor; [intros ev; eexists; reflexivity|constructor]. }
  destruct (inicializar_carga Ejemplos.mundo_guardado)
    as (ps & Hc & _ & Hsi & _).
  pose proof (cargadas_guardado ps Hc) as Hps.
  destruct (Hsi Hq (convertibles_guardado ps Hps))
    as (ev & w' & Hi & Hp & _ & Ht & Hll).
  exists ev, w'. split; [exact Hi|]. split; [rewrite Hp; exact Hps|].
  split; [exact Ht|exact Hll].
Defined.

Lemma recargarDesdePersistencia_carga_witness :
  exists ev w',
    Store.recargarDesdePersistencia Ejemplos.mundo_guardado = (Normal true, w')
    /\ map cuatro (Store.plantillas w') = [cuatro Ejemplos.despedida]
    /\ datos ev = DatosRecargado 1
    /\ llamadas w' = [(2, ev)].
Proof.
  assert (Hq : Forall callado (_suscriptores Ejemplos.mundo_guardado)).
  { change (Forall callado [Ejemplos.segundo]).
    constructor; [intros ev; eexists; reflexivity|constructor]. }
  destruct (recargarDesdePersistencia_carga Ejemplos.mundo_guardado)
    as (ps & w0 & Hc & _ & _ & Hsi & _).
  pose proof (cargado_guardado ps w0 Hc) as Hps.
  destruct (Hsi Hq (convertibles_guardado ps Hps))
    as (ev & w' & Hi & Hp & _ & _ & Hd & Hll).
  exists ev, w'. split; [exact Hi|]. split; [rewrite Hp; exact Hps|].
  split; [|exact Hll].
  rewrite Hd. destruct ps as [|t [|t' r]]; try discriminate Hps. reflexivity.
Defined.

End CorridasExtras.
